(** * Zara homepage scraper: the scraping pipelines and their CLI entry points

    A shallow embedding of [src/scraper/zara_scraper.py],
    [src/scraper/demo_scraper.py], [src/scraper/test_scraper.py],
    [src/run_scraper.py], [src/run_demo.py] and [src/scraper/config.py].

    Conventions of the embedding.
    - A Python [str] is a [string]; literals are the source's, with the Rich
      colour markup, the pictographs and the bullets of console messages
      left out.
    - A Python exception is its message [str(e)]; every handler of the source
      is [except Exception], so one constructor [Raise] is enough.
    - The browser, the file system and the clock are an abstract world [W]
      answering every call through [respond]; the answer may depend on the
      whole history, and any call may raise.
    - The coroutines are run sequentially; the console, the logger and the
      calls made are recorded, in order, in the field [out] of the state.
    - [asyncio.sleep], [console.print], [print] and the logger do not raise. *)

From Stdlib Require Import String Ascii List ZArith Lia Bool DecimalString.
Import ListNotations.
Open Scope string_scope.

(** ** Python strings *)

Module Py.

(** [c.lower()] on one character (A-Z only; no other character lowers
    to a letter of the word looked for in a title). *)
Definition lower_ascii (c : ascii) : ascii :=
  let n := nat_of_ascii c in
  if andb (65 <=? n)%nat (n <=? 90)%nat then ascii_of_nat (n + 32) else c.

Fixpoint lower (s : string) : string :=
  match s with
  | EmptyString => EmptyString
  | String c r => String (lower_ascii c) (lower r)
  end.

(** [sub in s] *)
Fixpoint contains (sub s : string) : bool :=
  if String.prefix sub s then true
  else match s with
       | EmptyString => false
       | String _ r => contains sub r
       end.

(** [c.isspace()] for the code points below 256. *)
Definition isspace (c : ascii) : bool :=
  let n := nat_of_ascii c in
  orb (andb (9 <=? n)%nat (n <=? 13)%nat)
      (orb (andb (28 <=? n)%nat (n <=? 32)%nat)
           (orb (n =? 133)%nat (n =? 160)%nat)).

Fixpoint lstrip (s : string) : string :=
  match s with
  | EmptyString => EmptyString
  | String c r => if isspace c then lstrip r else s
  end.

Fixpoint rstrip (s : string) : string :=
  match s with
  | EmptyString => EmptyString
  | String c r =>
      match rstrip r with
      | EmptyString => if isspace c then EmptyString else String c EmptyString
      | r' => String c r'
      end
  end.

(** [s.strip()] *)
Definition strip (s : string) : string := rstrip (lstrip s).

(** truth value of a [str] and of an [Optional[str]] *)
Definition truthy (s : string) : bool :=
  match s with EmptyString => false | _ => true end.

Definition truthy_opt (o : option string) : bool :=
  match o with Some s => truthy s | None => false end.

(** [o or d] for an [Optional[str]] *)
Definition or_else (o : option string) (d : string) : string :=
  match o with
  | Some s => if truthy s then s else d
  | None => d
  end.

(** [str(n)] *)
Definition str_nat (n : nat) : string := NilZero.string_of_uint (Nat.to_uint n).
Definition str_Z (z : Z) : string := NilZero.string_of_int (Z.to_int z).

(** [str(o)] for an [Optional[str]] *)
Definition str_opt (o : option string) : string :=
  match o with Some s => s | None => "None" end.

(** [s[:n] + "..." if len(s) > n else s] *)
Definition ellipsis (n : nat) (s : string) : string :=
  if (n <? String.length s)%nat then String.substring 0 n s ++ "..." else s.

(** [pathlib]: [p / name] and [str(p)] on a POSIX system, for a relative
    [p] and a plain file or directory name. *)
Definition Path (s : string) : string := s.
Definition div (p name : string) : string := p ++ "/" ++ name.

(** the line feed of ["\n"] *)
Definition nl : string := String (ascii_of_nat 10) EmptyString.

(** [sep.join(l)] *)
Fixpoint join (sep : string) (l : list string) : string :=
  match l with
  | [] => EmptyString
  | [x] => x
  | x :: r => x ++ sep ++ join sep r
  end.

(** [s * n] *)
Fixpoint repeat (s : string) (n : nat) : string :=
  match n with
  | O => EmptyString
  | S k => s ++ repeat s k
  end.

(** [l[:n]] *)
Definition take {A} (n : nat) (l : list A) : list A := firstn n l.

(** [range(n)] *)
Definition range (n : Z) : list Z := map Z.of_nat (seq 0 (Z.to_nat n)).

End Py.

Infix "//" := Py.div (at level 40, left associativity).

(** ** The world: Playwright, the file system, the console *)

(** The outcome of a call: a value, or an exception with its message. *)
Inductive result (A : Type) : Type :=
| Ok (a : A)
| Raise (msg : string).
Arguments Ok {A} a.
Arguments Raise {A} msg.

Inductive level := DEBUG | INFO | WARNING | ERROR.

(** The calls that leave the program.  A locator is named by the selector
    (and text filter) it was built from; [RoleCount] and [RoleFirstClick]
    stand for the locator of [page.get_by_role("button", name=...)], built
    and then counted or clicked; an element handle of [query_selector_all]
    is named by its position in the returned list. *)
Inductive call :=
| PlaywrightStart
| ChromiumLaunch (headless : bool) (args : list string)
| NewContext (locale user_agent : string)
| NewPage
| PageOn (event : string)
| Goto (url wait_until : string) (timeout : Z)
| WaitForLoadState (state : string)
| Title
| Content
| WriteFile (path content : string)
| Screenshot (path : string) (full_page : bool)
| LocatorCount (selector : string)
| LocatorFirstClick (selector : string)
| RoleCount
| RoleFirstClick
| FilterCount (selector has_text : string)
| NthGetAttribute (selector has_text : string) (i : Z) (name : string)
| NthInnerText (selector has_text : string) (i : Z)
| QuerySelectorAll (selector : string)
| HandleInnerText (i : nat)
| HandleEvaluate (i : nat) (expression : string)
| ContextClose
| PlaywrightStop.




(** What a call answers when it does not raise. *)
Definition answer (c : call) : Type :=
  match c with
  | Title | Content | NthInnerText _ _ _ | HandleInnerText _
  | HandleEvaluate _ _ => string
  | LocatorCount _ | RoleCount | FilterCount _ _ => Z
  | QuerySelectorAll _ => nat
  | NthGetAttribute _ _ _ _ => option string
  | _ => unit
  end.

Class World (W : Type) : Type :=
  respond : forall c : call, W -> result (answer c) * W.

(** The answer of a call as a Python value, for the record of a run. *)
Inductive value :=
| VNone
| VStr (s : string)
| VInt (z : Z).

Definition to_value (c : call) : answer c -> value :=
  match c return answer c -> value with
  | Title | Content | NthInnerText _ _ _ | HandleInnerText _
  | HandleEvaluate _ _ => VStr
  | LocatorCount _ | RoleCount | FilterCount _ _ => VInt
  | QuerySelectorAll _ => fun n => VInt (Z.of_nat n)
  | NthGetAttribute _ _ _ _ =>
      fun o => match o with Some s => VStr s | None => VNone end
  | _ => fun _ => VNone
  end.

Inductive outcome :=
| Returned (v : value)
| Raised (msg : string).

Definition outcome_of (c : call) (r : result (answer c)) : outcome :=
  match r with
  | Ok a => Returned (to_value c a)
  | Raise msg => Raised msg
  end.

(** What a run leaves behind, in order. *)
Inductive event :=
| Log (lvl : level) (msg : string)
| Print (text : string)
| PrintPanel (title body : string)
| PrintTable (title : string) (rows : list (list string))
| Sleep (seconds : Z)
| Called (c : call) (o : outcome).

(** The attributes every scraper object has; [browser], [context] and
    [page] tell whether the attribute has been set (it is [None] before). *)
Record scraper (D : Type) : Type := Scraper {
  headless : bool;
  locale : string;
  browser : bool;
  context : bool;
  page : bool;
  timestamp : string;
  scrape_data : D
}.
Arguments Scraper {D}.
Arguments headless {D}.
Arguments locale {D}.
Arguments browser {D}.
Arguments context {D}.
Arguments page {D}.
Arguments timestamp {D}.
Arguments scrape_data {D}.

Definition with_browser {D} (s : scraper D) : scraper D :=
  Scraper (headless s) (locale s) true (context s) (page s) (timestamp s)
          (scrape_data s).

Definition with_context {D} (s : scraper D) : scraper D :=
  Scraper (headless s) (locale s) (browser s) true (page s) (timestamp s)
          (scrape_data s).

Definition with_page {D} (s : scraper D) : scraper D :=
  Scraper (headless s) (locale s) (browser s) (context s) true (timestamp s)
          (scrape_data s).

Definition with_data {D} (d : D) (s : scraper D) : scraper D :=
  Scraper (headless s) (locale s) (browser s) (context s) (page s)
          (timestamp s) d.

(** ** A state and exception monad for the coroutines *)

Section Monad.
Context {W : Type} `{World W} {D : Type}.

Record state : Type := State {
  world : W;
  self : scraper D;
  out : list event
}.

Definition M (A : Type) : Type := state -> result A * state.

Definition ret {A} (a : A) : M A := fun st => (Ok a, st).

Definition raise {A} (msg : string) : M A := fun st => (Raise msg, st).

Definition bind {A B} (m : M A) (k : A -> M B) : M B :=
  fun st =>
    match m st with
    | (Ok a, st') => k a st'
    | (Raise msg, st') => (Raise msg, st')
    end.

(** [try: m  except Exception as e: h (str(e))] *)
Definition try_except {A} (m : M A) (h : string -> M A) : M A :=
  fun st =>
    match m st with
    | (Ok a, st') => (Ok a, st')
    | (Raise msg, st') => h msg st'
    end.

Definition emit (e : event) : M unit :=
  fun st => (Ok tt, State (world st) (self st) (out st ++ [e])).

(** A call into the world; the call and its outcome are recorded. *)
Definition do_call (c : call) : M (answer c) :=
  fun st =>
    let (r, w) := respond c (world st) in
    (r, State w (self st) (out st ++ [Called c (outcome_of c r)])).

Definition get_self : M (scraper D) := fun st => (Ok (self st), st).

Definition set_self (s : scraper D) : M unit :=
  fun st => (Ok tt, State (world st) s (out st)).

(** [self.page.attr]: an [AttributeError] while [self.page] is [None]. *)
Definition page_attr (attr : string) : M unit :=
  bind get_self (fun s =>
    if page s then ret tt
    else raise ("'NoneType' object has no attribute '" ++ attr ++ "'")).

(** A call through [self.page]. *)
Definition page_call (attr : string) (c : call) : M (answer c) :=
  bind (page_attr attr) (fun _ => do_call c).

(** [self.browser = ...], [self.context = ...], [self.page = ...] *)
Definition set_browser : M unit :=
  bind get_self (fun s => set_self (with_browser s)).

Definition set_context : M unit :=
  bind get_self (fun s => set_self (with_context s)).

Definition set_page : M unit :=
  bind get_self (fun s => set_self (with_page s)).

Definition logger (lvl : level) (msg : string) : M unit := emit (Log lvl msg).
Definition print (text : string) : M unit := emit (Print text).
Definition sleep (seconds : Z) : M unit := emit (Sleep seconds).

(** A run of [print] statements, one per line of [l]. *)
Fixpoint print_lines (l : list string) : M unit :=
  match l with
  | [] => ret tt
  | x :: r => bind (print x) (fun _ => print_lines r)
  end.

Definition set_scrape_data (d : D) : M unit :=
  bind get_self (fun s => set_self (with_data d s)).

Definition get_scrape_data : M D :=
  bind get_self (fun s => ret (scrape_data s)).

End Monad.

Arguments state W D : clear implicits.
Arguments M W D A : clear implicits.

Notation "x <- m ;; k" := (bind m (fun x => k))
  (at level 61, m at next level, right associativity).
Notation "m ;; k" := (bind m (fun _ => k))
  (at level 61, right associativity).

(** ** [src/scraper/config.py] *)

Module config.

Definition COOKIE_SELECTORS : list string :=
  [ "button[data-testid='cookie-accept']";
    "button:has-text('Accept')";
    "button:has-text('Accept All')";
    "button:has-text('I Accept')";
    "button:has-text('OK')";
    "button:has-text('Continue')";
    "button:has-text('Got it')";
    "[data-testid='cookie-banner'] button";
    ".cookie-accept";
    "#cookie-accept";
    "button[aria-label*='Accept']";
    "button[aria-label*='Cookie']";
    ".accept-cookies";
    "#accept-cookies";
    "button[class*='accept']";
    "button[class*='cookie']";
    ".gdpr-accept";
    "#gdpr-accept" ].



End config.

(** The launch arguments and the user agent, the same in the three classes. *)
Definition LAUNCH_ARGS : list string :=
  [ "--no-sandbox";
    "--disable-dev-shm-usage";
    "--disable-gpu";
    "--disable-web-security";
    "--disable-features=VizDisplayCompositor" ].

Definition USER_AGENT : string :=
  "Mozilla/5.0 (Windows NT 10.0; Win64; x64) AppleWebKit/537.36 (KHTML, like Gecko) Chrome/120.0.0.0 Safari/537.36".

(** ** [src/scraper/zara_scraper.py] *)

Module ZaraScraper.

Definition ZARA_HOME_URL : string := "https://www.zara.com/".
Definition LOCALE : string := "en-US".
Definition BROWSER_TYPE : string := "chromium".
Definition HEADLESS : bool := true.

Definition OUTPUT_DIR : string := Py.Path "data/scrapes".
Definition SCREENSHOTS_DIR : string := OUTPUT_DIR // "screenshots".
Definition HTML_DIR : string := OUTPUT_DIR // "html".
Definition LOGS_DIR : string := OUTPUT_DIR // "logs".

Record banner := Banner {
  text : string;
  href : string;
  index : Z
}.

(** [self.scrape_data]; the key ["banners"] is absent until a run
    succeeds. *)
Record data := Data {
  d_timestamp : string;
  d_url : string;
  d_locale : string;
  success : bool;
  html_file : option string;
  screenshot_file : option string;
  banners_found : nat;
  errors : list string;
  banners : option (list banner)
}.

Definition with_success (b : bool) (d : data) : data :=
  Data (d_timestamp d) (d_url d) (d_locale d) b (html_file d)
       (screenshot_file d) (banners_found d) (errors d) (banners d).

Definition with_html_file (p : string) (d : data) : data :=
  Data (d_timestamp d) (d_url d) (d_locale d) (success d) (Some p)
       (screenshot_file d) (banners_found d) (errors d) (banners d).

Definition with_screenshot_file (p : string) (d : data) : data :=
  Data (d_timestamp d) (d_url d) (d_locale d) (success d) (html_file d)
       (Some p) (banners_found d) (errors d) (banners d).

Definition with_banners_found (n : nat) (d : data) : data :=
  Data (d_timestamp d) (d_url d) (d_locale d) (success d) (html_file d)
       (screenshot_file d) n (errors d) (banners d).

Definition with_error (msg : string) (d : data) : data :=
  Data (d_timestamp d) (d_url d) (d_locale d) (success d) (html_file d)
       (screenshot_file d) (banners_found d) (errors d ++ [msg]) (banners d).

Definition with_banners (l : list banner) (d : data) : data :=
  Data (d_timestamp d) (d_url d) (d_locale d) (success d) (html_file d)
       (screenshot_file d) (banners_found d) (errors d) (Some l).

(** [ZaraScraper.__init__]; [now] is
    [datetime.now().strftime("%Y%m%d_%H%M%S")]. *)
Definition __init__ (now : string) (headless : bool) (locale : string)
  : scraper data :=
  Scraper headless locale false false false now
    (Data now ZARA_HOME_URL locale false None None 0 [] None).

Definition cookie_selectors : list string :=
  [ "button[data-testid='cookie-accept']";
    "button:has-text('Accept')";
    "button:has-text('Accept All')";
    "button:has-text('I Accept')";
    "button:has-text('OK')";
    "[data-testid='cookie-banner'] button";
    ".cookie-accept";
    "#cookie-accept";
    "button[aria-label*='Accept']";
    "button[aria-label*='Cookie']" ].

Section Methods.
Context {W : Type} `{World W}.

(** [self.scrape_data[...] = ...] and [self.scrape_data["errors"].append] *)
Definition update (f : data -> data) : M W data unit :=
  d <- get_scrape_data ;; set_scrape_data (f d).

Definition start_browser : M W data unit :=
  try_except
    (print ("Starting " ++ BROWSER_TYPE ++ " browser...") ;;
     logger INFO ("Starting " ++ BROWSER_TYPE ++ " browser") ;;
     do_call PlaywrightStart ;;
     set_browser ;;
     s <- get_self ;;
     do_call (ChromiumLaunch (headless s) LAUNCH_ARGS) ;;
     do_call (NewContext (locale s) USER_AGENT) ;;
     set_context ;;
     do_call NewPage ;;
     set_page ;;
     do_call (PageOn "pageerror") ;;
     do_call (PageOn "requestfailed") ;;
     print "Browser started successfully" ;;
     logger INFO "Browser started successfully")
    (fun e =>
       let error_msg := "Failed to start browser: " ++ e in
       print error_msg ;;
       logger ERROR error_msg ;;
       update (with_error error_msg) ;;
       raise e).

(** The callback registered for ["pageerror"]. *)
Definition _handle_page_error (error : string) : M W data unit :=
  let error_msg := "Page error: " ++ error in
  logger ERROR error_msg ;;
  update (with_error error_msg).

(** The callback registered for ["requestfailed"]; [errorText] is
    [request.failure.get('errorText')]. *)
Definition _handle_request_failed (request_url : string)
    (errorText : option string) : M W data unit :=
  let error_msg :=
    "Request failed: " ++ request_url ++ " - "
      ++ match errorText with Some t => t | None => "Unknown error" end in
  logger WARNING error_msg.

(** The [for selector in cookie_selectors] loop; the answer tells
    whether the loop left the method through [return True]. *)
Fixpoint scan_selectors (selectors : list string) : M W data bool :=
  match selectors with
  | [] => ret false
  | selector :: rest =>
      returned <-
        try_except
          (page_attr "locator" ;;
           n <- do_call (LocatorCount selector) ;;
           if (0 <? n)%Z then
             do_call (LocatorFirstClick selector) ;;
             print ("Cookie popup handled with selector: " ++ selector) ;;
             logger INFO ("Cookie popup handled with selector: " ++ selector) ;;
             ret true
           else ret false)
          (fun e =>
             logger DEBUG ("Selector " ++ selector ++ " failed: " ++ e) ;;
             ret false) ;;
      if returned : bool then ret true else scan_selectors rest
  end.

Definition handle_cookie_popup : M W data bool :=
  try_except
    (print "Looking for cookie popup..." ;;
     logger INFO "Checking for cookie popup" ;;
     sleep 2 ;;
     returned <- scan_selectors cookie_selectors ;;
     if returned : bool then ret true
     else
       returned <-
         try_except
           (page_attr "get_by_role" ;;
            n <- do_call RoleCount ;;
            if (0 <? n)%Z then
              do_call RoleFirstClick ;;
              print "Cookie popup handled via role" ;;
              logger INFO "Cookie popup handled via role" ;;
              ret true
            else ret false)
           (fun e =>
              logger DEBUG ("Role-based approach failed: " ++ e) ;;
              ret false) ;;
       if returned : bool then ret true
       else
         print "No cookie popup found or already handled" ;;
         logger INFO "No cookie popup found or already handled" ;;
         ret false)
    (fun e =>
       let error_msg := "Error handling cookie popup: " ++ e in
       print error_msg ;;
       logger ERROR error_msg ;;
       update (with_error error_msg) ;;
       ret false).

Definition navigate_to_homepage : M W data bool :=
  try_except
    (print ("Navigating to " ++ ZARA_HOME_URL ++ "...") ;;
     logger INFO ("Navigating to " ++ ZARA_HOME_URL) ;;
     page_call "goto" (Goto ZARA_HOME_URL "networkidle" 30000) ;;
     page_call "wait_for_load_state" (WaitForLoadState "domcontentloaded") ;;
     handle_cookie_popup ;;
     title <- page_call "title" Title ;;
     if Py.contains "zara" (Py.lower title) then
       print ("Successfully loaded: " ++ title) ;;
       logger INFO ("Successfully loaded page: " ++ title) ;;
       ret true
     else
       print ("Unexpected page title: " ++ title) ;;
       logger WARNING ("Unexpected page title: " ++ title) ;;
       ret false)
    (fun e =>
       let error_msg := "Failed to navigate to homepage: " ++ e in
       print error_msg ;;
       logger ERROR error_msg ;;
       update (with_error error_msg) ;;
       ret false).

Definition save_html : M W data (option string) :=
  try_except
    (print "Saving HTML content..." ;;
     logger INFO "Saving HTML content" ;;
     html_content <- page_call "content" Content ;;
     s <- get_self ;;
     let html_filename := "zara_homepage_" ++ timestamp s ++ ".html" in
     let html_filepath := HTML_DIR // html_filename in
     do_call (WriteFile html_filepath html_content) ;;
     print ("HTML saved: " ++ html_filepath) ;;
     logger INFO ("HTML saved: " ++ html_filepath) ;;
     update (with_html_file html_filepath) ;;
     ret (Some html_filepath))
    (fun e =>
       let error_msg := "Failed to save HTML: " ++ e in
       print error_msg ;;
       logger ERROR error_msg ;;
       update (with_error error_msg) ;;
       ret None).

Definition save_screenshot : M W data (option string) :=
  try_except
    (print "Taking screenshot..." ;;
     logger INFO "Taking screenshot" ;;
     s <- get_self ;;
     let screenshot_filename := "zara_homepage_" ++ timestamp s ++ ".png" in
     let screenshot_filepath := SCREENSHOTS_DIR // screenshot_filename in
     page_call "screenshot" (Screenshot screenshot_filepath true) ;;
     print ("Screenshot saved: " ++ screenshot_filepath) ;;
     logger INFO ("Screenshot saved: " ++ screenshot_filepath) ;;
     update (with_screenshot_file screenshot_filepath) ;;
     ret (Some screenshot_filepath))
    (fun e =>
       let error_msg := "Failed to save screenshot: " ++ e in
       print error_msg ;;
       logger ERROR error_msg ;;
       update (with_error error_msg) ;;
       ret None).

(** The [for i in range(min(count, 20))] loop, threading [banners]. *)
Fixpoint extract_loop (indices : list Z) (banners : list banner)
  : M W data (list banner) :=
  match indices with
  | [] => ret banners
  | i :: rest =>
      banners' <-
        try_except
          (href <- do_call (NthGetAttribute "a:visible" "SHOP" i "href") ;;
           text <- do_call (NthInnerText "a:visible" "SHOP" i) ;;
           match href with
           | Some h =>
               if Py.truthy h && Py.truthy (Py.strip text) then
                 ret (banners ++ [Banner (Py.strip text) h i])%list
               else ret banners
           | None => ret banners
           end)
          (fun e =>
             logger DEBUG
               ("Error extracting banner " ++ Py.str_Z i ++ ": " ++ e) ;;
             ret banners) ;;
      extract_loop rest banners'
  end.

Definition extract_hero_banners : M W data (list banner) :=
  try_except
    (print "Extracting hero banners..." ;;
     logger INFO "Extracting hero banners" ;;
     page_call "wait_for_load_state" (WaitForLoadState "networkidle") ;;
     count <- page_call "locator" (FilterCount "a:visible" "SHOP") ;;
     print ("Found " ++ Py.str_Z count ++ " potential banner elements") ;;
     banners <- extract_loop (Py.range (Z.min count 20)) [] ;;
     print ("Extracted " ++ Py.str_nat (length banners) ++ " banners") ;;
     logger INFO ("Extracted " ++ Py.str_nat (length banners) ++ " banners") ;;
     update (with_banners_found (length banners)) ;;
     ret banners)
    (fun e =>
       let error_msg := "Failed to extract banners: " ++ e in
       print error_msg ;;
       logger ERROR error_msg ;;
       update (with_error error_msg) ;;
       ret []).

Definition banner_row (b : banner) : list string :=
  [ Py.str_Z (index b); Py.ellipsis 50 (text b); Py.ellipsis 50 (href b) ].

Definition _display_results : M W data unit :=
  try_except
    (d <- get_scrape_data ;;
     emit (PrintTable "Scraping Results"
       [ [ "Status"; if success d then "Success" else "Failed" ];
         [ "Timestamp"; d_timestamp d ];
         [ "HTML File"; Py.or_else (html_file d) "Not saved" ];
         [ "Screenshot"; Py.or_else (screenshot_file d) "Not saved" ];
         [ "Banners Found"; Py.str_nat (banners_found d) ];
         [ "Errors"; Py.str_nat (length (errors d)) ] ]) ;;
     match banners d with
     | Some (b :: l) =>
         let bs := b :: l in
         let more := "... and " ++ Py.str_nat (length bs - 5) ++ " more" in
         emit (PrintTable "Extracted Banners"
           (map banner_row (Py.take 5 bs)
            ++ (if (5 <? length bs)%nat then [ [ "..."; more; "..." ] ]
                else []))%list)
     | _ => ret tt
     end ;;
     match errors d with
     | _ :: _ =>
         emit (PrintPanel "Errors Encountered" (Py.join Py.nl (errors d)))
     | [] => ret tt
     end)
    (fun e => logger ERROR ("Error displaying results: " ++ e)).

Definition run_scrape : M W data data :=
  try_except
    (s <- get_self ;;
     emit (PrintPanel "Starting Scrape"
       ("Zara Homepage Scraper - Ticket 2" ++ Py.nl
        ++ "Timestamp: " ++ timestamp s ++ Py.nl
        ++ "URL: " ++ ZARA_HOME_URL ++ Py.nl
        ++ "Locale: " ++ locale s)) ;;
     logger INFO "Starting Zara homepage scrape" ;;
     navigated <- navigate_to_homepage ;;
     if negb navigated then
       update (with_success false) ;;
       get_scrape_data
     else
       html_file <- save_html ;;
       screenshot_file <- save_screenshot ;;
       banners <- extract_hero_banners ;;
       update (with_success true) ;;
       update (with_banners banners) ;;
       _display_results ;;
       emit (PrintPanel "Success" "Scraping Completed Successfully!") ;;
       logger INFO "Scraping completed successfully" ;;
       get_scrape_data)
    (fun e =>
       let error_msg := "Scraping failed: " ++ e in
       print error_msg ;;
       logger ERROR error_msg ;;
       update (with_error error_msg) ;;
       update (with_success false) ;;
       get_scrape_data).

(** What [main] returns: [self.scrape_data], or the dict
    [{"success": False, "error": str(e)}]. *)
Inductive results :=
| ScrapeData (d : data)
| MainError (error : string).

(** [results.get("success")] *)
Definition get_success (r : results) : bool :=
  match r with ScrapeData d => success d | MainError _ => false end.

Definition __aenter__ : M W data unit := start_browser.

Definition __aexit__ : M W data unit := ret tt.

(** [main]: the scraper object is built first (whatever [self] held
    is dropped); [__aexit__] runs when the body of the [async with]
    is left, by [return] or by an exception. *)
Definition main (now : string) : M W data results :=
  try_except
    (set_self (__init__ now HEADLESS LOCALE) ;;
     logger INFO ("Initialized ZaraScraper with timestamp: " ++ now) ;;
     __aenter__ ;;
     res <- try_except
              (r <- run_scrape ;; __aexit__ ;; ret (ScrapeData r))
              (fun e => __aexit__ ;; raise e) ;;
     ret res)
    (fun e =>
       print ("Main function error: " ++ e) ;;
       logger ERROR ("Main function error: " ++ e) ;;
       ret (MainError e)).

(** The [if __name__ == "__main__"] block; the answer is the exit code. *)
Definition __main__ (now : string) : M W data Z :=
  res <- main now ;;
  ret (if get_success res then 0 else 1)%Z.

End Methods.

End ZaraScraper.

(** ** The result record of [DemoScraper] and [TestScraper]

    The two classes build a dict with the same keys; the key
    ["extracted_data"] is absent until a run succeeds. *)

Module Headings.

Record item := Item {
  type : string;
  text : string;
  index : nat
}.

Record data := Data {
  d_timestamp : string;
  d_url : string;
  d_locale : string;
  success : bool;
  html_file : option string;
  screenshot_file : option string;
  title : option string;
  headings_found : nat;
  errors : list string;
  extracted_data : option (list item)
}.

Definition with_success (b : bool) (d : data) : data :=
  Data (d_timestamp d) (d_url d) (d_locale d) b (html_file d)
       (screenshot_file d) (title d) (headings_found d) (errors d)
       (extracted_data d).

Definition with_html_file (p : string) (d : data) : data :=
  Data (d_timestamp d) (d_url d) (d_locale d) (success d) (Some p)
       (screenshot_file d) (title d) (headings_found d) (errors d)
       (extracted_data d).

Definition with_screenshot_file (p : string) (d : data) : data :=
  Data (d_timestamp d) (d_url d) (d_locale d) (success d) (html_file d)
       (Some p) (title d) (headings_found d) (errors d) (extracted_data d).

Definition with_title (t : string) (d : data) : data :=
  Data (d_timestamp d) (d_url d) (d_locale d) (success d) (html_file d)
       (screenshot_file d) (Some t) (headings_found d) (errors d)
       (extracted_data d).

Definition with_headings_found (n : nat) (d : data) : data :=
  Data (d_timestamp d) (d_url d) (d_locale d) (success d) (html_file d)
       (screenshot_file d) (title d) n (errors d) (extracted_data d).

Definition with_error (msg : string) (d : data) : data :=
  Data (d_timestamp d) (d_url d) (d_locale d) (success d) (html_file d)
       (screenshot_file d) (title d) (headings_found d) (errors d ++ [msg])
       (extracted_data d).

Definition with_extracted_data (l : list item) (d : data) : data :=
  Data (d_timestamp d) (d_url d) (d_locale d) (success d) (html_file d)
       (screenshot_file d) (title d) (headings_found d) (errors d) (Some l).

(** What [main] returns in the two modules. *)
Inductive results :=
| ScrapeData (d : data)
| MainError (error : string).

(** [results.get("success")] *)
Definition get_success (r : results) : bool :=
  match r with ScrapeData d => success d | MainError _ => false end.

Definition item_row (it : item) : list string :=
  [ type it; Py.ellipsis 50 (text it); Py.str_nat (index it) ].

Section Update.
Context {W : Type} `{World W}.

Definition update (f : data -> data) : M W data unit :=
  d <- get_scrape_data ;; set_scrape_data (f d).

End Update.

End Headings.

(** ** [src/scraper/demo_scraper.py] *)

Module DemoScraper.
Import Headings.

Definition DEMO_URL : string := "https://httpbin.org/html".
Definition LOCALE : string := "en-US".
Definition BROWSER_TYPE : string := "chromium".
Definition HEADLESS : bool := true.

Definition OUTPUT_DIR : string := Py.Path "data/demo_scrapes".
Definition SCREENSHOTS_DIR : string := OUTPUT_DIR // "screenshots".
Definition HTML_DIR : string := OUTPUT_DIR // "html".
Definition LOGS_DIR : string := OUTPUT_DIR // "logs".

(** [DemoScraper.__init__]; [now] is
    [datetime.now().strftime("%Y%m%d_%H%M%S")]. *)
Definition __init__ (now : string) (headless : bool) (locale : string)
  : scraper data :=
  Scraper headless locale false false false now
    (Data now DEMO_URL locale false None None None 0 [] None).

Section Methods.
Context {W : Type} `{World W}.

Definition start_browser : M W data unit :=
  try_except
    (print ("Starting " ++ BROWSER_TYPE ++ " browser...") ;;
     logger INFO ("Starting " ++ BROWSER_TYPE ++ " browser") ;;
     do_call PlaywrightStart ;;
     set_browser ;;
     s <- get_self ;;
     do_call (ChromiumLaunch (headless s) LAUNCH_ARGS) ;;
     do_call (NewContext (locale s) USER_AGENT) ;;
     set_context ;;
     do_call NewPage ;;
     set_page ;;
     do_call (PageOn "pageerror") ;;
     do_call (PageOn "requestfailed") ;;
     print "Browser started successfully" ;;
     logger INFO "Browser started successfully")
    (fun e =>
       let error_msg := "Failed to start browser: " ++ e in
       print error_msg ;;
       logger ERROR error_msg ;;
       update (with_error error_msg) ;;
       raise e).

Definition cleanup : M W data unit :=
  try_except
    (s <- get_self ;;
     (if context s then
        do_call ContextClose ;;
        logger INFO "Browser context closed"
      else ret tt) ;;
     (if browser s then
        do_call PlaywrightStop ;;
        logger INFO "Browser stopped"
      else ret tt))
    (fun e => logger ERROR ("Error during cleanup: " ++ e)).

(** The callback registered for ["pageerror"]. *)
Definition _handle_page_error (error : string) : M W data unit :=
  let error_msg := "Page error: " ++ error in
  logger ERROR error_msg ;;
  update (with_error error_msg).

(** The callback registered for ["requestfailed"]. *)
Definition _handle_request_failed (request_url : string)
    (errorText : option string) : M W data unit :=
  let error_msg :=
    "Request failed: " ++ request_url ++ " - "
      ++ match errorText with Some t => t | None => "Unknown error" end in
  logger WARNING error_msg.

Definition navigate_to_page : M W data bool :=
  try_except
    (print ("Navigating to " ++ DEMO_URL ++ "...") ;;
     logger INFO ("Navigating to " ++ DEMO_URL) ;;
     page_call "goto" (Goto DEMO_URL "networkidle" 30000) ;;
     page_call "wait_for_load_state" (WaitForLoadState "domcontentloaded") ;;
     title <- page_call "title" Title ;;
     update (with_title title) ;;
     print ("Successfully loaded: " ++ title) ;;
     logger INFO ("Successfully loaded page: " ++ title) ;;
     ret true)
    (fun e =>
       let error_msg := "Failed to navigate to page: " ++ e in
       print error_msg ;;
       logger ERROR error_msg ;;
       update (with_error error_msg) ;;
       ret false).

Definition save_html : M W data (option string) :=
  try_except
    (print "Saving HTML content..." ;;
     logger INFO "Saving HTML content" ;;
     html_content <- page_call "content" Content ;;
     s <- get_self ;;
     let html_filename := "demo_page_" ++ timestamp s ++ ".html" in
     let html_filepath := HTML_DIR // html_filename in
     do_call (WriteFile html_filepath html_content) ;;
     print ("HTML saved: " ++ html_filepath) ;;
     logger INFO ("HTML saved: " ++ html_filepath) ;;
     update (with_html_file html_filepath) ;;
     ret (Some html_filepath))
    (fun e =>
       let error_msg := "Failed to save HTML: " ++ e in
       print error_msg ;;
       logger ERROR error_msg ;;
       update (with_error error_msg) ;;
       ret None).

Definition save_screenshot : M W data (option string) :=
  try_except
    (print "Taking screenshot..." ;;
     logger INFO "Taking screenshot" ;;
     s <- get_self ;;
     let screenshot_filename := "demo_page_" ++ timestamp s ++ ".png" in
     let screenshot_filepath := SCREENSHOTS_DIR // screenshot_filename in
     page_call "screenshot" (Screenshot screenshot_filepath true) ;;
     print ("Screenshot saved: " ++ screenshot_filepath) ;;
     logger INFO ("Screenshot saved: " ++ screenshot_filepath) ;;
     update (with_screenshot_file screenshot_filepath) ;;
     ret (Some screenshot_filepath))
    (fun e =>
       let error_msg := "Failed to save screenshot: " ++ e in
       print error_msg ;;
       logger ERROR error_msg ;;
       update (with_error error_msg) ;;
       ret None).

(** The [for i, heading in enumerate(headings)] loop, threading
    [extracted_data]. *)
Fixpoint extract_loop (indices : list nat) (extracted_data : list item)
  : M W data (list item) :=
  match indices with
  | [] => ret extracted_data
  | i :: rest =>
      extracted_data' <-
        try_except
          (text <- do_call (HandleInnerText i) ;;
           tag_name <-
             do_call (HandleEvaluate i "el => el.tagName.toLowerCase()") ;;
           if Py.truthy (Py.strip text) then
             ret (extracted_data ++ [Item tag_name (Py.strip text) i])%list
           else ret extracted_data)
          (fun e =>
             logger DEBUG
               ("Error extracting heading " ++ Py.str_nat i ++ ": " ++ e) ;;
             ret extracted_data) ;;
      extract_loop rest extracted_data'
  end.

Definition extract_data : M W data (list item) :=
  try_except
    (print "Extracting page data..." ;;
     logger INFO "Extracting page data" ;;
     page_call "wait_for_load_state" (WaitForLoadState "networkidle") ;;
     headings <-
       page_call "query_selector_all"
         (QuerySelectorAll "h1, h2, h3, h4, h5, h6") ;;
     extracted_data <- extract_loop (seq 0 headings) [] ;;
     print ("Extracted " ++ Py.str_nat (length extracted_data) ++ " elements") ;;
     logger INFO
       ("Extracted " ++ Py.str_nat (length extracted_data) ++ " elements") ;;
     update (with_headings_found (length extracted_data)) ;;
     ret extracted_data)
    (fun e =>
       let error_msg := "Failed to extract data: " ++ e in
       print error_msg ;;
       logger ERROR error_msg ;;
       update (with_error error_msg) ;;
       ret []).

Definition _display_results : M W data unit :=
  try_except
    (d <- get_scrape_data ;;
     emit (PrintTable "Demo Scraping Results"
       [ [ "Status"; if success d then "Success" else "Failed" ];
         [ "Timestamp"; d_timestamp d ];
         [ "Title"; Py.or_else (title d) "N/A" ];
         [ "HTML File"; Py.or_else (html_file d) "Not saved" ];
         [ "Screenshot"; Py.or_else (screenshot_file d) "Not saved" ];
         [ "Elements Found"; Py.str_nat (headings_found d) ];
         [ "Errors"; Py.str_nat (length (errors d)) ] ]) ;;
     match extracted_data d with
     | Some (it :: l) =>
         let items := it :: l in
         let more := "... and " ++ Py.str_nat (length items - 5) ++ " more" in
         emit (PrintTable "Extracted Elements"
           (map item_row (Py.take 5 items)
            ++ (if (5 <? length items)%nat then [ [ "..."; more; "..." ] ]
                else []))%list)
     | _ => ret tt
     end ;;
     match errors d with
     | _ :: _ =>
         emit (PrintPanel "Errors Encountered" (Py.join Py.nl (errors d)))
     | [] => ret tt
     end)
    (fun e => logger ERROR ("Error displaying results: " ++ e)).

Definition run_scrape : M W data data :=
  try_except
    (s <- get_self ;;
     emit (PrintPanel "Starting Demo Scrape"
       ("Demo Scraper - Ticket 2 Implementation" ++ Py.nl
        ++ "Timestamp: " ++ timestamp s ++ Py.nl
        ++ "URL: " ++ DEMO_URL ++ Py.nl
        ++ "Locale: " ++ locale s)) ;;
     logger INFO "Starting demo scrape" ;;
     navigated <- navigate_to_page ;;
     if negb navigated then
       update (with_success false) ;;
       get_scrape_data
     else
       html_file <- save_html ;;
       screenshot_file <- save_screenshot ;;
       extracted_data <- extract_data ;;
       update (with_success true) ;;
       update (with_extracted_data extracted_data) ;;
       _display_results ;;
       emit (PrintPanel "Success" "Demo Scraping Completed Successfully!") ;;
       logger INFO "Demo scraping completed successfully" ;;
       get_scrape_data)
    (fun e =>
       let error_msg := "Demo scraping failed: " ++ e in
       print error_msg ;;
       logger ERROR error_msg ;;
       update (with_error error_msg) ;;
       update (with_success false) ;;
       get_scrape_data).

Definition __aenter__ : M W data unit := start_browser.

Definition __aexit__ : M W data unit := cleanup.

(** [main]: the scraper object is built first (whatever [self] held
    is dropped); [__aexit__] runs when the body of the [async with]
    is left, by [return] or by an exception. *)
Definition main (now : string) : M W data results :=
  try_except
    (set_self (__init__ now HEADLESS LOCALE) ;;
     logger INFO ("Initialized DemoScraper with timestamp: " ++ now) ;;
     __aenter__ ;;
     res <- try_except
              (r <- run_scrape ;; __aexit__ ;; ret (ScrapeData r))
              (fun e => __aexit__ ;; raise e) ;;
     ret res)
    (fun e =>
       print ("Main function error: " ++ e) ;;
       logger ERROR ("Main function error: " ++ e) ;;
       ret (MainError e)).

(** The [if __name__ == "__main__"] block; the answer is the exit code. *)
Definition __main__ (now : string) : M W data Z :=
  res <- main now ;;
  ret (if get_success res then 0 else 1)%Z.

End Methods.

End DemoScraper.

(** ** [src/scraper/test_scraper.py] *)

Module TestScraper.
Import Headings.

Definition TEST_URL : string := "https://example.com".
Definition LOCALE : string := "en-US".
Definition BROWSER_TYPE : string := "chromium".
Definition HEADLESS : bool := true.

Definition OUTPUT_DIR : string := Py.Path "data/test_scrapes".
Definition SCREENSHOTS_DIR : string := OUTPUT_DIR // "screenshots".
Definition HTML_DIR : string := OUTPUT_DIR // "html".
Definition LOGS_DIR : string := OUTPUT_DIR // "logs".

(** [TestScraper.__init__]; [now] is
    [datetime.now().strftime("%Y%m%d_%H%M%S")]. *)
Definition __init__ (now : string) (headless : bool) (locale : string)
  : scraper data :=
  Scraper headless locale false false false now
    (Data now TEST_URL locale false None None None 0 [] None).

Section Methods.
Context {W : Type} `{World W}.

Definition start_browser : M W data unit :=
  try_except
    (print ("Starting " ++ BROWSER_TYPE ++ " browser...") ;;
     logger INFO ("Starting " ++ BROWSER_TYPE ++ " browser") ;;
     do_call PlaywrightStart ;;
     set_browser ;;
     s <- get_self ;;
     do_call (ChromiumLaunch (headless s) LAUNCH_ARGS) ;;
     do_call (NewContext (locale s) USER_AGENT) ;;
     set_context ;;
     do_call NewPage ;;
     set_page ;;
     do_call (PageOn "pageerror") ;;
     do_call (PageOn "requestfailed") ;;
     print "Browser started successfully" ;;
     logger INFO "Browser started successfully")
    (fun e =>
       let error_msg := "Failed to start browser: " ++ e in
       print error_msg ;;
       logger ERROR error_msg ;;
       update (with_error error_msg) ;;
       raise e).

Definition cleanup : M W data unit :=
  try_except
    (s <- get_self ;;
     (if context s then
        do_call ContextClose ;;
        logger INFO "Browser context closed"
      else ret tt) ;;
     (if browser s then
        do_call PlaywrightStop ;;
        logger INFO "Browser stopped"
      else ret tt))
    (fun e => logger ERROR ("Error during cleanup: " ++ e)).

(** The callback registered for ["pageerror"]. *)
Definition _handle_page_error (error : string) : M W data unit :=
  let error_msg := "Page error: " ++ error in
  logger ERROR error_msg ;;
  update (with_error error_msg).

(** The callback registered for ["requestfailed"]. *)
Definition _handle_request_failed (request_url : string)
    (errorText : option string) : M W data unit :=
  let error_msg :=
    "Request failed: " ++ request_url ++ " - "
      ++ match errorText with Some t => t | None => "Unknown error" end in
  logger WARNING error_msg.

Definition navigate_to_page : M W data bool :=
  try_except
    (print ("Navigating to " ++ TEST_URL ++ "...") ;;
     logger INFO ("Navigating to " ++ TEST_URL) ;;
     page_call "goto" (Goto TEST_URL "networkidle" 30000) ;;
     page_call "wait_for_load_state" (WaitForLoadState "domcontentloaded") ;;
     title <- page_call "title" Title ;;
     update (with_title title) ;;
     print ("Successfully loaded: " ++ title) ;;
     logger INFO ("Successfully loaded page: " ++ title) ;;
     ret true)
    (fun e =>
       let error_msg := "Failed to navigate to page: " ++ e in
       print error_msg ;;
       logger ERROR error_msg ;;
       update (with_error error_msg) ;;
       ret false).

Definition save_html : M W data (option string) :=
  try_except
    (print "Saving HTML content..." ;;
     logger INFO "Saving HTML content" ;;
     html_content <- page_call "content" Content ;;
     s <- get_self ;;
     let html_filename := "test_page_" ++ timestamp s ++ ".html" in
     let html_filepath := HTML_DIR // html_filename in
     do_call (WriteFile html_filepath html_content) ;;
     print ("HTML saved: " ++ html_filepath) ;;
     logger INFO ("HTML saved: " ++ html_filepath) ;;
     update (with_html_file html_filepath) ;;
     ret (Some html_filepath))
    (fun e =>
       let error_msg := "Failed to save HTML: " ++ e in
       print error_msg ;;
       logger ERROR error_msg ;;
       update (with_error error_msg) ;;
       ret None).

Definition save_screenshot : M W data (option string) :=
  try_except
    (print "Taking screenshot..." ;;
     logger INFO "Taking screenshot" ;;
     s <- get_self ;;
     let screenshot_filename := "test_page_" ++ timestamp s ++ ".png" in
     let screenshot_filepath := SCREENSHOTS_DIR // screenshot_filename in
     page_call "screenshot" (Screenshot screenshot_filepath true) ;;
     print ("Screenshot saved: " ++ screenshot_filepath) ;;
     logger INFO ("Screenshot saved: " ++ screenshot_filepath) ;;
     update (with_screenshot_file screenshot_filepath) ;;
     ret (Some screenshot_filepath))
    (fun e =>
       let error_msg := "Failed to save screenshot: " ++ e in
       print error_msg ;;
       logger ERROR error_msg ;;
       update (with_error error_msg) ;;
       ret None).

(** The [for i, heading in enumerate(headings)] loop, threading
    [extracted_data]. *)
Fixpoint extract_loop (indices : list nat) (extracted_data : list item)
  : M W data (list item) :=
  match indices with
  | [] => ret extracted_data
  | i :: rest =>
      extracted_data' <-
        try_except
          (text <- do_call (HandleInnerText i) ;;
           tag_name <-
             do_call (HandleEvaluate i "el => el.tagName.toLowerCase()") ;;
           if Py.truthy (Py.strip text) then
             ret (extracted_data ++ [Item tag_name (Py.strip text) i])%list
           else ret extracted_data)
          (fun e =>
             logger DEBUG
               ("Error extracting heading " ++ Py.str_nat i ++ ": " ++ e) ;;
             ret extracted_data) ;;
      extract_loop rest extracted_data'
  end.

Definition extract_data : M W data (list item) :=
  try_except
    (print "Extracting page data..." ;;
     logger INFO "Extracting page data" ;;
     page_call "wait_for_load_state" (WaitForLoadState "networkidle") ;;
     headings <-
       page_call "query_selector_all"
         (QuerySelectorAll "h1, h2, h3, h4, h5, h6") ;;
     extracted_data <- extract_loop (seq 0 headings) [] ;;
     print ("Extracted " ++ Py.str_nat (length extracted_data) ++ " elements") ;;
     logger INFO
       ("Extracted " ++ Py.str_nat (length extracted_data) ++ " elements") ;;
     update (with_headings_found (length extracted_data)) ;;
     ret extracted_data)
    (fun e =>
       let error_msg := "Failed to extract data: " ++ e in
       print error_msg ;;
       logger ERROR error_msg ;;
       update (with_error error_msg) ;;
       ret []).

Definition _display_results : M W data unit :=
  try_except
    (d <- get_scrape_data ;;
     emit (PrintTable "Test Scraping Results"
       [ [ "Status"; if success d then "Success" else "Failed" ];
         [ "Timestamp"; d_timestamp d ];
         [ "Title"; Py.or_else (title d) "N/A" ];
         [ "HTML File"; Py.or_else (html_file d) "Not saved" ];
         [ "Screenshot"; Py.or_else (screenshot_file d) "Not saved" ];
         [ "Elements Found"; Py.str_nat (headings_found d) ];
         [ "Errors"; Py.str_nat (length (errors d)) ] ]) ;;
     match extracted_data d with
     | Some (it :: l) =>
         let items := it :: l in
         let more := "... and " ++ Py.str_nat (length items - 5) ++ " more" in
         emit (PrintTable "Extracted Elements"
           (map item_row (Py.take 5 items)
            ++ (if (5 <? length items)%nat then [ [ "..."; more; "..." ] ]
                else []))%list)
     | _ => ret tt
     end ;;
     match errors d with
     | _ :: _ =>
         emit (PrintPanel "Errors Encountered" (Py.join Py.nl (errors d)))
     | [] => ret tt
     end)
    (fun e => logger ERROR ("Error displaying results: " ++ e)).

Definition run_scrape : M W data data :=
  try_except
    (s <- get_self ;;
     emit (PrintPanel "Starting Test Scrape"
       ("Test Scraper - Working Website Example" ++ Py.nl
        ++ "Timestamp: " ++ timestamp s ++ Py.nl
        ++ "URL: " ++ TEST_URL ++ Py.nl
        ++ "Locale: " ++ locale s)) ;;
     logger INFO "Starting test scrape" ;;
     navigated <- navigate_to_page ;;
     if negb navigated then
       update (with_success false) ;;
       get_scrape_data
     else
       html_file <- save_html ;;
       screenshot_file <- save_screenshot ;;
       extracted_data <- extract_data ;;
       update (with_success true) ;;
       update (with_extracted_data extracted_data) ;;
       _display_results ;;
       emit (PrintPanel "Success" "Test Scraping Completed Successfully!") ;;
       logger INFO "Test scraping completed successfully" ;;
       get_scrape_data)
    (fun e =>
       let error_msg := "Test scraping failed: " ++ e in
       print error_msg ;;
       logger ERROR error_msg ;;
       update (with_error error_msg) ;;
       update (with_success false) ;;
       get_scrape_data).

Definition __aenter__ : M W data unit := start_browser.

Definition __aexit__ : M W data unit := cleanup.

(** [main]: the scraper object is built first (whatever [self] held
    is dropped); [__aexit__] runs when the body of the [async with]
    is left, by [return] or by an exception. *)
Definition main (now : string) : M W data results :=
  try_except
    (set_self (__init__ now HEADLESS LOCALE) ;;
     logger INFO ("Initialized TestScraper with timestamp: " ++ now) ;;
     __aenter__ ;;
     res <- try_except
              (r <- run_scrape ;; __aexit__ ;; ret (ScrapeData r))
              (fun e => __aexit__ ;; raise e) ;;
     ret res)
    (fun e =>
       print ("Main function error: " ++ e) ;;
       logger ERROR ("Main function error: " ++ e) ;;
       ret (MainError e)).

(** The [if __name__ == "__main__"] block; the answer is the exit code. *)
Definition __main__ (now : string) : M W data Z :=
  res <- main now ;;
  ret (if get_success res then 0 else 1)%Z.

End Methods.

End TestScraper.

(** ** The pipeline of the specification

    The specification describes the scraper classes as one pipeline
    (launch, navigate, save HTML, save screenshot, extract, report, clean up)
    told apart by configuration constants only.  [Pipeline] is that single
    pipeline, written over a record of the constants. *)

Module Pipeline.
Import Headings.

Record config := Config {
  class_name : string;
  URL : string;
  output_dir : string;
  file_prefix : string;
  label : string;
  label_lower : string;
  headline : string
}.

Definition LOCALE : string := "en-US".
Definition BROWSER_TYPE : string := "chromium".
Definition HEADLESS : bool := true.

Section Methods.
Context {W : Type} `{World W}.
Variable cfg : config.

Definition OUTPUT_DIR : string := Py.Path (output_dir cfg).
Definition SCREENSHOTS_DIR : string := OUTPUT_DIR // "screenshots".
Definition HTML_DIR : string := OUTPUT_DIR // "html".

Definition __init__ (now : string) (headless : bool) (locale : string)
  : scraper data :=
  Scraper headless locale false false false now
    (Data now (URL cfg) locale false None None None 0 [] None).

Definition start_browser : M W data unit :=
  try_except
    (print ("Starting " ++ BROWSER_TYPE ++ " browser...") ;;
     logger INFO ("Starting " ++ BROWSER_TYPE ++ " browser") ;;
     do_call PlaywrightStart ;;
     set_browser ;;
     s <- get_self ;;
     do_call (ChromiumLaunch (headless s) LAUNCH_ARGS) ;;
     do_call (NewContext (locale s) USER_AGENT) ;;
     set_context ;;
     do_call NewPage ;;
     set_page ;;
     do_call (PageOn "pageerror") ;;
     do_call (PageOn "requestfailed") ;;
     print "Browser started successfully" ;;
     logger INFO "Browser started successfully")
    (fun e =>
       let error_msg := "Failed to start browser: " ++ e in
       print error_msg ;;
       logger ERROR error_msg ;;
       update (with_error error_msg) ;;
       raise e).

Definition cleanup : M W data unit :=
  try_except
    (s <- get_self ;;
     (if context s then
        do_call ContextClose ;;
        logger INFO "Browser context closed"
      else ret tt) ;;
     (if browser s then
        do_call PlaywrightStop ;;
        logger INFO "Browser stopped"
      else ret tt))
    (fun e => logger ERROR ("Error during cleanup: " ++ e)).

(** The callback registered for ["pageerror"]. *)
Definition _handle_page_error (error : string) : M W data unit :=
  let error_msg := "Page error: " ++ error in
  logger ERROR error_msg ;;
  update (with_error error_msg).

(** The callback registered for ["requestfailed"]. *)
Definition _handle_request_failed (request_url : string)
    (errorText : option string) : M W data unit :=
  let error_msg :=
    "Request failed: " ++ request_url ++ " - "
      ++ match errorText with Some t => t | None => "Unknown error" end in
  logger WARNING error_msg.

Definition navigate_to_page : M W data bool :=
  try_except
    (print ("Navigating to " ++ (URL cfg) ++ "...") ;;
     logger INFO ("Navigating to " ++ (URL cfg)) ;;
     page_call "goto" (Goto (URL cfg) "networkidle" 30000) ;;
     page_call "wait_for_load_state" (WaitForLoadState "domcontentloaded") ;;
     title <- page_call "title" Title ;;
     update (with_title title) ;;
     print ("Successfully loaded: " ++ title) ;;
     logger INFO ("Successfully loaded page: " ++ title) ;;
     ret true)
    (fun e =>
       let error_msg := "Failed to navigate to page: " ++ e in
       print error_msg ;;
       logger ERROR error_msg ;;
       update (with_error error_msg) ;;
       ret false).

Definition save_html : M W data (option string) :=
  try_except
    (print "Saving HTML content..." ;;
     logger INFO "Saving HTML content" ;;
     html_content <- page_call "content" Content ;;
     s <- get_self ;;
     let html_filename := file_prefix cfg ++ timestamp s ++ ".html" in
     let html_filepath := HTML_DIR // html_filename in
     do_call (WriteFile html_filepath html_content) ;;
     print ("HTML saved: " ++ html_filepath) ;;
     logger INFO ("HTML saved: " ++ html_filepath) ;;
     update (with_html_file html_filepath) ;;
     ret (Some html_filepath))
    (fun e =>
       let error_msg := "Failed to save HTML: " ++ e in
       print error_msg ;;
       logger ERROR error_msg ;;
       update (with_error error_msg) ;;
       ret None).

Definition save_screenshot : M W data (option string) :=
  try_except
    (print "Taking screenshot..." ;;
     logger INFO "Taking screenshot" ;;
     s <- get_self ;;
     let screenshot_filename := file_prefix cfg ++ timestamp s ++ ".png" in
     let screenshot_filepath := SCREENSHOTS_DIR // screenshot_filename in
     page_call "screenshot" (Screenshot screenshot_filepath true) ;;
     print ("Screenshot saved: " ++ screenshot_filepath) ;;
     logger INFO ("Screenshot saved: " ++ screenshot_filepath) ;;
     update (with_screenshot_file screenshot_filepath) ;;
     ret (Some screenshot_filepath))
    (fun e =>
       let error_msg := "Failed to save screenshot: " ++ e in
       print error_msg ;;
       logger ERROR error_msg ;;
       update (with_error error_msg) ;;
       ret None).

(** The [for i, heading in enumerate(headings)] loop, threading
    [extracted_data]. *)
Fixpoint extract_loop (indices : list nat) (extracted_data : list item)
  : M W data (list item) :=
  match indices with
  | [] => ret extracted_data
  | i :: rest =>
      extracted_data' <-
        try_except
          (text <- do_call (HandleInnerText i) ;;
           tag_name <-
             do_call (HandleEvaluate i "el => el.tagName.toLowerCase()") ;;
           if Py.truthy (Py.strip text) then
             ret (extracted_data ++ [Item tag_name (Py.strip text) i])%list
           else ret extracted_data)
          (fun e =>
             logger DEBUG
               ("Error extracting heading " ++ Py.str_nat i ++ ": " ++ e) ;;
             ret extracted_data) ;;
      extract_loop rest extracted_data'
  end.

Definition extract_data : M W data (list item) :=
  try_except
    (print "Extracting page data..." ;;
     logger INFO "Extracting page data" ;;
     page_call "wait_for_load_state" (WaitForLoadState "networkidle") ;;
     headings <-
       page_call "query_selector_all"
         (QuerySelectorAll "h1, h2, h3, h4, h5, h6") ;;
     extracted_data <- extract_loop (seq 0 headings) [] ;;
     print ("Extracted " ++ Py.str_nat (length extracted_data) ++ " elements") ;;
     logger INFO
       ("Extracted " ++ Py.str_nat (length extracted_data) ++ " elements") ;;
     update (with_headings_found (length extracted_data)) ;;
     ret extracted_data)
    (fun e =>
       let error_msg := "Failed to extract data: " ++ e in
       print error_msg ;;
       logger ERROR error_msg ;;
       update (with_error error_msg) ;;
       ret []).

Definition _display_results : M W data unit :=
  try_except
    (d <- get_scrape_data ;;
     emit (PrintTable (label cfg ++ " Scraping Results")
       [ [ "Status"; if success d then "Success" else "Failed" ];
         [ "Timestamp"; d_timestamp d ];
         [ "Title"; Py.or_else (title d) "N/A" ];
         [ "HTML File"; Py.or_else (html_file d) "Not saved" ];
         [ "Screenshot"; Py.or_else (screenshot_file d) "Not saved" ];
         [ "Elements Found"; Py.str_nat (headings_found d) ];
         [ "Errors"; Py.str_nat (length (errors d)) ] ]) ;;
     match extracted_data d with
     | Some (it :: l) =>
         let items := it :: l in
         let more := "... and " ++ Py.str_nat (length items - 5) ++ " more" in
         emit (PrintTable "Extracted Elements"
           (map item_row (Py.take 5 items)
            ++ (if (5 <? length items)%nat then [ [ "..."; more; "..." ] ]
                else []))%list)
     | _ => ret tt
     end ;;
     match errors d with
     | _ :: _ =>
         emit (PrintPanel "Errors Encountered" (Py.join Py.nl (errors d)))
     | [] => ret tt
     end)
    (fun e => logger ERROR ("Error displaying results: " ++ e)).

Definition run_scrape : M W data data :=
  try_except
    (s <- get_self ;;
     emit (PrintPanel ("Starting " ++ label cfg ++ " Scrape")
       (headline cfg ++ Py.nl
        ++ "Timestamp: " ++ timestamp s ++ Py.nl
        ++ "URL: " ++ (URL cfg) ++ Py.nl
        ++ "Locale: " ++ locale s)) ;;
     logger INFO ("Starting " ++ label_lower cfg ++ " scrape") ;;
     navigated <- navigate_to_page ;;
     if negb navigated then
       update (with_success false) ;;
       get_scrape_data
     else
       html_file <- save_html ;;
       screenshot_file <- save_screenshot ;;
       extracted_data <- extract_data ;;
       update (with_success true) ;;
       update (with_extracted_data extracted_data) ;;
       _display_results ;;
       emit (PrintPanel "Success" (label cfg ++ " Scraping Completed Successfully!")) ;;
       logger INFO (label cfg ++ " scraping completed successfully") ;;
       get_scrape_data)
    (fun e =>
       let error_msg := (label cfg ++ " scraping failed: ") ++ e in
       print error_msg ;;
       logger ERROR error_msg ;;
       update (with_error error_msg) ;;
       update (with_success false) ;;
       get_scrape_data).

Definition __aenter__ : M W data unit := start_browser.

Definition __aexit__ : M W data unit := cleanup.

(** [main]: the scraper object is built first (whatever [self] held
    is dropped); [__aexit__] runs when the body of the [async with]
    is left, by [return] or by an exception. *)
Definition main (now : string) : M W data results :=
  try_except
    (set_self (__init__ now HEADLESS LOCALE) ;;
     logger INFO (("Initialized " ++ class_name cfg ++ " with timestamp: ") ++ now) ;;
     __aenter__ ;;
     res <- try_except
              (r <- run_scrape ;; __aexit__ ;; ret (ScrapeData r))
              (fun e => __aexit__ ;; raise e) ;;
     ret res)
    (fun e =>
       print ("Main function error: " ++ e) ;;
       logger ERROR ("Main function error: " ++ e) ;;
       ret (MainError e)).

(** The [if __name__ == "__main__"] block; the answer is the exit code. *)
Definition __main__ (now : string) : M W data Z :=
  res <- main now ;;
  ret (if get_success res then 0 else 1)%Z.

End Methods.

Definition demo : config :=
  Config "DemoScraper" "https://httpbin.org/html" "data/demo_scrapes"
         "demo_page_" "Demo" "demo" "Demo Scraper - Ticket 2 Implementation".

Definition test : config :=
  Config "TestScraper" "https://example.com" "data/test_scrapes"
         "test_page_" "Test" "test" "Test Scraper - Working Website Example".

End Pipeline.

(** ** [src/run_scraper.py] *)

Module run_scraper.

(** [results.get(key, default)] for the keys the summary prints *)
Definition get_timestamp (r : ZaraScraper.results) : string :=
  match r with
  | ZaraScraper.ScrapeData d => ZaraScraper.d_timestamp d
  | ZaraScraper.MainError _ => "N/A"
  end.

Definition get_html_file (r : ZaraScraper.results) : string :=
  match r with
  | ZaraScraper.ScrapeData d => Py.str_opt (ZaraScraper.html_file d)
  | ZaraScraper.MainError _ => "Not saved"
  end.

Definition get_screenshot_file (r : ZaraScraper.results) : string :=
  match r with
  | ZaraScraper.ScrapeData d => Py.str_opt (ZaraScraper.screenshot_file d)
  | ZaraScraper.MainError _ => "Not saved"
  end.

Definition get_banners_found (r : ZaraScraper.results) : nat :=
  match r with
  | ZaraScraper.ScrapeData d => ZaraScraper.banners_found d
  | ZaraScraper.MainError _ => 0
  end.

Definition get_errors (r : ZaraScraper.results) : list string :=
  match r with
  | ZaraScraper.ScrapeData d => ZaraScraper.errors d
  | ZaraScraper.MainError _ => []
  end.

Section Script.
Context {W : Type} `{World W}.

Definition run_test (now : string) : M W ZaraScraper.data bool :=
  print "Starting Zara Homepage Scraper Test" ;;
  print (Py.repeat "=" 50) ;;
  try_except
    (results <- ZaraScraper.main now ;;
     print (Py.nl ++ Py.repeat "=" 50) ;;
     print "SCRAPING SUMMARY" ;;
     print (Py.repeat "=" 50) ;;
     print ("Success: "
            ++ if ZaraScraper.get_success results then "Yes" else "No") ;;
     print ("Timestamp: " ++ get_timestamp results) ;;
     print ("HTML File: " ++ get_html_file results) ;;
     print ("Screenshot: " ++ get_screenshot_file results) ;;
     print ("Banners Found: " ++ Py.str_nat (get_banners_found results)) ;;
     print ("Errors: " ++ Py.str_nat (length (get_errors results))) ;;
     match get_errors results with
     | _ :: _ =>
         print (Py.nl ++ "ERRORS:") ;;
         print_lines (map (fun error => "  " ++ error) (get_errors results))
     | [] => ret tt
     end ;;
     ret (ZaraScraper.get_success results))
    (fun e =>
       print ("Test failed: " ++ e) ;;
       ret false).

(** The [if __name__ == "__main__"] block; the answer is the exit code. *)
Definition __main__ (now : string) : M W ZaraScraper.data Z :=
  success <- run_test now ;;
  ret (if success : bool then 0 else 1)%Z.

End Script.

End run_scraper.

(** ** [src/run_demo.py] *)

Module run_demo.

Definition get_timestamp (r : Headings.results) : string :=
  match r with
  | Headings.ScrapeData d => Headings.d_timestamp d
  | Headings.MainError _ => "N/A"
  end.

Definition get_title (r : Headings.results) : string :=
  match r with
  | Headings.ScrapeData d => Py.str_opt (Headings.title d)
  | Headings.MainError _ => "N/A"
  end.

Definition get_html_file (r : Headings.results) : string :=
  match r with
  | Headings.ScrapeData d => Py.str_opt (Headings.html_file d)
  | Headings.MainError _ => "Not saved"
  end.

Definition get_screenshot_file (r : Headings.results) : string :=
  match r with
  | Headings.ScrapeData d => Py.str_opt (Headings.screenshot_file d)
  | Headings.MainError _ => "Not saved"
  end.

Definition get_headings_found (r : Headings.results) : nat :=
  match r with
  | Headings.ScrapeData d => Headings.headings_found d
  | Headings.MainError _ => 0
  end.

Definition get_errors (r : Headings.results) : list string :=
  match r with
  | Headings.ScrapeData d => Headings.errors d
  | Headings.MainError _ => []
  end.

(** The lines printed before the scraper is run. *)
Definition INTRODUCTION : list string :=
  [ "Starting Demo Scraper - Ticket 2 Implementation";
    Py.repeat "=" 60;
    "This demonstrates all the functionality:";
    "HTML saving with timestamps";
    "Screenshot saving with timestamps";
    "Proper logging with loguru";
    "Error handling and recovery";
    "Data extraction";
    "Beautiful console output with Rich";
    Py.repeat "=" 60 ].

(** The lines printed after the summary. *)
Definition CLOSING : list string :=
  [ Py.nl ++ Py.repeat "=" 60;
    "WHAT YOU LEARNED TODAY (4 hours of work)";
    Py.repeat "=" 60;
    "1. Browser Management with Playwright";
    "   - Launch browser with proper settings";
    "   - Create context with locale";
    "   - Handle page navigation";
    "   - Proper cleanup with async context managers";
    Py.nl ++ "2. HTML and Screenshot Saving";
    "   - Save HTML content to timestamped files";
    "   - Take full-page screenshots";
    "   - Organize files in proper directory structure";
    Py.nl ++ "3. Advanced Logging with Loguru";
    "   - Structured logging with timestamps";
    "   - Log rotation and retention";
    "   - Different log levels (INFO, ERROR, DEBUG)";
    Py.nl ++ "4. Error Handling and Recovery";
    "   - Try-catch blocks for each operation";
    "   - Graceful error recovery";
    "   - Detailed error reporting";
    Py.nl ++ "5. Beautiful Console Output with Rich";
    "   - Colored output and emojis";
    "   - Tables and panels";
    "   - Progress indicators";
    Py.nl ++ "6. Data Extraction";
    "   - Extract structured data from web pages";
    "   - Handle dynamic content";
    "   - Store results in organized format";
    Py.nl ++ "7. Configuration Management";
    "   - Separate config files";
    "   - Multiple URL fallbacks";
    "   - Configurable settings";
    Py.nl ++ "8. Project Structure";
    "   - Modular code organization";
    "   - Proper imports and dependencies";
    "   - Clean separation of concerns";
    Py.nl ++ Py.repeat "=" 60;
    "TOMORROW'S WORK (Remaining 36 hours)";
    Py.repeat "=" 60;
    "1. Fix Zara blocking issues";
    "   - Add proxy support";
    "   - Implement retry mechanisms";
    "   - Add more browser stealth options";
    Py.nl ++ "2. Enhanced Data Extraction";
    "   - Parse product information";
    "   - Extract prices and availability";
    "   - Handle different page layouts";
    Py.nl ++ "3. Database Integration";
    "   - Set up PostgreSQL connection";
    "   - Create database schema";
    "   - Store scraped data";
    Py.nl ++ "4. Change Detection";
    "   - Compare HTML hashes";
    "   - Detect new products";
    "   - Track changes over time";
    Py.nl ++ "5. Popularity Scoring";
    "   - Analyze product positioning";
    "   - Calculate popularity metrics";
    "   - Identify bestsellers";
    Py.nl ++ "6. CSV Export";
    "   - Export data to CSV format";
    "   - Handle different data types";
    "   - Create reports";
    Py.nl ++ "7. Scheduling and Automation";
    "   - Set up cron jobs";
    "   - Automated runs every 14 days";
    "   - Email notifications";
    Py.nl ++ "8. Testing and Documentation";
    "   - Unit tests for each component";
    "   - Integration tests";
    "   - Complete documentation" ].

Section Script.
Context {W : Type} `{World W}.

Definition run_demo (now : string) : M W Headings.data bool :=
  print_lines INTRODUCTION ;;
  try_except
    (results <- DemoScraper.main now ;;
     print (Py.nl ++ Py.repeat "=" 60) ;;
     print "DEMO SCRAPING SUMMARY" ;;
     print (Py.repeat "=" 60) ;;
     print ("Success: "
            ++ if Headings.get_success results then "Yes" else "No") ;;
     print ("Timestamp: " ++ get_timestamp results) ;;
     print ("Page Title: " ++ get_title results) ;;
     print ("HTML File: " ++ get_html_file results) ;;
     print ("Screenshot: " ++ get_screenshot_file results) ;;
     print ("Elements Found: " ++ Py.str_nat (get_headings_found results)) ;;
     print ("Errors: " ++ Py.str_nat (length (get_errors results))) ;;
     match get_errors results with
     | _ :: _ =>
         print (Py.nl ++ "ERRORS:") ;;
         print_lines (map (fun error => "  " ++ error) (get_errors results))
     | [] => ret tt
     end ;;
     print_lines CLOSING ;;
     ret (Headings.get_success results))
    (fun e =>
       print ("Demo failed: " ++ e) ;;
       ret false).

(** The [if __name__ == "__main__"] block; the answer is the exit code. *)
Definition __main__ (now : string) : M W Headings.data Z :=
  success <- run_demo now ;;
  ret (if success : bool then 0 else 1)%Z.

End Script.

End run_demo.


(** ** Reading the record of a run *)

(** The calls made, with their outcomes, in order. *)
Fixpoint called (t : list event) : list (call * outcome) :=
  match t with
  | [] => []
  | Called c o :: r => (c, o) :: called r
  | _ :: r => called r
  end.

Definition calls (t : list event) : list call := map fst (called t).

(** The seconds slept, in order. *)
Fixpoint sleeps (t : list event) : list Z :=
  match t with
  | [] => []
  | Sleep n :: r => n :: sleeps r
  | _ :: r => sleeps r
  end.

(** The messages logged at a level, in order. *)
Fixpoint logged (lvl : level) (t : list event) : list string :=
  match t with
  | [] => []
  | Log l msg :: r =>
      match lvl, l with
      | DEBUG, DEBUG | INFO, INFO | WARNING, WARNING | ERROR, ERROR =>
          msg :: logged lvl r
      | _, _ => logged lvl r
      end
  | _ :: r => logged lvl r
  end.

(** [l1] is [l2] with some elements left out. *)
Inductive subseq {A : Type} : list A -> list A -> Prop :=
| subseq_nil : subseq [] []
| subseq_skip x l1 l2 : subseq l1 l2 -> subseq l1 (x :: l2)
| subseq_take x l1 l2 : subseq l1 l2 -> subseq (x :: l1) (x :: l2).

(** [x] comes right before [y] in [l]. *)
Definition adjacent {A : Type} (x y : A) (l : list A) : Prop :=
  exists pre post, l = (pre ++ x :: y :: post)%list.

(** [l] ends with [x]. *)
Definition ends_with {A : Type} (l : list A) (x : A) : Prop :=
  exists pre, l = (pre ++ [x])%list.

(** The click that goes with a count, and the calls of each sort. *)
Definition click_of (c : call) : option call :=
  match c with
  | LocatorCount s => Some (LocatorFirstClick s)
  | RoleCount => Some RoleFirstClick
  | _ => None
  end.

Definition is_click (c : call) : bool :=
  match c with
  | LocatorFirstClick _ | RoleFirstClick => true
  | _ => false
  end.

(** A click that went through. *)
Definition clicked (co : call * outcome) : bool :=
  match co with
  | (c, Returned _) => is_click c
  | (_, Raised _) => false
  end.

(** The clicks of a run that went through. *)
Definition clicks_through (l : list (call * outcome)) : list (call * outcome) :=
  filter clicked l.

(** The calls made inside a loop over selectors, anchors or headings, or
    in the attempt by role: each has a handler of its own around it. *)
Definition inner (c : call) : bool :=
  match c with
  | LocatorCount _ | LocatorFirstClick _ | RoleCount | RoleFirstClick
  | NthGetAttribute _ _ _ _ | NthInnerText _ _ _
  | HandleInnerText _ | HandleEvaluate _ _ => true
  | _ => false
  end.

(** How a method with the handler [prefix] treats the exceptions met
    while it left the record [t], the error list going from [before] to
    [after]: every message logged as an error is appended to the list and
    nothing else is; a failed call outside the loops is the last call made,
    and its message is the one logged; failures inside the loops add
    nothing, and neither does a run without failure, unless [self.page]
    was [None] (then no call was made at all). *)
Definition handles (prefix attr : string) (t : list event)
    (before after : list string) : Prop :=
  after = (before ++ logged ERROR t)%list
  /\ (forall c e, In (c, Raised e) (called t) -> inner c = false ->
       logged ERROR t = [ prefix ++ e ]
       /\ ends_with (called t) (c, Raised e))
  /\ ((forall c e, In (c, Raised e) (called t) -> inner c = true) ->
      logged ERROR t = []
      \/ (called t = []
          /\ logged ERROR t
             = [ prefix ++ "'NoneType' object has no attribute '" ++ attr ++ "'" ])).


(** A call that raised. *)
Definition failed (co : call * outcome) : bool :=
  match co with
  | (_, Raised _) => true
  | (_, Returned _) => false
  end.

(** A call with its constants (strings and numbers) erased: what is left is
    the method called. *)
Definition erase (c : call) : call :=
  match c with
  | ChromiumLaunch _ _ => ChromiumLaunch false []
  | NewContext _ _ => NewContext "" ""
  | PageOn _ => PageOn ""
  | Goto _ _ _ => Goto "" "" 0
  | WaitForLoadState _ => WaitForLoadState ""
  | WriteFile _ _ => WriteFile "" ""
  | Screenshot _ _ => Screenshot "" false
  | LocatorCount _ => LocatorCount ""
  | LocatorFirstClick _ => LocatorFirstClick ""
  | FilterCount _ _ => FilterCount "" ""
  | NthGetAttribute _ _ _ _ => NthGetAttribute "" "" 0 ""
  | NthInnerText _ _ _ => NthInnerText "" "" 0
  | QuerySelectorAll _ => QuerySelectorAll ""
  | HandleInnerText _ => HandleInnerText 0
  | HandleEvaluate _ _ => HandleEvaluate 0 ""
  | c => c
  end.

(** The methods called in a run, in order. *)
Definition methods (t : list event) : list call := map erase (calls t).

(** What was recorded between two states of a run. *)
Definition since {W D : Type} (st st' : state W D) : list event :=
  skipn (length (out st)) (out st').

(** The same state with an older history [o] in front of its record. *)
Definition shift {W D : Type} (o : list event) (st : state W D) : state W D :=
  State (world st) (self st) (o ++ out st)%list.

(** A computation that never reads the record: it only adds to it. *)
Definition oblivious {W D A : Type} (m : M W D A) : Prop :=
  forall o st, m (shift o st) = (fst (m st), shift o (snd (m st))).

(** The attributes of a scraper object other than [scrape_data]. *)
Definition attrs {D : Type} (s : scraper D)
  : bool * string * bool * bool * bool * string :=
  (headless s, locale s, browser s, context s, page s, timestamp s).

(** ** The steps of a [ZaraScraper] run *)

Module Steps.

Inductive step :=
| Navigate
| CookiePopup
| SaveHtml
| SaveScreenshot
| Extract
| Report.

(** The step an event opens: each method announces itself with a fixed
    line of the log as it is entered; [_display_results] prints its table. *)
Definition step_of (e : event) : option step :=
  match e with
  | Log INFO msg =>
      if String.eqb msg ("Navigating to " ++ ZaraScraper.ZARA_HOME_URL)
      then Some Navigate
      else if String.eqb msg "Checking for cookie popup" then Some CookiePopup
      else if String.eqb msg "Saving HTML content" then Some SaveHtml
      else if String.eqb msg "Taking screenshot" then Some SaveScreenshot
      else if String.eqb msg "Extracting hero banners" then Some Extract
      else None
  | PrintTable "Scraping Results" _ => Some Report
  | _ => None
  end.

Fixpoint steps (t : list event) : list step :=
  match t with
  | [] => []
  | e :: r =>
      match step_of e with
      | Some s => s :: steps r
      | None => steps r
      end
  end.

(** The sequence of the specification. *)
Definition pipeline : list step :=
  [ Navigate; CookiePopup; SaveHtml; SaveScreenshot; Extract; Report ].

(** The calls a scan of the cookie selectors may make, in order. *)
Definition probe (selector : string) : list call :=
  [ LocatorCount selector; LocatorFirstClick selector ].

Definition popup_plan : list call :=
  (flat_map probe ZaraScraper.cookie_selectors
   ++ [ RoleCount; RoleFirstClick ])%list.

(** The calls a run of [run_scrape] may make, in order; [ts] is the
    timestamp of the scraper and [html] the page source. *)
Definition html_path (ts : string) : string :=
  ZaraScraper.HTML_DIR // ("zara_homepage_" ++ ts ++ ".html").

Definition screenshot_path (ts : string) : string :=
  ZaraScraper.SCREENSHOTS_DIR // ("zara_homepage_" ++ ts ++ ".png").

(** The two reads made of the anchor number [i]. *)
Definition reads (i : Z) : list call :=
  [ NthGetAttribute "a:visible" "SHOP" i "href";
    NthInnerText "a:visible" "SHOP" i ].

Definition nav_plan : list call :=
  ([ Goto ZaraScraper.ZARA_HOME_URL "networkidle" 30000;
     WaitForLoadState "domcontentloaded" ]
   ++ popup_plan ++ [ Title ])%list.

Definition html_plan (ts html : string) : list call :=
  [ Content; WriteFile (html_path ts) html ].

Definition shot_plan (ts : string) : list call :=
  [ Screenshot (screenshot_path ts) true ].

Definition extract_plan : list call :=
  ([ WaitForLoadState "networkidle"; FilterCount "a:visible" "SHOP" ]
   ++ flat_map reads (Py.range 20))%list.

Definition plan (ts html : string) : list call :=
  (nav_plan ++ html_plan ts html ++ shot_plan ts ++ extract_plan)%list.


End Steps.

(** ** The record of a scan for the cookie popup *)

Module Popup.

Definition no_attribute (attr : string) : string :=
  "'NoneType' object has no attribute '" ++ attr ++ "'".

Definition selector_failed (selector e : string) : event :=
  Log DEBUG ("Selector " ++ selector ++ " failed: " ++ e).

Definition handled_with (selector : string) : list event :=
  [ Print ("Cookie popup handled with selector: " ++ selector);
    Log INFO ("Cookie popup handled with selector: " ++ selector) ].

(** [scanned selectors t b]: [t] is a record of the loop over [selectors],
    and [b] tells whether the loop was left by [return True].  One
    constructor per way a selector can go. *)
Inductive scanned : list string -> list event -> bool -> Prop :=
| scanned_all :
    scanned [] [] false
| scanned_hit s rest n :
    (0 < n)%Z ->
    scanned (s :: rest)
      ([ Called (LocatorCount s) (Returned (VInt n));
         Called (LocatorFirstClick s) (Returned VNone) ]
       ++ handled_with s)%list
      true
| scanned_absent s rest n t b :
    (n <= 0)%Z ->
    scanned rest t b ->
    scanned (s :: rest) (Called (LocatorCount s) (Returned (VInt n)) :: t) b
| scanned_count_raised s rest e t b :
    scanned rest t b ->
    scanned (s :: rest)
      (Called (LocatorCount s) (Raised e) :: selector_failed s e :: t) b
| scanned_click_raised s rest n e t b :
    (0 < n)%Z ->
    scanned rest t b ->
    scanned (s :: rest)
      (Called (LocatorCount s) (Returned (VInt n))
       :: Called (LocatorFirstClick s) (Raised e)
       :: selector_failed s e :: t) b
| scanned_no_page s rest t b :
    scanned rest t b ->
    scanned (s :: rest) (selector_failed s (no_attribute "locator") :: t) b.

(** The record of the role-based attempt that follows the loop. *)
Inductive by_role : list event -> bool -> Prop :=
| role_hit n :
    (0 < n)%Z ->
    by_role [ Called RoleCount (Returned (VInt n));
              Called RoleFirstClick (Returned VNone);
              Print "Cookie popup handled via role";
              Log INFO "Cookie popup handled via role" ] true
| role_absent n :
    (n <= 0)%Z ->
    by_role [ Called RoleCount (Returned (VInt n)) ] false
| role_count_raised e :
    by_role [ Called RoleCount (Raised e);
              Log DEBUG ("Role-based approach failed: " ++ e) ] false
| role_click_raised n e :
    (0 < n)%Z ->
    by_role [ Called RoleCount (Returned (VInt n));
              Called RoleFirstClick (Raised e);
              Log DEBUG ("Role-based approach failed: " ++ e) ] false
| role_no_page :
    by_role [ Log DEBUG ("Role-based approach failed: "
                         ++ no_attribute "get_by_role") ] false.

(** The record of [handle_cookie_popup] and its answer. *)
Inductive handled : list event -> bool -> Prop :=
| handled_in_scan t :
    scanned ZaraScraper.cookie_selectors t true ->
    handled ([ Print "Looking for cookie popup...";
               Log INFO "Checking for cookie popup";
               Sleep 2 ] ++ t)%list true
| handled_by_role t1 t2 :
    scanned ZaraScraper.cookie_selectors t1 false ->
    by_role t2 true ->
    handled ([ Print "Looking for cookie popup...";
               Log INFO "Checking for cookie popup";
               Sleep 2 ] ++ t1 ++ t2)%list true
| handled_not t1 t2 :
    scanned ZaraScraper.cookie_selectors t1 false ->
    by_role t2 false ->
    handled ([ Print "Looking for cookie popup...";
               Log INFO "Checking for cookie popup";
               Sleep 2 ] ++ t1 ++ t2
             ++ [ Print "No cookie popup found or already handled";
                  Log INFO "No cookie popup found or already handled" ])%list
            false.

End Popup.

(** Clicks and the counts they follow, in a list of calls with outcomes:
    every click comes right after a count of the same locator that answered
    a positive number, and every such count is followed by the click. *)
Definition click_follows_count (l : list (call * outcome)) : Prop :=
  forall c' o,
    is_click c' = true -> In (c', o) l ->
    exists c n, click_of c = Some c' /\ (0 < n)%Z
                /\ adjacent (c, Returned (VInt n)) (c', o) l.

Definition count_leads_to_click (l : list (call * outcome)) : Prop :=
  forall c c' n,
    click_of c = Some c' -> In (c, Returned (VInt n)) l -> (0 < n)%Z ->
    exists o, adjacent (c, Returned (VInt n)) (c', o) l.

(** ** The records of the methods of [ZaraScraper]

    One relation per method, one constructor per path through it: the
    record the path leaves, the value returned and the result record
    afterwards. *)

Module Runs.
Import ZaraScraper.

Definition failure (msg : string) : list event :=
  [ Print msg; Log ERROR msg ].

Definition vopt (o : option string) : value :=
  match o with Some s => VStr s | None => VNone end.

Definition goto : call := Goto ZARA_HOME_URL "networkidle" 30000.

Definition nav_enter : list event :=
  [ Print ("Navigating to " ++ ZARA_HOME_URL ++ "...");
    Log INFO ("Navigating to " ++ ZARA_HOME_URL) ].

Definition nav_failed (e : string) : string :=
  "Failed to navigate to homepage: " ++ e.

Inductive navigated (d : data) : list event -> bool -> data -> Prop :=
| nav_no_page :
    navigated d
      (nav_enter ++ failure (nav_failed (Popup.no_attribute "goto")))%list
      false (with_error (nav_failed (Popup.no_attribute "goto")) d)
| nav_goto_raised e :
    navigated d
      (nav_enter ++ [ Called goto (Raised e) ] ++ failure (nav_failed e))%list
      false (with_error (nav_failed e) d)
| nav_wait_raised e :
    navigated d
      (nav_enter
       ++ [ Called goto (Returned VNone);
            Called (WaitForLoadState "domcontentloaded") (Raised e) ]
       ++ failure (nav_failed e))%list
      false (with_error (nav_failed e) d)
| nav_title_raised tp pb e :
    Popup.handled tp pb ->
    navigated d
      (nav_enter
       ++ [ Called goto (Returned VNone);
            Called (WaitForLoadState "domcontentloaded") (Returned VNone) ]
       ++ tp
       ++ [ Called Title (Raised e) ]
       ++ failure (nav_failed e))%list
      false (with_error (nav_failed e) d)
| nav_loaded tp pb title :
    Popup.handled tp pb ->
    Py.contains "zara" (Py.lower title) = true ->
    navigated d
      (nav_enter
       ++ [ Called goto (Returned VNone);
            Called (WaitForLoadState "domcontentloaded") (Returned VNone) ]
       ++ tp
       ++ [ Called Title (Returned (VStr title));
            Print ("Successfully loaded: " ++ title);
            Log INFO ("Successfully loaded page: " ++ title) ])%list
      true d
| nav_unexpected tp pb title :
    Popup.handled tp pb ->
    Py.contains "zara" (Py.lower title) = false ->
    navigated d
      (nav_enter
       ++ [ Called goto (Returned VNone);
            Called (WaitForLoadState "domcontentloaded") (Returned VNone) ]
       ++ tp
       ++ [ Called Title (Returned (VStr title));
            Print ("Unexpected page title: " ++ title);
            Log WARNING ("Unexpected page title: " ++ title) ])%list
      false d.

Definition html_enter : list event :=
  [ Print "Saving HTML content..."; Log INFO "Saving HTML content" ].

Definition html_failed (e : string) : string := "Failed to save HTML: " ++ e.

Inductive html_saved (ts : string) (d : data)
  : list event -> option string -> data -> Prop :=
| html_no_page :
    html_saved ts d
      (html_enter ++ failure (html_failed (Popup.no_attribute "content")))%list
      None (with_error (html_failed (Popup.no_attribute "content")) d)
| html_content_raised e :
    html_saved ts d
      (html_enter ++ [ Called Content (Raised e) ]
       ++ failure (html_failed e))%list
      None (with_error (html_failed e) d)
| html_write_raised html e :
    html_saved ts d
      (html_enter
       ++ [ Called Content (Returned (VStr html));
            Called (WriteFile (Steps.html_path ts) html) (Raised e) ]
       ++ failure (html_failed e))%list
      None (with_error (html_failed e) d)
| html_written html :
    html_saved ts d
      (html_enter
       ++ [ Called Content (Returned (VStr html));
            Called (WriteFile (Steps.html_path ts) html) (Returned VNone);
            Print ("HTML saved: " ++ Steps.html_path ts);
            Log INFO ("HTML saved: " ++ Steps.html_path ts) ])%list
      (Some (Steps.html_path ts)) (with_html_file (Steps.html_path ts) d).

Definition shot_enter : list event :=
  [ Print "Taking screenshot..."; Log INFO "Taking screenshot" ].

Definition shot_failed (e : string) : string :=
  "Failed to save screenshot: " ++ e.

Inductive screenshot_saved (ts : string) (d : data)
  : list event -> option string -> data -> Prop :=
| shot_no_page :
    screenshot_saved ts d
      (shot_enter
       ++ failure (shot_failed (Popup.no_attribute "screenshot")))%list
      None (with_error (shot_failed (Popup.no_attribute "screenshot")) d)
| shot_raised e :
    screenshot_saved ts d
      (shot_enter
       ++ [ Called (Screenshot (Steps.screenshot_path ts) true) (Raised e) ]
       ++ failure (shot_failed e))%list
      None (with_error (shot_failed e) d)
| shot_taken :
    screenshot_saved ts d
      (shot_enter
       ++ [ Called (Screenshot (Steps.screenshot_path ts) true)
                   (Returned VNone);
            Print ("Screenshot saved: " ++ Steps.screenshot_path ts);
            Log INFO ("Screenshot saved: " ++ Steps.screenshot_path ts) ])%list
      (Some (Steps.screenshot_path ts))
      (with_screenshot_file (Steps.screenshot_path ts) d).

(** Whether an anchor with this [href] and this text is kept as a banner. *)
Definition kept (href : option string) (text : string) : bool :=
  match href with
  | Some h => Py.truthy h && Py.truthy (Py.strip text)
  | None => false
  end.

Definition get_href (i : Z) : call := NthGetAttribute "a:visible" "SHOP" i "href".
Definition get_text (i : Z) : call := NthInnerText "a:visible" "SHOP" i.

Definition banner_failed (i : Z) (e : string) : event :=
  Log DEBUG ("Error extracting banner " ++ Py.str_Z i ++ ": " ++ e).

(** A banner record made of what the two reads of its anchor answered in
    the record [t]: an [href] that is not empty and a text that is not
    empty once stripped. *)
Definition read_from (t : list event) (b : banner) : Prop :=
  href b <> "" /\ text b <> ""
  /\ In (Called (get_href (index b)) (Returned (VStr (href b)))) t
  /\ exists raw, In (Called (get_text (index b)) (Returned (VStr raw))) t
                 /\ text b = Py.strip raw.

(** [extracting indices banners t banners']: the loop over [indices],
    entered with the list [banners], leaves the record [t] and the list
    [banners']. *)
Inductive extracting : list Z -> list banner -> list event -> list banner -> Prop :=
| extracting_done banners :
    extracting [] banners [] banners
| extracting_kept i rest banners h text t banners' :
    kept (Some h) text = true ->
    extracting rest (banners ++ [ Banner (Py.strip text) h i ])%list t banners' ->
    extracting (i :: rest) banners
      (Called (get_href i) (Returned (VStr h))
       :: Called (get_text i) (Returned (VStr text)) :: t)
      banners'
| extracting_dropped i rest banners href text t banners' :
    kept href text = false ->
    extracting rest banners t banners' ->
    extracting (i :: rest) banners
      (Called (get_href i) (Returned (vopt href))
       :: Called (get_text i) (Returned (VStr text)) :: t)
      banners'
| extracting_href_raised i rest banners e t banners' :
    extracting rest banners t banners' ->
    extracting (i :: rest) banners
      (Called (get_href i) (Raised e) :: banner_failed i e :: t)
      banners'
| extracting_text_raised i rest banners href e t banners' :
    extracting rest banners t banners' ->
    extracting (i :: rest) banners
      (Called (get_href i) (Returned (vopt href))
       :: Called (get_text i) (Raised e) :: banner_failed i e :: t)
      banners'.

Definition extract_enter : list event :=
  [ Print "Extracting hero banners..."; Log INFO "Extracting hero banners" ].

Definition extract_failed (e : string) : string :=
  "Failed to extract banners: " ++ e.

Definition count_banners : call := FilterCount "a:visible" "SHOP".

Inductive extracted (d : data) : list event -> list banner -> data -> Prop :=
| extracted_no_page :
    extracted d
      (extract_enter
       ++ failure (extract_failed (Popup.no_attribute "wait_for_load_state")))%list
      [] (with_error (extract_failed (Popup.no_attribute "wait_for_load_state")) d)
| extracted_wait_raised e :
    extracted d
      (extract_enter
       ++ [ Called (WaitForLoadState "networkidle") (Raised e) ]
       ++ failure (extract_failed e))%list
      [] (with_error (extract_failed e) d)
| extracted_count_raised e :
    extracted d
      (extract_enter
       ++ [ Called (WaitForLoadState "networkidle") (Returned VNone);
            Called count_banners (Raised e) ]
       ++ failure (extract_failed e))%list
      [] (with_error (extract_failed e) d)
| extracted_banners count t banners :
    extracting (Py.range (Z.min count 20)) [] t banners ->
    extracted d
      (extract_enter
       ++ [ Called (WaitForLoadState "networkidle") (Returned VNone);
            Called count_banners (Returned (VInt count));
            Print ("Found " ++ Py.str_Z count ++ " potential banner elements") ]
       ++ t
       ++ [ Print ("Extracted " ++ Py.str_nat (length banners) ++ " banners");
            Log INFO ("Extracted " ++ Py.str_nat (length banners) ++ " banners") ])%list
      banners (with_banners_found (length banners) d).

(** What [_display_results] prints for a result record. *)
Definition results_table (d : data) : event :=
  PrintTable "Scraping Results"
    [ [ "Status"; if success d then "Success" else "Failed" ];
      [ "Timestamp"; d_timestamp d ];
      [ "HTML File"; Py.or_else (html_file d) "Not saved" ];
      [ "Screenshot"; Py.or_else (screenshot_file d) "Not saved" ];
      [ "Banners Found"; Py.str_nat (banners_found d) ];
      [ "Errors"; Py.str_nat (length (errors d)) ] ].

Definition banners_table (bs : list banner) : event :=
  let more := "... and " ++ Py.str_nat (length bs - 5) ++ " more" in
  PrintTable "Extracted Banners"
    (map banner_row (Py.take 5 bs)
     ++ (if (5 <? length bs)%nat then [ [ "..."; more; "..." ] ] else []))%list.

Definition displayed (d : data) : list event :=
  ([ results_table d ]
   ++ match banners d with
      | Some (b :: l) => [ banners_table (b :: l) ]
      | _ => []
      end
   ++ match errors d with
      | _ :: _ => [ PrintPanel "Errors Encountered" (Py.join Py.nl (errors d)) ]
      | [] => []
      end)%list.

Definition scrape_enter (s : scraper data) : list event :=
  [ PrintPanel "Starting Scrape"
      ("Zara Homepage Scraper - Ticket 2" ++ Py.nl
       ++ "Timestamp: " ++ timestamp s ++ Py.nl
       ++ "URL: " ++ ZARA_HOME_URL ++ Py.nl
       ++ "Locale: " ++ locale s);
    Log INFO "Starting Zara homepage scrape" ].

Definition scrape_leave : list event :=
  [ PrintPanel "Success" "Scraping Completed Successfully!";
    Log INFO "Scraping completed successfully" ].

(** The record of [run_scrape] on the scraper [s], and the result record
    it returns. *)
Inductive scraped (s : scraper data) : list event -> data -> Prop :=
| scraped_not_navigated t d1 :
    navigated (scrape_data s) t false d1 ->
    scraped s (scrape_enter s ++ t)%list (with_success false d1)
| scraped_navigated t1 d1 t2 o2 d2 t3 o3 d3 t4 bs d4 :
    navigated (scrape_data s) t1 true d1 ->
    html_saved (timestamp s) d1 t2 o2 d2 ->
    screenshot_saved (timestamp s) d2 t3 o3 d3 ->
    extracted d3 t4 bs d4 ->
    scraped s
      (scrape_enter s ++ t1 ++ t2 ++ t3 ++ t4
       ++ displayed (with_banners bs (with_success true d4))
       ++ scrape_leave)%list
      (with_banners bs (with_success true d4)).

End Runs.

(** ** Worlds to run the scrapers in

    A world that answers every call the same way each time is its own
    table of answers. *)

Module Worlds.

Definition oracle : Type := forall c : call, result (answer c).

#[global] Instance oracle_world : World oracle := fun c w => (w c, w).

(** Everything goes through: no cookie popup, the title of the shop,
    two anchors, one heading. *)
Definition calm : oracle := fun c =>
  match c return result (answer c) with
  | Title => Ok "ZARA United States"
  | Content => Ok "<html></html>"
  | NthInnerText _ _ _ => Ok " SHOP NOW "
  | HandleInnerText _ => Ok "Herman Melville - Moby-Dick"
  | HandleEvaluate _ _ => Ok "h1"
  | LocatorCount _ | RoleCount => Ok 0%Z
  | FilterCount _ _ => Ok 2%Z
  | QuerySelectorAll _ => Ok 1
  | NthGetAttribute _ _ _ _ => Ok (Some "/us/en/woman-new-in-l1180.html")
  | _ => Ok tt
  end.

(** The page cannot be read and no screenshot can be taken. *)
Definition unreadable : oracle := fun c =>
  match c return result (answer c) with
  | Content => Raise "Page.content: Target closed"
  | Screenshot _ _ => Raise "Page.screenshot: Timeout 30000ms exceeded"
  | c' => calm c'
  end.


(** The site cannot be reached. *)
Definition offline : oracle := fun c =>
  match c return result (answer c) with
  | Goto _ _ _ => Raise "Page.goto: net::ERR_NAME_NOT_RESOLVED"
  | c' => calm c'
  end.

(** No browser can be launched. *)
Definition no_browser : oracle := fun c =>
  match c return result (answer c) with
  | ChromiumLaunch _ _ => Raise "BrowserType.launch: Executable doesn't exist"
  | c' => calm c'
  end.


(** A selector the engine rejects, and an anchor that goes away while it
    is read. *)
Definition brittle : oracle := fun c =>
  match c return result (answer c) with
  | LocatorCount s =>
      if String.eqb s "button:has-text('I Accept')"
      then Raise "Locator.count: Unexpected token"
      else Ok 0%Z
  | NthGetAttribute _ _ i _ =>
      if (i =? 0)%Z then Raise "Locator.get_attribute: Element is not attached"
      else Ok (Some "/us/en/man-new-in-l711.html")
  | c' => calm c'
  end.

(** A scraper as [main] starts it (the browser is up), with the record
    of the run still empty. *)
Definition zara (w : oracle) : state oracle ZaraScraper.data :=
  State w (with_page (with_context (with_browser
             (ZaraScraper.__init__ "20250101_120000" true "en-US")))) [].

Definition demo (w : oracle) : state oracle Headings.data :=
  State w (with_page (with_context (with_browser
             (DemoScraper.__init__ "20250101_120000" true "en-US")))) [].

Definition test (w : oracle) : state oracle Headings.data :=
  State w (with_page (with_context (with_browser
             (TestScraper.__init__ "20250101_120000" true "en-US")))) [].

End Worlds.

(** ** How the methods treat what the browser raises *)

(** [l] is what [plan] starts with. *)
Definition prefix_of {A : Type} (l plan : list A) : Prop :=
  exists rest, plan = (l ++ rest)%list.


(** The calls of [start_browser], in order. *)
Definition launch_plan (headless : bool) (locale : string) : list call :=
  [ PlaywrightStart; ChromiumLaunch headless LAUNCH_ARGS;
    NewContext locale USER_AGENT; NewPage;
    PageOn "pageerror"; PageOn "requestfailed" ].

(** The calls that look for the cookie popup, and those that clean up. *)
Definition probing (c : call) : bool :=
  match c with
  | LocatorCount _ | LocatorFirstClick _ | RoleCount | RoleFirstClick => true
  | _ => false
  end.

Definition cleaning (c : call) : bool :=
  match c with
  | ContextClose | PlaywrightStop => true
  | _ => false
  end.

(** The tables printed, by title, in order. *)
Fixpoint tables (t : list event) : list string :=
  match t with
  | [] => []
  | PrintTable title _ :: r => title :: tables r
  | _ :: r => tables r
  end.

(** ** What the runner scripts print around [main] *)

Module Summary.


Definition error_lines (errors : list string) : list string :=
  match errors with
  | _ :: _ => (Py.nl ++ "ERRORS:") :: map (fun error => "  " ++ error) errors
  | [] => []
  end.

Definition zara (r : ZaraScraper.results) : list string :=
  List.app
   [ Py.nl ++ Py.repeat "=" 50;
     "SCRAPING SUMMARY";
     Py.repeat "=" 50;
     "Success: " ++ (if ZaraScraper.get_success r then "Yes" else "No");
     "Timestamp: " ++ run_scraper.get_timestamp r;
     "HTML File: " ++ run_scraper.get_html_file r;
     "Screenshot: " ++ run_scraper.get_screenshot_file r;
     "Banners Found: " ++ Py.str_nat (run_scraper.get_banners_found r);
     "Errors: " ++ Py.str_nat (length (run_scraper.get_errors r)) ]
   (error_lines (run_scraper.get_errors r)).

(** The lines [run_demo.py] prints after [main]. *)
Definition demo (r : Headings.results) : list string :=
  List.app
   [ Py.nl ++ Py.repeat "=" 60;
     "DEMO SCRAPING SUMMARY";
     Py.repeat "=" 60;
     "Success: " ++ (if Headings.get_success r then "Yes" else "No");
     "Timestamp: " ++ run_demo.get_timestamp r;
     "Page Title: " ++ run_demo.get_title r;
     "HTML File: " ++ run_demo.get_html_file r;
     "Screenshot: " ++ run_demo.get_screenshot_file r;
     "Elements Found: " ++ Py.str_nat (run_demo.get_headings_found r);
     "Errors: " ++ Py.str_nat (length (run_demo.get_errors r)) ]
   (List.app (error_lines (run_demo.get_errors r)) run_demo.CLOSING).

End Summary.

(** A method whose handler logs the exception, appends it to the error
    list and raises it again: either it returns, nothing having been
    logged as an error or appended, or the last call made raised, its
    message is logged and appended with [prefix] in front, and the
    exception goes on to the caller. *)
Definition reraises {W D : Type} `{World W} (errors : D -> list string)
    (m : M W D unit) (prefix : string) : Prop :=
  forall st : state W D,
    let st' := snd (m st) in
    let t := since st st' in
    (fst (m st) = Ok tt
     /\ logged ERROR t = []
     /\ errors (scrape_data (self st')) = errors (scrape_data (self st)))
    \/ (exists c e,
          fst (m st) = Raise e
          /\ ends_with (called t) (c, Raised e)
          /\ logged ERROR t = [ prefix ++ e ]
          /\ errors (scrape_data (self st'))
             = (errors (scrape_data (self st))
                ++ [ (prefix ++ e)%string ])%list).

(** A method that starts the browser: the calls it makes are the first
    ones of [launch_plan], in order, all of them when it returns; it then
    leaves the three handles set and the rest of the scraper as it was. *)
Definition launches {W D : Type} `{World W} (m : M W D unit) : Prop :=
  forall st : state W D,
    let st' := snd (m st) in
    let t := since st st' in
    let plan := launch_plan (headless (self st)) (locale (self st)) in
    prefix_of (calls t) plan
    /\ (fst (m st) = Ok tt ->
        calls t = plan
        /\ self st' = with_page (with_context (with_browser (self st)))).

(** ** What the extraction of [DemoScraper] and [TestScraper] reads *)

(** An item made of what the two reads of its heading answered in the
    record [t]: the inner text, stripped and not empty, and the name of
    the tag. *)
Definition heading_read (t : list event) (it : Headings.item) : Prop :=
  Headings.text it <> ""
  /\ (exists raw,
        In (Called (HandleInnerText (Headings.index it)) (Returned (VStr raw))) t
        /\ Headings.text it = Py.strip raw)
  /\ In (Called (HandleEvaluate (Headings.index it)
                   "el => el.tagName.toLowerCase()")
                (Returned (VStr (Headings.type it)))) t.

(** ** Cleaning up *)

(** What [cleanup] does with the two handles of the scraper [s], read off
    the record [t] it leaves: the context is closed first, when there is
    one; Playwright is stopped next, when it was started, unless closing
    the context raised; an exception is logged and goes no further. *)
Definition cleaned {D : Type} (s : scraper D) (t : list event) : Prop :=
  subseq (calls t) [ ContextClose; PlaywrightStop ]
  /\ (context s = true -> exists o, hd_error (called t) = Some (ContextClose, o))
  /\ (context s = false -> ~ In ContextClose (calls t))
  /\ (browser s = false -> ~ In PlaywrightStop (calls t))
  /\ (browser s = true ->
      (forall e, ~ In (ContextClose, Raised e) (called t)) ->
      In PlaywrightStop (calls t))
  /\ (forall e, In (ContextClose, Raised e) (called t) ->
        ~ In PlaywrightStop (calls t))
  /\ (forall c e, In (c, Raised e) (called t) ->
        logged ERROR t = [ "Error during cleanup: " ++ e ])
  /\ ((forall c e, ~ In (c, Raised e) (called t)) -> logged ERROR t = []).

(** ** The outcome of a run of [DemoScraper] or [TestScraper] *)


(** ** [src/scrape_zara_homepage.py]

    The first version of the extraction, a function of the page: the same
    anchors are read, with no handler around any call, and an anchor is
    kept when its [href] is not empty, whatever its text is. *)

Module scrape_zara_homepage.

Definition ZARA_HOME_URL : string := "https://www.zara.com/".

(** The dict [{"text": ..., "href": ...}]. *)
Record link := Link {
  text : string;
  href : string
}.

Section Script.
Context {W : Type} `{World W} {D : Type}.

(** The [for i in range(min(count, 20))] loop, threading [banners]. *)
Fixpoint extract_loop (indices : list Z) (banners : list link)
  : M W D (list link) :=
  match indices with
  | [] => ret banners
  | i :: rest =>
      href <- do_call (NthGetAttribute "a:visible" "SHOP" i "href") ;;
      text <- do_call (NthInnerText "a:visible" "SHOP" i) ;;
      match href with
      | Some h =>
          if Py.truthy h then
            extract_loop rest (banners ++ [Link (Py.strip text) h])%list
          else extract_loop rest banners
      | None => extract_loop rest banners
      end
  end.

Definition extract_hero_banners : M W D (list link) :=
  do_call (WaitForLoadState "networkidle") ;;
  count <- do_call (FilterCount "a:visible" "SHOP") ;;
  extract_loop (Py.range (Z.min count 20)) [].

End Script.

End scrape_zara_homepage.

(** A banner of [ZaraScraper] without its index. *)
Definition unindexed (b : ZaraScraper.banner) : scrape_zara_homepage.link :=
  scrape_zara_homepage.Link (ZaraScraper.text b) (ZaraScraper.href b).

(** The links whose text is not empty. *)
Definition with_text (l : scrape_zara_homepage.link) : bool :=
  Py.truthy (scrape_zara_homepage.text l).

(** A link made of what the two reads of the anchor [i] answered in the
    record [t]. *)
Definition link_read (t : list event) (l : scrape_zara_homepage.link) : Prop :=
  scrape_zara_homepage.href l <> ""
  /\ exists i raw,
       In (Called (NthGetAttribute "a:visible" "SHOP" i "href")
                  (Returned (VStr (scrape_zara_homepage.href l)))) t
       /\ In (Called (NthInnerText "a:visible" "SHOP" i) (Returned (VStr raw))) t
       /\ scrape_zara_homepage.text l = Py.strip raw.

(** A world like [Worlds.calm] in which the second anchor has a blank
    text. *)
Definition blank_anchor : Worlds.oracle := fun c =>
  match c return result (answer c) with
  | NthInnerText _ _ i => if (i =? 1)%Z then Ok "   " else Ok " SHOP NOW "
  | c' => Worlds.calm c'
  end.

(** * Properties *)

Open Scope list_scope.

(** ** The monad: what a finished computation tells about its parts *)

Section MonadFacts.
Context {W : Type} `{World W} {D : Type}.
Implicit Types st : state W D.

Lemma bind_inv {A B} (m : M W D A) (k : A -> M W D B) st r st' :
  bind m k st = (r, st') ->
  (exists a st1, m st = (Ok a, st1) /\ k a st1 = (r, st'))
  \/ (exists e, m st = (Raise e, st') /\ r = Raise e).
Proof.
  unfold bind. destruct (m st) as [[a|e] st1]; intros E.
  - left. eauto.
  - right. inversion E; subst. eauto.
Qed.

Lemma try_except_inv {A} (m : M W D A) (h : string -> M W D A) st r st' :
  try_except m h st = (r, st') ->
  (exists a, m st = (Ok a, st') /\ r = Ok a)
  \/ (exists e st1, m st = (Raise e, st1) /\ h e st1 = (r, st')).
Proof.
  unfold try_except. destruct (m st) as [[a|e] st1]; intros E.
  - left. inversion E; subst. eauto.
  - right. eauto.
Qed.

Lemma ret_inv {A} (a : A) st r st' :
  ret a st = (r, st') -> r = Ok a /\ st' = st.
Proof. unfold ret. intros E. inversion E. auto. Qed.

Lemma raise_inv {A} e st (r : result A) st' :
  raise e st = (r, st') -> r = Raise e /\ st' = st.
Proof. unfold raise. intros E. inversion E. auto. Qed.

Lemma emit_inv ev st r st' :
  emit ev st = (r, st') ->
  r = Ok tt /\ st' = State (world st) (self st) (out st ++ [ev]).
Proof. unfold emit. intros E. inversion E. auto. Qed.

Lemma do_call_inv c st r st' :
  do_call c st = (r, st') ->
  exists w, respond c (world st) = (r, w)
    /\ st' = State w (self st) (out st ++ [Called c (outcome_of c r)]).
Proof.
  unfold do_call. destruct (respond c (world st)) as [r0 w].
  intros E. inversion E; subst. eauto.
Qed.

Lemma get_self_inv st r st' :
  get_self st = (r, st') -> r = Ok (self st) /\ st' = st.
Proof. unfold get_self. intros E. inversion E. auto. Qed.

Lemma set_self_inv s st r st' :
  set_self s st = (r, st') ->
  r = Ok tt /\ st' = State (world st) s (out st).
Proof. unfold set_self. intros E. inversion E. auto. Qed.

End MonadFacts.

(** Running a computation backwards from its result, one construct at a
    time; loops and calls of other methods are left for their own lemmas. *)
Ltac tidy :=
  repeat match goal with
    | H : Ok _ = Ok _ |- _ => injection H as H; try subst
    | H : Ok _ = Raise _ |- _ => discriminate H
    | H : Raise _ = Ok _ |- _ => discriminate H
    | H : Raise _ = Raise _ |- _ => injection H as H; try subst
    | H : (_, _) = (_, _) |- _ => injection H as ? ?; try subst
    end.

(** Bringing a state reached through a method back to the state before it. *)
Ltac settle :=
  repeat match goal with
    | Hs : self ?s = _ |- _ =>
        is_var s; destruct s as [?w ?s ?o]; cbn [world self out] in *; subst
    | Ha : attrs (self ?s) = _ |- _ =>
        is_var s; destruct s as [?w [?sh ?sl ?sb ?sc ?sp ?sts ?sd] ?o];
        cbn [world self out attrs headless locale browser context page
             timestamp scrape_data] in *;
        injection Ha as ? ? ? ? ? ?; subst
    end.

(** The methods met on the way; extended as the methods get their lemmas. *)
Ltac run_method H := fail.

Ltac run H :=
  lazymatch type of H with
  | bind _ _ _ = _ =>
      let a := fresh "a" in let s1 := fresh "st" in
      let e := fresh "e" in let H1 := fresh "H" in let H2 := fresh "H" in
      apply bind_inv in H;
      destruct H as [(a & s1 & H1 & H2) | (e & H1 & H2)];
      [run H1; tidy; cbn [world self out] in H2; try run H2 | run H1; tidy]
  | try_except _ _ _ = _ =>
      let a := fresh "a" in let s1 := fresh "st" in
      let e := fresh "e" in let H1 := fresh "H" in let H2 := fresh "H" in
      apply try_except_inv in H;
      destruct H as [(a & H1 & H2) | (e & s1 & H1 & H2)];
      [run H1; tidy | run H1; tidy; cbn [world self out] in H2; try run H2]
  | ret _ _ = _ => apply ret_inv in H; destruct H as [? ?]; tidy; try subst
  | raise _ _ = _ => apply raise_inv in H; destruct H as [? ?]; tidy; try subst
  | emit _ _ = _ => apply emit_inv in H; destruct H as [? ?]; tidy; try subst
  | get_self _ = _ =>
      apply get_self_inv in H; destruct H as [? ?]; tidy; try subst
  | set_self _ _ = _ =>
      apply set_self_inv in H; destruct H as [? ?]; tidy; try subst
  | do_call _ _ = _ =>
      let w := fresh "w" in let Hr := fresh "Hr" in
      apply do_call_inv in H; destruct H as (w & Hr & ?); tidy; try subst
  | logger _ _ _ = _ => unfold logger in H; run H
  | print _ _ = _ => unfold print in H; run H
  | sleep _ _ = _ => unfold sleep in H; run H
  | page_attr _ _ = _ => unfold page_attr in H; run H
  | page_call _ _ _ = _ => unfold page_call in H; run H
  | get_scrape_data _ = _ => unfold get_scrape_data in H; run H
  | set_scrape_data _ _ = _ => unfold set_scrape_data in H; run H
  | set_browser _ = _ => unfold set_browser in H; run H
  | set_context _ = _ => unfold set_context in H; run H
  | set_page _ = _ => unfold set_page in H; run H
  | ZaraScraper.update _ _ = _ => unfold ZaraScraper.update in H; run H
  | Headings.update _ _ = _ => unfold Headings.update in H; run H
  | (if ?b then _ else _) _ = _ =>
      first
        [ match goal with Hk : b = _ |- _ => rewrite Hk in H end; run H
        | let Hb := fresh "Hb" in destruct b eqn:Hb; run H ]
  | (match ?x with Some _ => _ | None => _ end) _ = _ =>
      let Hx := fresh "Hx" in destruct x eqn:Hx; run H
  | (match ?x with [] => _ | _ :: _ => _ end) _ = _ =>
      let Hx := fresh "Hx" in destruct x eqn:Hx; run H
  | _ => try (run_method H)
  end.

(** ** Lists: subsequences and neighbours *)

Section ListFacts.
Context {A : Type}.
Implicit Types l : list A.

Lemma subseq_nil_l l : subseq [] l.
Proof. induction l; constructor; auto. Qed.

Lemma subseq_refl l : subseq l l.
Proof. induction l; [apply subseq_nil | now apply subseq_take]. Qed.

Lemma subseq_app l1 l2 l1' l2' :
  subseq l1 l1' -> subseq l2 l2' -> subseq (l1 ++ l2) (l1' ++ l2').
Proof.
  intros H1 H2. induction H1; cbn; auto.
  - now apply subseq_skip.
  - now apply subseq_take.
Qed.

Lemma subseq_app_r l l1 l2 : subseq l l2 -> subseq l (l1 ++ l2).
Proof. intros Hs. induction l1; cbn; try constructor; auto. Qed.

Lemma subseq_app_l l l1 l2 : subseq l l1 -> subseq l (l1 ++ l2).
Proof.
  intros Hs. rewrite <- (app_nil_r l).
  apply subseq_app; auto using subseq_nil_l.
Qed.

Lemma subseq_trans l1 l2 l3 : subseq l1 l2 -> subseq l2 l3 -> subseq l1 l3.
Proof.
  intros H12 H23. revert l1 H12.
  induction H23; intros l0 H12.
  - inversion H12; subst. constructor.
  - apply subseq_skip. auto.
  - inversion H12; subst.
    + apply subseq_skip. auto.
    + apply subseq_take. auto.
Qed.

Lemma subseq_In l1 l2 x : subseq l1 l2 -> In x l1 -> In x l2.
Proof.
  induction 1; cbn; intros Hin; auto.
  destruct Hin; auto.
Qed.


Lemma subseq_length l1 l2 : subseq l1 l2 -> length l1 <= length l2.
Proof. induction 1; cbn; lia. Qed.

Lemma subseq_map {B} (f : A -> B) l1 l2 :
  subseq l1 l2 -> subseq (map f l1) (map f l2).
Proof.
  induction 1; cbn;
    [apply subseq_nil | now apply subseq_skip | now apply subseq_take].
Qed.

Lemma adjacent_head (x y : A) l : adjacent x y (x :: y :: l).
Proof. exists [], l. reflexivity. Qed.

Lemma adjacent_cons (x y z : A) l : adjacent x y l -> adjacent x y (z :: l).
Proof. intros (pre & post & ->). exists (z :: pre), post. reflexivity. Qed.

Lemma adjacent_app_r (x y : A) l0 l : adjacent x y l -> adjacent x y (l0 ++ l).
Proof.
  intros (pre & post & ->). exists (l0 ++ pre), post.
  now rewrite app_assoc.
Qed.

Lemma adjacent_app_l (x y : A) l l0 : adjacent x y l -> adjacent x y (l ++ l0).
Proof.
  intros (pre & post & ->). exists pre, (post ++ l0).
  now rewrite <- app_assoc.
Qed.

Lemma ends_with_cons (x z : A) l : ends_with l x -> ends_with (z :: l) x.
Proof. intros (pre & ->). exists (z :: pre). reflexivity. Qed.

Lemma ends_with_app (x : A) l0 l : ends_with l x -> ends_with (l0 ++ l) x.
Proof. intros (pre & ->). exists (l0 ++ pre). now rewrite app_assoc. Qed.

End ListFacts.

(** ** Records of runs: how the readings split over [++] *)

Lemma called_app t1 t2 : called (t1 ++ t2) = called t1 ++ called t2.
Proof.
  induction t1 as [|e t1 IH]; cbn; auto.
  destruct e; auto. now rewrite IH.
Qed.

Lemma calls_app t1 t2 : calls (t1 ++ t2) = calls t1 ++ calls t2.
Proof. unfold calls. now rewrite called_app, map_app. Qed.

Lemma sleeps_app t1 t2 : sleeps (t1 ++ t2) = sleeps t1 ++ sleeps t2.
Proof.
  induction t1 as [|e t1 IH]; cbn; auto.
  destruct e; auto. now rewrite IH.
Qed.

Lemma logged_app lvl t1 t2 :
  logged lvl (t1 ++ t2) = logged lvl t1 ++ logged lvl t2.
Proof.
  induction t1 as [|e t1 IH]; cbn; auto.
  destruct e; auto. destruct lvl, lvl0; cbn; now rewrite ?IH.
Qed.

Lemma steps_app t1 t2 :
  Steps.steps (t1 ++ t2) = Steps.steps t1 ++ Steps.steps t2.
Proof.
  induction t1 as [|e t1 IH]; cbn [Steps.steps app]; auto.
  destruct (Steps.step_of e); cbn; now rewrite IH.
Qed.

Lemma methods_app t1 t2 : methods (t1 ++ t2) = methods t1 ++ methods t2.
Proof. unfold methods. now rewrite calls_app, map_app. Qed.

(** Two records of the same run, up to the bracketing of [++]. *)
Ltac trace_eq := repeat rewrite <- app_assoc; cbn [app]; reflexivity.

(** ** What the record of a scan for the cookie popup looks like *)

Lemma click_follows_count_app l1 l2 :
  click_follows_count l1 -> click_follows_count l2 ->
  click_follows_count (l1 ++ l2).
Proof.
  intros H1 H2 c' o Hc Hin. apply in_app_or in Hin. destruct Hin as [Hin|Hin].
  - destruct (H1 c' o Hc Hin) as (c & n & ? & ? & ?).
    exists c, n. auto using adjacent_app_l.
  - destruct (H2 c' o Hc Hin) as (c & n & ? & ? & ?).
    exists c, n. auto using adjacent_app_r.
Qed.

Lemma count_leads_to_click_app l1 l2 :
  count_leads_to_click l1 -> count_leads_to_click l2 ->
  count_leads_to_click (l1 ++ l2).
Proof.
  intros H1 H2 c c' n Hc Hin Hn. apply in_app_or in Hin.
  destruct Hin as [Hin|Hin].
  - destruct (H1 c c' n Hc Hin Hn) as (o & ?).
    exists o. auto using adjacent_app_l.
  - destruct (H2 c c' n Hc Hin Hn) as (o & ?).
    exists o. auto using adjacent_app_r.
Qed.

Lemma click_follows_count_nil : click_follows_count [].
Proof. intros c' o _ []. Qed.

Lemma count_leads_to_click_nil : count_leads_to_click [].
Proof. intros c c' n _ []. Qed.

(** One locator probed: its count, then perhaps its click. *)
Lemma click_follows_count_probe c c' n o :
  click_of c = Some c' -> (0 < n)%Z ->
  click_follows_count [ (c, Returned (VInt n)); (c', o) ].
Proof.
  intros Hc Hn d o' Hd [Hin|[Hin|[]]]; inversion Hin; subst.
  - destruct d; cbn in Hc; try discriminate; inversion Hc; subst;
      discriminate.
  - exists c, n. auto using adjacent_head.
Qed.

Lemma click_follows_count_single c o :
  is_click c = false -> click_follows_count [ (c, o) ].
Proof.
  intros Hc d o' Hd [Hin|[]]. inversion Hin; subst. congruence.
Qed.

Lemma count_leads_to_click_probe c c' n o :
  click_of c = Some c' ->
  count_leads_to_click [ (c, Returned (VInt n)); (c', o) ].
Proof.
  intros Hc d d' m Hd [Hin|[Hin|[]]] Hm; inversion Hin; subst.
  - exists o. rewrite Hc in Hd. inversion Hd; subst. apply adjacent_head.
  - destruct d; cbn in Hd; try discriminate; destruct c; discriminate.
Qed.

Lemma count_leads_to_click_single c o :
  (forall n, o = Returned (VInt n) -> (n <= 0)%Z) ->
  count_leads_to_click [ (c, o) ].
Proof.
  intros Ho d d' m Hd [Hin|[]] Hm. inversion Hin; subst.
  specialize (Ho m eq_refl). lia.
Qed.

Section ScannedFacts.
Import ZaraScraper Popup.

Lemma scanned_sleeps selectors t b : scanned selectors t b -> sleeps t = [].
Proof. induction 1; cbn; auto. Qed.

Lemma scanned_steps selectors t b :
  scanned selectors t b -> Steps.steps t = [].
Proof. induction 1; cbn; auto. Qed.

Lemma scanned_errors selectors t b :
  scanned selectors t b -> logged ERROR t = [].
Proof. induction 1; cbn; auto. Qed.

Lemma scanned_calls selectors t b :
  scanned selectors t b -> subseq (calls t) (flat_map Steps.probe selectors).
Proof.
  unfold calls. induction 1; cbn [called selector_failed flat_map Steps.probe app map fst handled_with].
  - constructor.
  - do 2 apply subseq_take. apply subseq_nil_l.
  - apply subseq_take, subseq_skip. assumption.
  - apply subseq_take, subseq_skip. assumption.
  - do 2 apply subseq_take. assumption.
  - do 2 apply subseq_skip. assumption.
Qed.

(** The loop is left by [return True] exactly after a click that went
    through, which is then the last call and the only such click. *)
Lemma scanned_clicked selectors t b :
  scanned selectors t b ->
  if b then exists c, is_click c = true
                      /\ ends_with (called t) (c, Returned VNone)
                      /\ clicks_through (called t) = [ (c, Returned VNone) ]
  else clicks_through (called t) = [].
Proof.
  induction 1; cbn [called selector_failed handled_with app].
  - reflexivity.
  - exists (LocatorFirstClick s). split; [reflexivity | split].
    + exists [ (LocatorCount s, Returned (VInt n)) ]. reflexivity.
    + reflexivity.
  - destruct b; cbn; [ | assumption].
    destruct IHscanned as (c & ? & ? & ?). exists c.
    auto using ends_with_cons.
  - destruct b; cbn; [ | assumption].
    destruct IHscanned as (c & ? & ? & ?). exists c.
    auto using ends_with_cons.
  - destruct b; cbn; [ | assumption].
    destruct IHscanned as (c & ? & ? & ?). exists c.
    auto using ends_with_cons.
  - assumption.
Qed.

Lemma scanned_click_follows_count selectors t b :
  scanned selectors t b -> click_follows_count (called t).
Proof.
  induction 1; cbn [called selector_failed handled_with app].
  - apply click_follows_count_nil.
  - now apply click_follows_count_probe.
  - apply (click_follows_count_app [_]); auto.
    now apply click_follows_count_single.
  - apply (click_follows_count_app [_]); auto.
    now apply click_follows_count_single.
  - apply (click_follows_count_app [_; _]); auto.
    now apply click_follows_count_probe.
  - assumption.
Qed.

Lemma scanned_count_leads_to_click selectors t b :
  scanned selectors t b -> count_leads_to_click (called t).
Proof.
  induction 1; cbn [called selector_failed handled_with app].
  - apply count_leads_to_click_nil.
  - now apply count_leads_to_click_probe.
  - apply (count_leads_to_click_app [_]); auto.
    apply count_leads_to_click_single. intros m Hm. inversion Hm; subst. lia.
  - apply (count_leads_to_click_app [_]); auto.
    apply count_leads_to_click_single. intros m Hm. discriminate.
  - apply (count_leads_to_click_app [_; _]); auto.
    now apply count_leads_to_click_probe.
  - assumption.
Qed.

(** The same for the attempt by role. *)
Lemma by_role_facts t b :
  by_role t b ->
  sleeps t = [] /\ Steps.steps t = [] /\ logged ERROR t = []
  /\ subseq (calls t) [ RoleCount; RoleFirstClick ]
  /\ click_follows_count (called t) /\ count_leads_to_click (called t)
  /\ (if b then ends_with (called t) (RoleFirstClick, Returned VNone)
              /\ clicks_through (called t) = [ (RoleFirstClick, Returned VNone) ]
       else clicks_through (called t) = []).
Proof.
  unfold calls.
  destruct 1; cbn [called app map fst]; repeat split; try reflexivity.
  all: try (do 2 apply subseq_take; apply subseq_nil).
  all: try (apply subseq_take, subseq_skip, subseq_nil).
  all: try apply subseq_nil_l.
  all: try (now apply click_follows_count_probe).
  all: try (now apply count_leads_to_click_probe).
  all: try (now apply click_follows_count_single).
  all: try apply click_follows_count_nil.
  all: try apply count_leads_to_click_nil.
  all: try (apply count_leads_to_click_single; intros m Hm;
            first [discriminate | inversion Hm; subst; lia]).
  exists [ (RoleCount, Returned (VInt n)) ]. reflexivity.
Qed.

Lemma clicks_through_app l1 l2 :
  clicks_through (l1 ++ l2) = clicks_through l1 ++ clicks_through l2.
Proof. apply filter_app. Qed.

(** What every record of [handle_cookie_popup] has. *)
Lemma handled_facts t b :
  handled t b ->
  (exists t', t = [ Print "Looking for cookie popup...";
                    Log INFO "Checking for cookie popup";
                    Sleep 2 ] ++ t'
              /\ sleeps t' = [])
  /\ Steps.steps t = [ Steps.CookiePopup ]
  /\ logged ERROR t = []
  /\ subseq (calls t) Steps.popup_plan
  /\ click_follows_count (called t)
  /\ count_leads_to_click (called t)
  /\ (if b then exists c, is_click c = true
                          /\ ends_with (called t) (c, Returned VNone)
                          /\ clicks_through (called t) = [ (c, Returned VNone) ]
       else clicks_through (called t) = []).
Proof.
  destruct 1 as [t Hs | t1 t2 Hs Hr | t1 t2 Hs Hr].
  - pose proof (scanned_clicked _ _ _ Hs) as Hc. cbn iota in Hc.
    repeat split.
    + eexists. split; [reflexivity | ]. exact (scanned_sleeps _ _ _ Hs).
    + cbn. now rewrite (scanned_steps _ _ _ Hs).
    + cbn. exact (scanned_errors _ _ _ Hs).
    + unfold Steps.popup_plan. apply subseq_app_l.
      rewrite calls_app. cbn. exact (scanned_calls _ _ _ Hs).
    + rewrite called_app. cbn. exact (scanned_click_follows_count _ _ _ Hs).
    + rewrite called_app. cbn. exact (scanned_count_leads_to_click _ _ _ Hs).
    + rewrite called_app. cbn. assumption.
  - pose proof (scanned_clicked _ _ _ Hs) as Hc. cbn iota in Hc.
    destruct (by_role_facts _ _ Hr) as (R1 & R2 & R3 & R4 & R5 & R6 & R7 & R8).
    repeat split.
    + eexists. split; [reflexivity | ].
      rewrite sleeps_app, R1, (scanned_sleeps _ _ _ Hs). reflexivity.
    + rewrite !steps_app, R2, (scanned_steps _ _ _ Hs). reflexivity.
    + rewrite !logged_app, R3, (scanned_errors _ _ _ Hs). reflexivity.
    + unfold Steps.popup_plan. rewrite !calls_app. cbn [calls called map app].
      apply subseq_app; [exact (scanned_calls _ _ _ Hs) | assumption].
    + rewrite !called_app. cbn [called app].
      apply click_follows_count_app;
        [exact (scanned_click_follows_count _ _ _ Hs) | assumption].
    + rewrite !called_app. cbn [called app].
      apply count_leads_to_click_app;
        [exact (scanned_count_leads_to_click _ _ _ Hs) | assumption].
    + exists RoleFirstClick. rewrite !called_app. cbn [called app].
      rewrite clicks_through_app, Hc, R8.
      auto using ends_with_app.
  - pose proof (scanned_clicked _ _ _ Hs) as Hc. cbn iota in Hc.
    destruct (by_role_facts _ _ Hr) as (R1 & R2 & R3 & R4 & R5 & R6 & R7).
    repeat split.
    + eexists. split; [reflexivity | ].
      rewrite !sleeps_app, R1, (scanned_sleeps _ _ _ Hs). reflexivity.
    + rewrite !steps_app, R2, (scanned_steps _ _ _ Hs). reflexivity.
    + rewrite !logged_app, R3, (scanned_errors _ _ _ Hs). reflexivity.
    + unfold Steps.popup_plan. rewrite !calls_app. cbn [calls called map app].
      rewrite app_nil_r.
      apply subseq_app; [exact (scanned_calls _ _ _ Hs) | assumption].
    + rewrite !called_app. cbn [called app]. rewrite app_nil_r.
      apply click_follows_count_app;
        [exact (scanned_click_follows_count _ _ _ Hs) | assumption].
    + rewrite !called_app. cbn [called app]. rewrite app_nil_r.
      apply count_leads_to_click_app;
        [exact (scanned_count_leads_to_click _ _ _ Hs) | assumption].
    + rewrite !called_app. cbn [called app]. rewrite app_nil_r.
      now rewrite clicks_through_app, Hc, R7.
Qed.

End ScannedFacts.

(** ** The scan for the cookie popup *)

Section PopupFacts.
Context {W : Type} `{World W}.
Import ZaraScraper Popup.

Lemma scan_selectors_scanned selectors (st : state W data) r st' :
  scan_selectors selectors st = (r, st') ->
  exists b t, r = Ok b /\ self st' = self st
              /\ out st' = out st ++ t /\ scanned selectors t b.
Proof.
  revert st r st'. induction selectors as [|s rest IH]; intros st r st' E.
  - cbn [scan_selectors] in E. run E. exists false, []. rewrite app_nil_r.
    repeat split. constructor.
  - cbn [scan_selectors] in E. run E.
    all: cbn [world self out outcome_of to_value] in *.
    all: try match goal with
           | Hs : scan_selectors _ _ = _ |- _ =>
               apply IH in Hs; destruct Hs as (b & t & -> & Hself & Hout & Hscan);
               cbn [world self out] in *; exists b; rewrite Hout, Hself
           end.
    all: try match goal with
           | Hn : (0 <? _)%Z = true |- _ => apply Z.ltb_lt in Hn
           | Hn : (0 <? _)%Z = false |- _ => apply Z.ltb_ge in Hn
           end.
    1: exists true.
    all: eexists; (repeat split; [trace_eq | ]).
    all: solve [econstructor; eassumption].
Qed.

Lemma handle_cookie_popup_handled (st : state W data) r st' :
  handle_cookie_popup st = (r, st') ->
  exists b t, r = Ok b /\ self st' = self st
              /\ out st' = out st ++ t /\ handled t b.
Proof.
  intros E. unfold handle_cookie_popup in E. run E.
  all: repeat match goal with
         | Hs : scan_selectors _ _ = _ |- _ =>
             apply scan_selectors_scanned in Hs;
             destruct Hs as (? & ? & ? & ? & ? & ?); tidy
         end.
  all: cbn [world self out outcome_of to_value] in *.
  all: repeat match goal with
         | Hn : (0 <? _)%Z = true |- _ => apply Z.ltb_lt in Hn
         | Hn : (0 <? _)%Z = false |- _ => apply Z.ltb_ge in Hn
         end.
  all: eexists _, _; split; [reflexivity | ]; split; [congruence | ].
  all: split;
    [ match goal with Ho : out _ = _ |- _ => rewrite Ho end; trace_eq | ].
  all: first
    [ refine (handled_in_scan _ _); eassumption
    | refine (handled_by_role _ _ _ (role_hit _ _)); eassumption
    | refine (handled_not _ _ _ (role_absent _ _)); eassumption
    | refine (handled_not _ _ _ (role_click_raised _ _ _)); eassumption
    | refine (handled_not _ _ _ (role_count_raised _)); eassumption
    | refine (handled_not _ _ _ role_no_page); eassumption ].
Qed.

End PopupFacts.

Ltac run_method H ::=
  lazymatch type of H with
  | ZaraScraper.handle_cookie_popup _ = _ =>
      apply handle_cookie_popup_handled in H;
      destruct H as (? & ? & ? & ? & ? & ?); tidy; settle
  end.

(** ** Navigation and the two saves *)

Section ZaraMethods.
Context {W : Type} `{World W}.
Import ZaraScraper Runs.

Lemma navigate_to_homepage_navigated (st : state W data) r st' :
  navigate_to_homepage st = (r, st') ->
  exists b t, r = Ok b /\ attrs (self st') = attrs (self st)
              /\ out st' = out st ++ t
              /\ navigated (scrape_data (self st)) t b (scrape_data (self st')).
Proof.
  intros E. unfold navigate_to_homepage in E. run E.
  all: cbn [world self out outcome_of to_value attrs headless locale browser
            context page timestamp scrape_data with_data] in *.
  all: eexists _, _; split; [reflexivity | ]; split; [reflexivity | ].
  all: split; [trace_eq | ].
  all: first
    [ exact (nav_no_page _)
    | exact (nav_goto_raised _ _)
    | exact (nav_wait_raised _ _)
    | refine (nav_title_raised _ _ _ _ _); eassumption
    | refine (nav_loaded _ _ _ _ _ _); eassumption
    | refine (nav_unexpected _ _ _ _ _ _); eassumption ].
Qed.

Lemma save_html_saved (st : state W data) r st' :
  save_html st = (r, st') ->
  exists o t, r = Ok o /\ attrs (self st') = attrs (self st)
              /\ out st' = out st ++ t
              /\ html_saved (timestamp (self st)) (scrape_data (self st)) t o
                            (scrape_data (self st')).
Proof.
  intros E. unfold save_html in E. run E.
  all: cbn [world self out outcome_of to_value attrs headless locale browser
            context page timestamp scrape_data with_data] in *.
  all: eexists _, _; split; [reflexivity | ]; split; [reflexivity | ].
  all: split; [trace_eq | ].
  all: first
    [ exact (html_no_page _ _)
    | exact (html_content_raised _ _ _)
    | exact (html_write_raised _ _ _ _)
    | exact (html_written _ _ _) ].
Qed.

Lemma save_screenshot_saved (st : state W data) r st' :
  save_screenshot st = (r, st') ->
  exists o t, r = Ok o /\ attrs (self st') = attrs (self st)
              /\ out st' = out st ++ t
              /\ screenshot_saved (timestamp (self st)) (scrape_data (self st))
                                  t o (scrape_data (self st')).
Proof.
  intros E. unfold save_screenshot in E. run E.
  all: cbn [world self out outcome_of to_value attrs headless locale browser
            context page timestamp scrape_data with_data] in *.
  all: eexists _, _; split; [reflexivity | ]; split; [reflexivity | ].
  all: split; [trace_eq | ].
  all: first
    [ exact (shot_no_page _ _)
    | exact (shot_raised _ _ _)
    | exact (shot_taken _ _) ].
Qed.

Lemma extract_loop_extracting indices banners (st : state W data) r st' :
  extract_loop indices banners st = (r, st') ->
  exists banners' t, r = Ok banners' /\ self st' = self st
                     /\ out st' = out st ++ t
                     /\ extracting indices banners t banners'.
Proof.
  revert banners st r st'.
  induction indices as [|i rest IH]; intros banners st r st' E.
  - cbn [extract_loop] in E. run E. exists banners, [].
    rewrite app_nil_r. repeat split. constructor.
  - cbn [extract_loop] in E. run E.
    all: cbn [world self out outcome_of to_value] in *.
    all: match goal with
         | Hs : extract_loop _ _ _ = _ |- _ =>
             apply IH in Hs; destruct Hs as (bs' & t & -> & Hself & Hout & Hex);
             cbn [world self out] in *; exists bs'; rewrite Hout, Hself
         end.
    all: eexists; (repeat split; [trace_eq | ]).
    all: first
      [ refine (extracting_kept _ _ _ _ _ _ _ _ Hex); assumption
      | refine (extracting_dropped _ _ _ (Some _) _ _ _ _ Hex); assumption
      | refine (extracting_dropped _ _ _ None _ _ _ _ Hex); reflexivity
      | refine (extracting_href_raised _ _ _ _ _ _ Hex)
      | refine (extracting_text_raised _ _ _ _ _ _ _ Hex) ].
Qed.

End ZaraMethods.

Ltac run_method H ::=
  lazymatch type of H with
  | ZaraScraper.handle_cookie_popup _ = _ =>
      apply handle_cookie_popup_handled in H;
      destruct H as (? & ? & ? & ? & ? & ?); tidy; settle
  | ZaraScraper.extract_loop _ _ _ = _ =>
      apply extract_loop_extracting in H;
      destruct H as (? & ? & ? & ? & ? & ?); tidy; settle
  end.

(** ** Extraction, the report and the whole run *)

Section ZaraRun.
Context {W : Type} `{World W}.
Import ZaraScraper Runs.

Lemma extract_hero_banners_extracted (st : state W data) r st' :
  extract_hero_banners st = (r, st') ->
  exists bs t, r = Ok bs /\ attrs (self st') = attrs (self st)
               /\ out st' = out st ++ t
               /\ extracted (scrape_data (self st)) t bs (scrape_data (self st')).
Proof.
  intros E. unfold extract_hero_banners in E. run E.
  all: cbn [world self out outcome_of to_value attrs headless locale browser
            context page timestamp scrape_data with_data] in *.
  all: eexists _, _; split; [reflexivity | ]; split; [reflexivity | ].
  all: split; [trace_eq | ].
  all: first
    [ exact (extracted_no_page _)
    | exact (extracted_wait_raised _ _)
    | exact (extracted_count_raised _ _)
    | refine (extracted_banners _ _ _ _ _); eassumption ].
Qed.

Lemma _display_results_displayed (st : state W data) :
  _display_results st
  = (Ok tt, State (world st) (self st)
                  (out st ++ displayed (scrape_data (self st)))).
Proof.
  destruct (_display_results st) as [r st'] eqn:E.
  unfold _display_results in E. run E.
  all: cbn [world self out] in *.
  all: unfold displayed, results_table, banners_table.
  all: repeat match goal with
         | Hx : banners _ = _ |- _ => rewrite Hx; clear Hx
         | Hx : errors _ = _ |- _ => rewrite Hx; clear Hx
         end.
  all: f_equal; f_equal; trace_eq.
Qed.

End ZaraRun.

Ltac run_method H ::=
  lazymatch type of H with
  | ZaraScraper.handle_cookie_popup _ = _ =>
      apply handle_cookie_popup_handled in H;
      destruct H as (? & ? & ? & ? & ? & ?); tidy; settle
  | ZaraScraper.extract_loop _ _ _ = _ =>
      apply extract_loop_extracting in H;
      destruct H as (? & ? & ? & ? & ? & ?); tidy; settle
  | ZaraScraper.navigate_to_homepage _ = _ =>
      apply navigate_to_homepage_navigated in H;
      destruct H as (? & ? & ? & ? & ? & ?); tidy; settle
  | ZaraScraper.save_html _ = _ =>
      apply save_html_saved in H;
      destruct H as (? & ? & ? & ? & ? & ?); tidy; settle
  | ZaraScraper.save_screenshot _ = _ =>
      apply save_screenshot_saved in H;
      destruct H as (? & ? & ? & ? & ? & ?); tidy; settle
  | ZaraScraper.extract_hero_banners _ = _ =>
      apply extract_hero_banners_extracted in H;
      destruct H as (? & ? & ? & ? & ? & ?); tidy; settle
  | ZaraScraper._display_results _ = _ =>
      rewrite _display_results_displayed in H; tidy
  end.

Section ZaraScrape.
Context {W : Type} `{World W}.
Import ZaraScraper Runs.

Lemma run_scrape_scraped (st : state W data) r st' :
  run_scrape st = (r, st') ->
  exists t, r = Ok (scrape_data (self st'))
            /\ attrs (self st') = attrs (self st)
            /\ out st' = out st ++ t
            /\ scraped (self st) t (scrape_data (self st')).
Proof.
  intros E. unfold run_scrape in E. run E.
  all: cbn [world self out outcome_of to_value attrs headless locale browser
            context page timestamp scrape_data with_data] in *.
  all: match goal with
       | Hn : negb ?x = _ |- _ => destruct x; try discriminate Hn; clear Hn
       end.
  all: eexists; split; [reflexivity | ]; split; [reflexivity | ].
  all: split; [trace_eq | ].
  - refine (scraped_not_navigated _ _ _ _). eassumption.
  - refine (scraped_navigated _ _ _ _ _ _ _ _ _ _ _ _ _ _ _ _); eassumption.
Qed.

End ZaraScrape.

(** ** The record is write-only *)

Section Oblivious.
Context {W : Type} `{World W} {D : Type}.
Implicit Types st : state W D.

Lemma oblivious_ret {A} (a : A) : oblivious (ret (D:=D) (W:=W) a).
Proof. intros o st. reflexivity. Qed.

Lemma oblivious_raise {A} e : oblivious (raise (A:=A) (D:=D) (W:=W) e).
Proof. intros o st. reflexivity. Qed.

Lemma oblivious_emit ev : oblivious (emit (D:=D) (W:=W) ev).
Proof.
  intros o st. unfold emit, shift. cbn. now rewrite app_assoc.
Qed.

Lemma oblivious_do_call c : oblivious (do_call (D:=D) c).
Proof.
  intros o st. unfold do_call, shift. cbn.
  destruct (respond c (world st)) as [r w]. cbn. now rewrite app_assoc.
Qed.

Lemma oblivious_get_self : oblivious (get_self (D:=D) (W:=W)).
Proof. intros o st. reflexivity. Qed.

Lemma oblivious_set_self s : oblivious (set_self (D:=D) (W:=W) s).
Proof. intros o st. reflexivity. Qed.

Lemma oblivious_bind {A B} (m : M W D A) (k : A -> M W D B) :
  oblivious m -> (forall a, oblivious (k a)) -> oblivious (bind m k).
Proof.
  intros Hm Hk o st. unfold bind. rewrite Hm.
  destruct (m st) as [[a|e] st1]; cbn [fst snd].
  - apply Hk.
  - reflexivity.
Qed.

Lemma oblivious_try_except {A} (m : M W D A) (h : string -> M W D A) :
  oblivious m -> (forall e, oblivious (h e)) -> oblivious (try_except m h).
Proof.
  intros Hm Hh o st. unfold try_except. rewrite Hm.
  destruct (m st) as [[a|e] st1]; cbn [fst snd].
  - reflexivity.
  - apply Hh.
Qed.

Lemma oblivious_print_lines l : oblivious (print_lines (D:=D) (W:=W) l).
Proof.
  induction l as [|x l IH]; cbn [print_lines].
  - apply oblivious_ret.
  - apply oblivious_bind; [apply oblivious_emit | intros _; exact IH].
Qed.

(** Two states that differ in their record only. *)
Lemma oblivious_fst {A} (m : M W D A) w s o1 o2 :
  oblivious m -> fst (m (State w s o1)) = fst (m (State w s o2)).
Proof.
  intros Hm.
  pose proof (Hm o1 (State w s [])) as H1.
  pose proof (Hm o2 (State w s [])) as H2.
  unfold shift in H1, H2. cbn [world self out] in H1, H2.
  rewrite !app_nil_r in H1, H2. now rewrite H1, H2.
Qed.

Lemma oblivious_self {A} (m : M W D A) w s o1 o2 :
  oblivious m ->
  self (snd (m (State w s o1))) = self (snd (m (State w s o2))).
Proof.
  intros Hm.
  pose proof (Hm o1 (State w s [])) as H1.
  pose proof (Hm o2 (State w s [])) as H2.
  unfold shift in H1, H2. cbn [world self out] in H1, H2.
  rewrite !app_nil_r in H1, H2. now rewrite H1, H2.
Qed.

Lemma oblivious_since {A} (m : M W D A) w s o1 o2 :
  oblivious m ->
  since (State w s o1) (snd (m (State w s o1)))
  = since (State w s o2) (snd (m (State w s o2))).
Proof.
  intros Hm.
  pose proof (Hm o1 (State w s [])) as H1.
  pose proof (Hm o2 (State w s [])) as H2.
  unfold shift in H1, H2. cbn [world self out] in H1, H2.
  rewrite !app_nil_r in H1, H2. rewrite H1, H2. unfold since, shift.
  cbn [snd out]. rewrite !skipn_app, !Nat.sub_diag, !skipn_all. reflexivity.
Qed.

End Oblivious.

Lemma since_app {W D} (st st' : state W D) t :
  out st' = out st ++ t -> since st st' = t.
Proof.
  intros E. unfold since. rewrite E, skipn_app, Nat.sub_diag, skipn_all.
  reflexivity.
Qed.

(** Proving a method oblivious, construct by construct. *)
Ltac oblivious_step :=
  first
    [ apply oblivious_bind
    | apply oblivious_try_except
    | apply oblivious_ret
    | apply oblivious_raise
    | apply oblivious_emit
    | apply oblivious_do_call
    | apply oblivious_get_self
    | apply oblivious_set_self
    | apply oblivious_print_lines
    | assumption
    | progress intros
    | match goal with
      | |- oblivious (if ?b then _ else _) => destruct b
      | |- oblivious (match ?x with Some _ => _ | None => _ end) => destruct x
      | |- oblivious (match ?x with [] => _ | _ :: _ => _ end) => destruct x
      end ].

Ltac oblivious_tac :=
  unfold logger, print, sleep, page_call, page_attr, set_browser,
    set_context, set_page, set_scrape_data, get_scrape_data,
    ZaraScraper.update, Headings.update;
  repeat oblivious_step.

Section ZaraOblivious.
Context {W : Type} `{World W}.
Import ZaraScraper.

Lemma scan_selectors_oblivious selectors :
  oblivious (W:=W) (scan_selectors selectors).
Proof.
  induction selectors as [|s rest IH]; cbn [scan_selectors]; oblivious_tac.
Qed.

Lemma handle_cookie_popup_oblivious : oblivious (W:=W) handle_cookie_popup.
Proof.
  unfold handle_cookie_popup. pose proof scan_selectors_oblivious.
  oblivious_tac.
Qed.

Lemma navigate_to_homepage_oblivious : oblivious (W:=W) navigate_to_homepage.
Proof.
  unfold navigate_to_homepage. pose proof handle_cookie_popup_oblivious.
  oblivious_tac.
Qed.

End ZaraOblivious.

(** ** What the records of the [ZaraScraper] methods tell *)

Lemma called_In_calls c o t : In (c, o) (called t) -> In c (calls t).
Proof. intros Hin. unfold calls. now apply (in_map fst) in Hin. Qed.



(** Membership in a list written out with [::] and [++], case by case. *)
Ltac in_cases H :=
  lazymatch type of H with
  | In _ (_ ++ _) =>
      apply in_app_or in H; destruct H as [H|H]; in_cases H
  | In _ (_ :: _) =>
      destruct H as [H|H];
      [ first [ discriminate H | inversion H; subst; try (revert H; intros _) | idtac ]
      | in_cases H ]
  | In _ [] => contradiction H
  | False => contradiction H
  | _ => idtac
  end.

Section NavigatedFacts.
Import ZaraScraper Runs Steps.


Lemma navigated_steps d t b d' :
  navigated d t b d' ->
  if b then steps t = [ Navigate; CookiePopup ]
  else steps t = [ Navigate ] \/ steps t = [ Navigate; CookiePopup ].
Proof.
  destruct 1;
    repeat match goal with
      | Hh : Popup.handled _ _ |- _ =>
          destruct (handled_facts _ _ Hh) as (_ & Hst & _); clear Hh
      end;
    rewrite ?steps_app, ?Hst; cbn; auto.
Qed.

Lemma navigated_calls d t b d' :
  navigated d t b d' -> subseq (calls t) nav_plan.
Proof.
  unfold nav_plan.
  destruct 1;
    repeat match goal with
      | Hh : Popup.handled _ _ |- _ =>
          destruct (handled_facts _ _ Hh) as (_ & _ & _ & Hsub & _); clear Hh
      end;
    rewrite ?calls_app; cbn [calls called nav_enter failure app map fst goto].
  - apply subseq_nil_l.
  - apply subseq_take, subseq_nil_l.
  - do 2 apply subseq_take. apply subseq_nil_l.
  - do 2 apply subseq_take. apply subseq_app; [assumption | ].
    apply subseq_refl.
  - do 2 apply subseq_take. apply subseq_app; [assumption | ].
    apply subseq_refl.
  - do 2 apply subseq_take. apply subseq_app; [assumption | ].
    apply subseq_refl.
Qed.





End NavigatedFacts.

Section SavedFacts.
Import ZaraScraper Runs Steps.

Lemma html_saved_trace ts d t o d' :
  html_saved ts d t o d' ->
  steps t = [ SaveHtml ] /\ sleeps t = []
  /\ exists html, subseq (calls t) (html_plan ts html).
Proof.
  unfold html_plan, calls.
  destruct 1; cbn; (split; [reflexivity | split; [reflexivity | ]]);
    first [ exists html | exists ""%string ];
    repeat first [ apply subseq_nil | apply subseq_take | apply subseq_skip ].
Qed.



Lemma screenshot_saved_trace ts d t o d' :
  screenshot_saved ts d t o d' ->
  steps t = [ SaveScreenshot ] /\ sleeps t = []
  /\ subseq (calls t) (shot_plan ts).
Proof.
  unfold shot_plan, calls.
  destruct 1; cbn; repeat split;
    repeat first [ apply subseq_nil | apply subseq_take | apply subseq_skip ].
Qed.



End SavedFacts.

Section ExtractedFacts.
Import ZaraScraper Runs Steps.

Lemma truthy_not_empty s : Py.truthy s = true -> s <> ""%string.
Proof. destruct s; [discriminate | congruence]. Qed.

Lemma read_from_cons e t b : read_from t b -> read_from (e :: t) b.
Proof.
  intros (? & ? & ? & raw & ? & ?). repeat split; auto.
  - now right.
  - exists raw. split; [now right | assumption].
Qed.

Lemma extracting_trace indices bs t bs' :
  extracting indices bs t bs' ->
  steps t = [] /\ sleeps t = [] /\ logged ERROR t = []
  /\ subseq (calls t) (flat_map reads indices)
  /\ (forall c o, In (c, o) (called t) -> inner c = true).
Proof.
  unfold calls.
  induction 1 as [ bs | i rest bs h text t bs' Hk Hex IH
                   | i rest bs href text t bs' Hk Hex IH
                   | i rest bs e t bs' Hex IH
                   | i rest bs href e t bs' Hex IH ];
    [ | destruct IH as (I1 & I2 & I3 & I4 & I5) .. ];
    cbn [steps step_of sleeps logged called banner_failed flat_map reads app
         map fst get_href get_text];
    repeat split; auto;
    try (intros c o Hin; in_cases Hin; eauto);
    repeat first [ assumption | apply subseq_nil | apply subseq_take
                 | apply subseq_skip ].
Qed.

Lemma extracting_banners indices bs t bs' :
  extracting indices bs t bs' ->
  exists new, bs' = bs ++ new
              /\ subseq (map index new) indices
              /\ Forall (read_from t) new.
Proof.
  induction 1 as [ bs | i rest bs h raw t bs' Hk Hex IH
                   | i rest bs href raw t bs' Hk Hex IH
                   | i rest bs e t bs' Hex IH
                   | i rest bs href e t bs' Hex IH ];
    [ | destruct IH as (new & -> & Hsub & Hall) .. ].
  - exists []. rewrite app_nil_r. repeat split; constructor.
  - exists (Banner (Py.strip raw) h i :: new). rewrite <- app_assoc.
    split; [reflexivity | split].
    + cbn. apply subseq_take. assumption.
    + cbn [kept] in Hk. apply andb_prop in Hk. destruct Hk as [Hh Ht].
      constructor.
      * repeat split; cbn [href text index];
          auto using truthy_not_empty.
        -- now left.
        -- exists raw. split; [right; now left | reflexivity].
      * eapply Forall_impl; [ | exact Hall ].
        intros b Hb. now do 2 apply read_from_cons.
  - exists new. split; [reflexivity | split].
    + apply subseq_skip. assumption.
    + eapply Forall_impl; [ | exact Hall ].
      intros b Hb. now do 2 apply read_from_cons.
  - exists new. split; [reflexivity | split].
    + apply subseq_skip. assumption.
    + eapply Forall_impl; [ | exact Hall ].
      intros b Hb. now do 2 apply read_from_cons.
  - exists new. split; [reflexivity | split].
    + apply subseq_skip. assumption.
    + eapply Forall_impl; [ | exact Hall ].
      intros b Hb. now do 3 apply read_from_cons.
Qed.

Lemma range_length n : length (Py.range n) = Z.to_nat n.
Proof. unfold Py.range. now rewrite length_map, length_seq. Qed.

Lemma range_prefix n :
  (n <= 20)%Z -> exists rest, Py.range 20 = Py.range n ++ rest.
Proof.
  intros Hn. unfold Py.range.
  exists (map Z.of_nat (seq (Z.to_nat n) (20 - Z.to_nat n))).
  rewrite <- map_app. f_equal.
  replace (Z.to_nat 20) with (Z.to_nat n + (20 - Z.to_nat n))%nat by lia.
  apply seq_app.
Qed.

Lemma reads_range_subseq n :
  (n <= 20)%Z ->
  subseq (flat_map reads (Py.range n)) (flat_map reads (Py.range 20)).
Proof.
  intros Hn. destruct (range_prefix n Hn) as (rest & ->).
  rewrite flat_map_app. apply subseq_app_l, subseq_refl.
Qed.

Lemma extracted_trace d t bs d' :
  extracted d t bs d' ->
  steps t = [ Extract ] /\ sleeps t = [] /\ subseq (calls t) extract_plan.
Proof.
  unfold extract_plan.
  destruct 1 as [ | e | e | count t bs Hex ];
    [ | | | destruct (extracting_trace _ _ _ _ Hex) as (I1 & I2 & I3 & I4 & I5) ];
    rewrite ?steps_app, ?sleeps_app, ?calls_app, ?I1, ?I2;
    cbn [steps step_of sleeps calls called extract_enter failure app map fst
         count_banners];
    (split; [reflexivity | split; [reflexivity | ]]).
  - apply subseq_nil_l.
  - apply subseq_take, subseq_nil_l.
  - do 2 apply subseq_take. apply subseq_nil_l.
  - do 2 apply subseq_take. rewrite app_nil_r.
    eapply subseq_trans; [exact I4 | ].
    apply reads_range_subseq. lia.
Qed.

Lemma extracted_data d t bs d' :
  extracted d t bs d' ->
  (logged ERROR t = [] /\ d' = with_banners_found (length bs) d)
  \/ (exists e, bs = [] /\ d' = with_error (extract_failed e) d
                /\ logged ERROR t = [ extract_failed e ]).
Proof.
  destruct 1 as [ | e | e | count t bs Hex ];
    [ right | right | right | left ];
    try (eexists; repeat split; reflexivity).
  destruct (extracting_trace _ _ _ _ Hex) as (I1 & I2 & I3 & I4 & I5).
  split; [ | reflexivity ].
  rewrite !logged_app, I3. reflexivity.
Qed.

(** At most 20 banners, each read from an anchor among the first
    [min(count, 20)], in page order. *)
Lemma extracted_banners d t bs d' :
  extracted d t bs d' ->
  (length bs <= 20)%nat /\ Forall (read_from t) bs
  /\ exists n, (n <= 20)%Z /\ subseq (map index bs) (Py.range n)
               /\ forall count,
                    In (count_banners, Returned (VInt count)) (called t) ->
                    n = Z.min count 20.
Proof.
  destruct 1 as [ | e | e | count t bs Hex ].
  1-3: split; [cbn; lia | ]; split; [constructor | ];
       exists 0%Z; split; [lia | ]; split; [constructor | ];
       intros count Hin; cbn [called extract_enter failure app] in Hin;
       in_cases Hin.
  destruct (extracting_trace _ _ _ _ Hex) as (I1 & I2 & I3 & I4 & I5).
  destruct (extracting_banners _ _ _ _ Hex) as (new & Hnew & Hsub & Hall).
  cbn [app] in Hnew. subst new.
  split; [ | split ].
  - apply subseq_length in Hsub. rewrite length_map, range_length in Hsub. lia.
  - eapply Forall_impl; [ | exact Hall ].
    intros b Hb. cbn [extract_enter app].
    do 5 apply read_from_cons.
    destruct Hb as (? & ? & ? & raw & ? & ?). repeat split; auto.
    + apply in_or_app. now left.
    + exists raw. split; [apply in_or_app; now left | assumption].
  - exists (Z.min count 20). split; [lia | ]. split; [assumption | ].
    intros c Hin. rewrite ?called_app in Hin.
    cbn [called extract_enter failure app] in Hin. rewrite ?called_app in Hin.
    in_cases Hin;
      first [ reflexivity
            | apply I5 in Hin; discriminate Hin
            | cbn in Hin; contradiction ].
Qed.


End ExtractedFacts.

Section ScrapedFacts.
Import ZaraScraper Runs Steps.

Lemma displayed_trace d :
  steps (displayed d) = [ Report ] /\ called (displayed d) = []
  /\ sleeps (displayed d) = [] /\ logged ERROR (displayed d) = [].
Proof.
  unfold displayed.
  destruct (banners d) as [[|b l]|]; destruct (errors d) as [|e l'];
    repeat split.
Qed.

Lemma scraped_steps s t d' :
  scraped s t d' ->
  if success d' then steps t = pipeline
  else steps t = [ Navigate ] \/ steps t = [ Navigate; CookiePopup ].
Proof.
  destruct 1 as [ t d1 Hn | t1 d1 t2 o2 d2 t3 o3 d3 t4 bs d4 Hn Hh Hs He ].
  - apply navigated_steps in Hn. cbn [success with_success].
    rewrite steps_app. exact Hn.
  - apply navigated_steps in Hn.
    destruct (html_saved_trace _ _ _ _ _ Hh) as (H1 & _).
    destruct (screenshot_saved_trace _ _ _ _ _ Hs) as (H2 & _).
    destruct (extracted_trace _ _ _ _ He) as (H3 & _).
    destruct (displayed_trace (with_banners bs (with_success true d4)))
      as (H4 & _).
    cbn [success with_success with_banners].
    rewrite !steps_app, Hn, H1, H2, H3, H4. reflexivity.
Qed.

Lemma scraped_calls s t d' :
  scraped s t d' ->
  exists html, subseq (calls t) (plan (timestamp s) html).
Proof.
  unfold plan.
  destruct 1 as [ t d1 Hn | t1 d1 t2 o2 d2 t3 o3 d3 t4 bs d4 Hn Hh Hs He ].
  - apply navigated_calls in Hn. exists ""%string.
    rewrite calls_app. cbn [calls called scrape_enter map app].
    now apply subseq_app_l.
  - apply navigated_calls in Hn.
    destruct (html_saved_trace _ _ _ _ _ Hh) as (_ & _ & html & H1).
    destruct (screenshot_saved_trace _ _ _ _ _ Hs) as (_ & _ & H2).
    destruct (extracted_trace _ _ _ _ He) as (_ & _ & H3).
    destruct (displayed_trace (with_banners bs (with_success true d4)))
      as (_ & H4 & _).
    exists html. unfold calls in *. rewrite !called_app, H4, !map_app.
    cbn [called scrape_enter scrape_leave map app]. rewrite app_nil_r.
    repeat apply subseq_app; assumption.
Qed.


End ScrapedFacts.

(** A run of [run_scrape] never raises and leaves a record of the shape
    [scraped]. *)
Lemma run_scrape_run {W : Type} `{World W} (st : state W ZaraScraper.data) :
  let st' := snd (ZaraScraper.run_scrape st) in
  ZaraScraper.run_scrape st = (Ok (scrape_data (self st')), st')
  /\ attrs (self st') = attrs (self st)
  /\ out st' = out st ++ since st st'
  /\ Runs.scraped (self st) (since st st') (scrape_data (self st')).
Proof.
  cbn zeta. destruct (ZaraScraper.run_scrape st) as [r st'] eqn:E.
  cbn [snd]. destruct (run_scrape_scraped _ _ _ E) as (t & -> & Ha & Ho & Hs).
  rewrite (since_app _ _ _ Ho). auto.
Qed.

(** ** Where the files are written *)

Section FilesFacts.
Import ZaraScraper Runs Steps.






End FilesFacts.

Section FieldsFacts.
Import ZaraScraper Runs Steps.


End FieldsFacts.

(** ** Lists of calls without repetition *)





(** ** The cookie popup *)



(** ** Where [run_scrape] stands once navigation has returned *)

Section AfterNavigation.
Context {W : Type} `{World W}.
Import ZaraScraper Runs.

(** The state in which [run_scrape] calls [navigate_to_homepage]. *)
Lemma run_scrape_navigation (st : state W data) :
  let st1 := State (world st) (self st) (out st ++ scrape_enter (self st)) in
  let st2 := snd (navigate_to_homepage st1) in
  exists b,
    fst (navigate_to_homepage st1) = Ok b
    /\ success (scrape_data (self (snd (run_scrape st)))) = b
    /\ (b = false ->
        snd (run_scrape st)
        = State (world st2)
                (with_data (with_success false (scrape_data (self st2)))
                           (self st2))
                (out st2)).
Proof.
  cbn zeta. destruct (run_scrape st) as [r st'] eqn:E. cbn [snd].
  unfold run_scrape in E. apply try_except_inv in E.
  destruct E as [(d' & E & ->) | (e & s1 & E & _)].
  - apply bind_inv in E. destruct E as [(s & s0 & E0 & E) | (e & E0 & _)];
      [ | run E0 ].
    run E0. cbn [world self out] in E.
    apply bind_inv in E. destruct E as [(u & s0 & E0 & E) | (e & E0 & _)];
      [ | run E0 ].
    run E0. cbn [world self out] in E.
    apply bind_inv in E. destruct E as [(u & s0 & E0 & E) | (e & E0 & _)];
      [ | run E0 ].
    run E0. cbn [world self out] in E.
    apply bind_inv in E. destruct E as [(b & st2 & E0 & E) | (e & E0 & _)].
    + rewrite <- app_assoc in E0. cbn [app] in E0.
      unfold scrape_enter. rewrite E0. cbn [fst snd].
      exists b. split; [reflexivity | ].
      destruct b; cbn [negb] in E.
      * split; [ | discriminate ]. run E.
        cbn [world self out scrape_data with_data with_banners with_success
             success]. reflexivity.
      * run E. cbn [world self out scrape_data with_data with_success success].
        split; [reflexivity | ]. intros _. reflexivity.
    + apply navigate_to_homepage_navigated in E0.
      destruct E0 as (? & ? & ? & _). discriminate.
  - exfalso. run E.
Qed.

End AfterNavigation.

(** ** The run of [ZaraScraper.run_scrape] *)

Section RunScrape.
Context {W : Type} `{World W}.
Import ZaraScraper Runs.




End RunScrape.




Section Navigation.
Context {W : Type} `{World W}.
Import ZaraScraper Runs.

(** What [navigate_to_homepage] does when called from [run_scrape] is what
    it does when called on the state [run_scrape] was entered with. *)
Lemma navigation_in_run (st : state W data) :
  let st1 := State (world st) (self st) (out st ++ scrape_enter (self st)) in
  fst (navigate_to_homepage st1) = fst (navigate_to_homepage st)
  /\ self (snd (navigate_to_homepage st1)) = self (snd (navigate_to_homepage st))
  /\ out (snd (navigate_to_homepage st1))
     = out st ++ scrape_enter (self st)
       ++ since st (snd (navigate_to_homepage st)).
Proof.
  cbn zeta. destruct st as [w s o]. cbn [world self out].
  split; [ | split ].
  - apply oblivious_fst, navigate_to_homepage_oblivious.
  - apply oblivious_self, navigate_to_homepage_oblivious.
  - rewrite <- (oblivious_since navigate_to_homepage w s
                  (o ++ scrape_enter s) o navigate_to_homepage_oblivious).
    destruct (navigate_to_homepage (State w s (o ++ scrape_enter s)))
      as [r st2] eqn:E.
    destruct (navigate_to_homepage_navigated _ _ _ E) as (b & t & _ & _ & Ho & _).
    cbn [snd out] in *.
    rewrite (since_app (State w s (o ++ scrape_enter s)) st2 t Ho), Ho.
    now rewrite app_assoc.
Qed.


End Navigation.

(** C9: once [navigate_to_homepage] has returned [True], [run_scrape]
    returns the result record with the success flag set, whatever the
    saves and the extraction do; and there is a run (the page cannot be
    read, no screenshot can be taken) that exits with code 0 while
    [html_file] and [screenshot_file] are [None] and the error list holds
    two entries. *)
Theorem success_follows_navigation_alone {W : Type} `{World W}
    (st : state W ZaraScraper.data) :
  fst (ZaraScraper.navigate_to_homepage st) = Ok true ->
  (let st' := snd (ZaraScraper.run_scrape st) in
   fst (ZaraScraper.run_scrape st) = Ok (scrape_data (self st'))
   /\ ZaraScraper.success (scrape_data (self st')) = true)
  /\ (let run := ZaraScraper.__main__ "20250101_120000"
                   (Worlds.zara Worlds.unreadable) in
      let d := scrape_data (self (snd run)) in
      fst run = Ok 0%Z
      /\ ZaraScraper.success d = true
      /\ ZaraScraper.html_file d = None
      /\ ZaraScraper.screenshot_file d = None
      /\ ZaraScraper.errors d
         = [ "Failed to save HTML: Page.content: Target closed";
             "Failed to save screenshot: Page.screenshot: Timeout 30000ms exceeded" ]%string).
Proof.
  intros Hnav. split.
  - cbn zeta. destruct (run_scrape_run st) as (E & _).
    apply (f_equal fst) in E. cbn [fst] in E. split; [exact E | ].
    destruct (run_scrape_navigation st) as (b & Hb & Hs & _).
    destruct (navigation_in_run st) as (Hf & _).
    rewrite Hf, Hnav in Hb. injection Hb as <-. exact Hs.
  - vm_compute. repeat split.
Qed.

Lemma success_follows_navigation_alone_witness :
  fst (ZaraScraper.navigate_to_homepage (Worlds.zara Worlds.unreadable)) = Ok true
  /\ ZaraScraper.success
       (scrape_data
          (self (snd (ZaraScraper.run_scrape (Worlds.zara Worlds.unreadable)))))
     = true.
Proof.
  assert (fst (ZaraScraper.navigate_to_homepage
                 (Worlds.zara Worlds.unreadable)) = Ok true) as Hnav
    by (vm_compute; reflexivity).
  split; [exact Hnav | ].
  destruct (success_follows_navigation_alone (Worlds.zara Worlds.unreadable)
              Hnav) as ((_ & Hs) & _).
  exact Hs.
Defined.



(** ** Where the files of a run go *)



(** ** What the extraction returns *)



(** ** Handlers on a record that is written out *)

Lemma prefix_of_refl {A} (l : list A) : prefix_of l l.
Proof. exists []. now rewrite app_nil_r. Qed.

Lemma prefix_of_nil {A} (l : list A) : prefix_of [] l.
Proof. exists l. reflexivity. Qed.

Lemma prefix_of_cons {A} (x : A) l plan :
  prefix_of l plan -> prefix_of (x :: l) (x :: plan).
Proof. intros (rest & ->). exists rest. reflexivity. Qed.

Lemma prefix_of_subseq {A} (l plan : list A) : prefix_of l plan -> subseq l plan.
Proof. intros (rest & ->). apply subseq_app_l, subseq_refl. Qed.

Lemma tables_app t1 t2 : tables (t1 ++ t2) = tables t1 ++ tables t2.
Proof.
  induction t1 as [|[] t1 IHt]; cbn [tables app]; rewrite ?IHt; reflexivity.
Qed.

Lemma tables_In title t :
  In title (tables t) <-> exists rows, In (PrintTable title rows) t.
Proof.
  induction t as [|ev t IHt]; cbn [tables In].
  - split; [contradiction | intros (rows & [])].
  - destruct ev; cbn [In]; rewrite ?IHt;
      try (split; [ intros (rows & Hi); eauto
                  | intros (rows & [Hd | Hi]); [discriminate Hd | eauto] ]).
    split.
    + intros [<- | (rows' & Hi)]; eauto.
    + intros (rows' & [Hd | Hi]); [injection Hd as <- <-; auto | eauto].
Qed.

Ltac prefix_tac :=
  repeat first [ apply prefix_of_refl | apply prefix_of_nil
               | apply prefix_of_cons ].

Ltac ends_tac :=
  first [ exists []; reflexivity | apply ends_with_cons; ends_tac ].

(** A call of the record at hand that raised without being [inner]
    contradicts [Hall], which says that there is none. *)
Ltac raised_outside Hall :=
  match type of Hall with
  | forall c e, In (c, Raised e) ?l -> _ =>
      match l with
      | context [ (?c0, Raised ?e0) ] =>
          let Hi := fresh "Hi" in
          assert (In (c0, Raised e0) l) as Hi by (cbn [In]; auto 20);
          apply Hall in Hi; discriminate Hi
      end
  end.

Ltac handles_tac :=
  unfold handles;
  cbn [called logged app
       Headings.errors Headings.with_error Headings.with_html_file
       Headings.with_screenshot_file Headings.with_title
       Headings.with_headings_found Headings.with_success
       ZaraScraper.errors ZaraScraper.with_error];
  split; [ rewrite ?app_nil_r; reflexivity | ];
  split;
  [ let c := fresh "c" in let e := fresh "e" in
    let Hin := fresh "Hin" in let Hc := fresh "Hc" in
    intros c e Hin Hc; in_cases Hin;
    try discriminate Hc;
    (split; [ reflexivity | ends_tac ])
  | let Hall := fresh "Hall" in
    intros Hall;
    first [ left; reflexivity
          | right; split; reflexivity
          | exfalso; raised_outside Hall ] ].

Ltac fallback_tac :=
  cbn [logged]; let Hne := fresh "Hne" in
  intros Hne; first [ reflexivity | now destruct Hne ].

(** The result record after a path that is written out: the update made
    when the method went through, or the error appended. *)
Ltac data_tac :=
  first
    [ left; repeat first [ eexists | split ]; reflexivity
    | right; split; [ reflexivity | ];
      eexists; split; [ reflexivity | ];
      cbn [called]; repeat intro;
      match goal with
      | Hi : In _ _ |- _ => in_cases Hi
      end ].

(** ** The methods of [DemoScraper] and [TestScraper] *)

Section PipelineMethods.
Context {W : Type} `{World W}.
Variable cfg : Pipeline.config.
Import Headings Pipeline.
Implicit Types st : state W data.

Ltac enter E :=
  run E;
  cbn [world self out outcome_of to_value attrs headless locale browser
       context page timestamp scrape_data with_data] in *;
  eexists _, _; (split; [reflexivity | ]); (split; [reflexivity | ]);
  (split; [trace_eq | ]).

Lemma pipeline_navigate_to_page st r st' :
  navigate_to_page cfg st = (r, st') ->
  exists v t, r = Ok v /\ attrs (self st') = attrs (self st)
    /\ out st' = out st ++ t
    /\ handles "Failed to navigate to page: " "goto" t
         (errors (scrape_data (self st))) (errors (scrape_data (self st')))
    /\ (logged ERROR t <> [] -> v = false)
    /\ prefix_of (calls t)
         [ Goto (URL cfg) "networkidle" 30000;
           WaitForLoadState "domcontentloaded"; Title ]
    /\ (forall title o, In (Title, o) (called t) ->
          o = Returned (VStr title) -> v = true)
    /\ ((v = true
         /\ exists title,
              scrape_data (self st') = with_title title (scrape_data (self st))
              /\ called t
                 = [ (Goto (URL cfg) "networkidle" 30000, Returned VNone);
                     (WaitForLoadState "domcontentloaded", Returned VNone);
                     (Title, Returned (VStr title)) ])
        \/ (v = false
            /\ exists e,
                 scrape_data (self st')
                 = with_error ("Failed to navigate to page: " ++ e)
                     (scrape_data (self st))
                 /\ forall title,
                      ~ In (Title, Returned (VStr title)) (called t)))
    /\ tables t = []
    /\ (forall c o, In (c, o) (called t) ->
          probing c = false /\ cleaning c = false).
Proof.
  intros E. unfold navigate_to_page in E. enter E.
  all: split; [handles_tac | ].
  all: split; [fallback_tac | ].
  all: split; [cbn [calls called map fst]; prefix_tac | ].
  all: split; [ | split; [ data_tac | split; [reflexivity | ];
         cbn [called]; intros c o Hi; in_cases Hi; auto ] ].
  all: cbn [called]; intros title o Hin Ho; in_cases Hin;
       first [ reflexivity | congruence ].
Qed.

Lemma pipeline_save_html st r st' :
  save_html cfg st = (r, st') ->
  exists v t, r = Ok v /\ attrs (self st') = attrs (self st)
    /\ out st' = out st ++ t
    /\ handles "Failed to save HTML: " "content" t
         (errors (scrape_data (self st))) (errors (scrape_data (self st')))
    /\ (logged ERROR t <> [] -> v = None)
    /\ prefix_of (methods t) [ Content; WriteFile "" "" ]
    /\ (forall p h o, In (WriteFile p h, o) (called t) ->
          p = HTML_DIR cfg
              // (file_prefix cfg ++ timestamp (self st) ++ ".html"))
    /\ ((exists html,
           v = Some (HTML_DIR cfg
                     // (file_prefix cfg ++ timestamp (self st) ++ ".html"))
           /\ scrape_data (self st')
              = with_html_file
                  (HTML_DIR cfg
                   // (file_prefix cfg ++ timestamp (self st) ++ ".html"))
                  (scrape_data (self st))
           /\ called t
              = [ (Content, Returned (VStr html));
                  (WriteFile
                     (HTML_DIR cfg
                      // (file_prefix cfg ++ timestamp (self st) ++ ".html"))
                     html, Returned VNone) ])
        \/ (v = None
            /\ exists e,
                 scrape_data (self st')
                 = with_error ("Failed to save HTML: " ++ e)
                     (scrape_data (self st))
                 /\ forall p h,
                      ~ In (WriteFile p h, Returned VNone) (called t)))
    /\ tables t = []
    /\ (forall c o, In (c, o) (called t) ->
          probing c = false /\ cleaning c = false).
Proof.
  intros E. unfold save_html in E. enter E.
  all: split; [handles_tac | ].
  all: split; [fallback_tac | ].
  all: split; [cbn [methods calls called map fst erase]; prefix_tac | ].
  all: split; [ | split; [ data_tac | split; [reflexivity | ];
         cbn [called]; intros c o Hi; in_cases Hi; auto ] ].
  all: cbn [called]; intros p h o Hin; in_cases Hin; reflexivity.
Qed.

Lemma pipeline_save_screenshot st r st' :
  save_screenshot cfg st = (r, st') ->
  exists v t, r = Ok v /\ attrs (self st') = attrs (self st)
    /\ out st' = out st ++ t
    /\ handles "Failed to save screenshot: " "screenshot" t
         (errors (scrape_data (self st))) (errors (scrape_data (self st')))
    /\ (logged ERROR t <> [] -> v = None)
    /\ prefix_of (methods t) [ Screenshot "" false ]
    /\ (forall p b o, In (Screenshot p b, o) (called t) ->
          p = SCREENSHOTS_DIR cfg
              // (file_prefix cfg ++ timestamp (self st) ++ ".png"))
    /\ ((v = Some (SCREENSHOTS_DIR cfg
                   // (file_prefix cfg ++ timestamp (self st) ++ ".png"))
         /\ scrape_data (self st')
            = with_screenshot_file
                (SCREENSHOTS_DIR cfg
                 // (file_prefix cfg ++ timestamp (self st) ++ ".png"))
                (scrape_data (self st))
         /\ called t
            = [ (Screenshot
                   (SCREENSHOTS_DIR cfg
                    // (file_prefix cfg ++ timestamp (self st) ++ ".png"))
                   true, Returned VNone) ])
        \/ (v = None
            /\ exists e,
                 scrape_data (self st')
                 = with_error ("Failed to save screenshot: " ++ e)
                     (scrape_data (self st))
                 /\ forall p b,
                      ~ In (Screenshot p b, Returned VNone) (called t)))
    /\ tables t = []
    /\ (forall c o, In (c, o) (called t) ->
          probing c = false /\ cleaning c = false).
Proof.
  intros E. unfold save_screenshot in E. enter E.
  all: split; [handles_tac | ].
  all: split; [fallback_tac | ].
  all: split; [cbn [methods calls called map fst erase]; prefix_tac | ].
  all: split; [ | split; [ data_tac | split; [reflexivity | ];
         cbn [called]; intros c o Hi; in_cases Hi; auto ] ].
  all: cbn [called]; intros p b o Hin; in_cases Hin; reflexivity.
Qed.

Lemma heading_read_cons e t it : heading_read t it -> heading_read (e :: t) it.
Proof.
  intros (Hne & (raw & Hi & Ht) & He). split; [exact Hne | ].
  split; [ exists raw; split; [now right | exact Ht] | now right ].
Qed.

Lemma heading_read_app_l t t' it :
  heading_read t it -> heading_read (t ++ t') it.
Proof.
  intros (Hne & (raw & Hi & Ht) & He). split; [exact Hne | ].
  split; [ exists raw; split; [ | exact Ht ] | ]; apply in_or_app; now left.
Qed.

Lemma heading_read_app_r t t' it :
  heading_read t it -> heading_read (t' ++ t) it.
Proof.
  intros (Hne & (raw & Hi & Ht) & He). split; [exact Hne | ].
  split; [ exists raw; split; [ | exact Ht ] | ]; apply in_or_app; now right.
Qed.

Lemma pipeline_extract_loop indices acc st r st' :
  extract_loop indices acc st = (r, st') ->
  exists v t, r = Ok v /\ self st' = self st
    /\ out st' = out st ++ t
    /\ logged ERROR t = []
    /\ tables t = []
    /\ (forall c o, In (c, o) (called t) ->
          inner c = true /\ probing c = false /\ cleaning c = false)
    /\ exists new, v = acc ++ new
                   /\ subseq (map index new) indices
                   /\ Forall (heading_read t) new.
Proof.
  revert acc st r st'.
  induction indices as [|i rest IH]; intros acc st r st' E.
  - cbn [extract_loop] in E. run E. exists acc, [].
    rewrite app_nil_r.
    repeat split; try contradiction.
    exists []. rewrite app_nil_r. repeat split; constructor.
  - cbn [extract_loop] in E. run E.
    all: cbn [world self out outcome_of to_value] in *.
    all: match goal with
         | Hs : extract_loop _ _ _ = _ |- _ =>
             apply IH in Hs;
             destruct Hs as (v & t & -> & Hself & Hout & Hlog & Htab & Hin
                             & new & Hv & Hsub & Hall);
             cbn [world self out] in *; exists v; rewrite Hout, Hself
         end.
    all: eexists; (split; [reflexivity | ]); (split; [reflexivity | ]);
         (split; [trace_eq | ]).
    all: cbn [logged tables called].
    all: (split; [exact Hlog | ]); (split; [exact Htab | ]).
    all: split;
         [ intros c o Hi; in_cases Hi; first [ exact (Hin _ _ Hi) | auto ] | ].
    all: first
      [ (* the heading is kept *)
        match goal with
        | Hb : Py.truthy (Py.strip ?raw) = true |- _ =>
            match type of Hv with
            | _ = (_ ++ [ ?it ]) ++ _ =>
                exists (it :: new);
                split; [ rewrite Hv, <- app_assoc; reflexivity | ];
                split; [ cbn [map index]; apply subseq_take; exact Hsub | ];
                constructor;
                [ split; [ exact (truthy_not_empty _ Hb) | ];
                  split; [ exists raw; split; [ now left | reflexivity ]
                         | right; now left ]
                | eapply Forall_impl; [ | exact Hall ];
                  intros it' Hit; now do 2 apply heading_read_cons ]
            end
        end
      | (* the heading is left out *)
        exists new; split; [ exact Hv | ];
        split; [ apply subseq_skip; exact Hsub | ];
        eapply Forall_impl; [ | exact Hall ];
        intros it' Hit; repeat apply heading_read_cons; exact Hit ].
Qed.

Lemma pipeline_extract_data st r st' :
  extract_data st = (r, st') ->
  exists v t, r = Ok v /\ attrs (self st') = attrs (self st)
    /\ out st' = out st ++ t
    /\ handles "Failed to extract data: " "wait_for_load_state" t
         (errors (scrape_data (self st))) (errors (scrape_data (self st')))
    /\ (logged ERROR t <> [] -> v = [])
    /\ ((scrape_data (self st')
          = with_headings_found (length v) (scrape_data (self st))
         /\ logged ERROR t = []
         /\ exists n,
              In (QuerySelectorAll "h1, h2, h3, h4, h5, h6",
                  Returned (VInt (Z.of_nat n))) (called t)
              /\ subseq (map index v) (seq 0 n)
              /\ Forall (heading_read t) v)
        \/ (v = []
            /\ exists e,
                 scrape_data (self st')
                 = with_error ("Failed to extract data: " ++ e)
                     (scrape_data (self st))))
    /\ tables t = []
    /\ (forall c o, In (c, o) (called t) ->
          probing c = false /\ cleaning c = false).
Proof.
  intros E. unfold extract_data in E. run E.
  all: repeat match goal with
         | Hs : extract_loop _ _ _ = _ |- _ =>
             apply pipeline_extract_loop in Hs;
             destruct Hs as (? & tl & ? & ? & ? & Hlog & Htab & Hin
                             & new & Hv & Hsub & Hall);
             tidy; settle
         end.
  all: repeat match goal with
         | Hk : bind _ _ _ = _ |- _ => run Hk
         end.
  all: cbn [world self out outcome_of to_value attrs headless locale browser
            context page timestamp scrape_data with_data] in *.
  all: eexists _, _; (split; [reflexivity | ]); (split; [reflexivity | ]);
       (split; [trace_eq | ]).
  2-4: split; [handles_tac | ].
  2-4: split; [fallback_tac | ].
  2-4: split; [ right; split; [reflexivity | eexists; reflexivity] | ].
  2-4: split; [ reflexivity | ].
  2-4: cbn [called]; intros c o Hi; in_cases Hi; auto.
  match goal with
  | |- handles _ _ ?t _ _ /\ _ =>
      assert (logged ERROR t = []) as Hnone
        by (cbn [logged]; rewrite logged_app, Hlog; reflexivity)
  end.
  split; [ | split; [ | split; [ | split ] ] ].
  - unfold handles. rewrite Hnone.
    cbn [errors with_headings_found]. rewrite app_nil_r.
    split; [reflexivity | ]. split; [ | auto ].
    intros c e Hi Hc. cbn [called] in Hi. rewrite called_app in Hi.
    cbn [called] in Hi. in_cases Hi.
    destruct (Hin _ _ Hi) as (Hinner & _). congruence.
  - intros Hne. now destruct Hne.
  - left. split; [reflexivity | ]. split; [exact Hnone | ].
    eexists. split; [ cbn [called In]; right; left; reflexivity | ].
    split; [exact Hsub | ].
    eapply Forall_impl; [ | exact Hall ].
    intros it Hit. do 4 apply heading_read_cons.
    now apply heading_read_app_l.
  - cbn [tables]. rewrite tables_app, Htab. reflexivity.
  - intros c o Hi. cbn [called] in Hi. rewrite called_app in Hi.
    cbn [called] in Hi. in_cases Hi; auto.
    destruct (Hin _ _ Hi) as (_ & Hp). exact Hp.
Qed.

Lemma pipeline_cleanup st r st' :
  cleanup st = (r, st') ->
  exists t, r = Ok tt /\ self st' = self st
    /\ out st' = out st ++ t
    /\ tables t = []
    /\ subseq (calls t) [ ContextClose; PlaywrightStop ]
    /\ (context (self st) = true -> exists o, In (ContextClose, o) (called t)).
Proof.
  intros E. unfold cleanup in E. run E.
  all: cbn [world self out outcome_of to_value] in *.
  all: eexists; (split; [reflexivity | ]); (split; [reflexivity | ]);
       (split; [first [trace_eq | symmetry; apply app_nil_r] | ]).
  all: split; [reflexivity | ].
  all: split;
       [ cbn [calls called map fst];
         repeat first [ apply subseq_nil | apply subseq_take
                      | apply subseq_skip ] | ].
  all: intros Hc; try congruence; cbn [called In]; eauto.
Qed.

Lemma pipeline_start_browser st r st' :
  start_browser st = (r, st') ->
  exists t, out st' = out st ++ t
    /\ tables t = []
    /\ prefix_of (calls t)
         (launch_plan (headless (self st)) (locale (self st)))
    /\ ((r = Ok tt
         /\ self st' = with_page (with_context (with_browser (self st)))
         /\ calls t = launch_plan (headless (self st)) (locale (self st))
         /\ logged ERROR t = [])
        \/ (exists c e, r = Raise e
              /\ ends_with (called t) (c, Raised e)
              /\ scrape_data (self st')
                 = with_error ("Failed to start browser: " ++ e)
                     (scrape_data (self st))
              /\ logged ERROR t = [ "Failed to start browser: " ++ e ]%string)).
Proof.
  intros E. unfold start_browser in E. run E.
  all: cbn [world self out outcome_of to_value headless locale browser
            context page timestamp scrape_data with_data with_browser
            with_context with_page] in *.
  all: eexists; (split; [trace_eq | ]).
  all: split; [reflexivity | ].
  all: split; [cbn [calls called map fst launch_plan]; prefix_tac | ].
  all: first
    [ left; repeat split; reflexivity
    | right; eexists _, _; split; [reflexivity | ];
      split; [cbn [called]; ends_tac | ]; split; reflexivity ].
Qed.

Lemma pipeline_display_results st :
  exists rows t,
    _display_results cfg st
    = (Ok tt, State (world st) (self st)
                (out st ++ PrintTable (label cfg ++ " Scraping Results") rows
                           :: t))
    /\ called t = [] /\ logged ERROR t = [].
Proof.
  destruct (_display_results cfg st) as [r st'] eqn:E.
  unfold _display_results in E. run E.
  all: cbn [world self out] in *.
  all: eexists _, _; (split; [f_equal; f_equal; trace_eq | split; reflexivity]).
Qed.

End PipelineMethods.

Ltac run_method H ::=
  lazymatch type of H with
  | ZaraScraper.handle_cookie_popup _ = _ =>
      apply handle_cookie_popup_handled in H;
      destruct H as (? & ? & ? & ? & ? & ?); tidy; settle
  | ZaraScraper.extract_loop _ _ _ = _ =>
      apply extract_loop_extracting in H;
      destruct H as (? & ? & ? & ? & ? & ?); tidy; settle
  | ZaraScraper.navigate_to_homepage _ = _ =>
      apply navigate_to_homepage_navigated in H;
      destruct H as (? & ? & ? & ? & ? & ?); tidy; settle
  | ZaraScraper.save_html _ = _ =>
      apply save_html_saved in H;
      destruct H as (? & ? & ? & ? & ? & ?); tidy; settle
  | ZaraScraper.save_screenshot _ = _ =>
      apply save_screenshot_saved in H;
      destruct H as (? & ? & ? & ? & ? & ?); tidy; settle
  | ZaraScraper.extract_hero_banners _ = _ =>
      apply extract_hero_banners_extracted in H;
      destruct H as (? & ? & ? & ? & ? & ?); tidy; settle
  | ZaraScraper._display_results _ = _ =>
      rewrite _display_results_displayed in H; tidy
  | Pipeline.navigate_to_page _ _ = _ =>
      apply pipeline_navigate_to_page in H;
      destruct H as (? & ? & ? & ? & ? & ?); tidy; settle
  | Pipeline.save_html _ _ = _ =>
      apply pipeline_save_html in H;
      destruct H as (? & ? & ? & ? & ? & ?); tidy; settle
  | Pipeline.save_screenshot _ _ = _ =>
      apply pipeline_save_screenshot in H;
      destruct H as (? & ? & ? & ? & ? & ?); tidy; settle
  | Pipeline.extract_data _ = _ =>
      apply pipeline_extract_data in H;
      destruct H as (? & ? & ? & ? & ? & ?); tidy; settle
  | Pipeline._display_results ?cfg ?st = _ =>
      let rows := fresh "rows" in let t := fresh "t" in
      let Hd := fresh "Hd" in
      let Hc := fresh "Hc" in let Hl := fresh "Hshown" in
      destruct (pipeline_display_results cfg st) as (rows & t & Hd & Hc & Hl);
      rewrite Hd in H; clear Hd; tidy
  end.

Section PipelineRun.
Context {W : Type} `{World W}.
Variable cfg : Pipeline.config.
Import Headings Pipeline.
Implicit Types st : state W data.

Lemma pipeline_run_scrape st r st' :
  run_scrape cfg st = (r, st') ->
  let d := scrape_data (self st) in
  let d' := scrape_data (self st') in
  let ts := timestamp (self st) in
  exists t, r = Ok d'
    /\ attrs (self st') = attrs (self st)
    /\ out st' = out st ++ t
    /\ (if success d'
        then In (label cfg ++ " Scraping Results")%string (tables t)
        else tables t = [])
    /\ (forall c o, In (c, o) (called t) ->
          probing c = false /\ cleaning c = false)
    /\ errors d' = errors d ++ logged ERROR t
    /\ ((exists e,
           d' = with_success false
                  (with_error ("Failed to navigate to page: " ++ e) d)
           /\ prefix_of (calls t)
                [ Goto (URL cfg) "networkidle" 30000;
                  WaitForLoadState "domcontentloaded"; Title ]
           /\ forall title, ~ In (Title, Returned (VStr title)) (called t))
        \/ (exists title items,
              success d' = true
              /\ In (Title, Returned (VStr title)) (called t)
              /\ Headings.title d' = Some title
              /\ extracted_data d' = Some items
              /\ Forall (heading_read t) items
              /\ (headings_found d' = length items
                  \/ (items = [] /\ headings_found d' = headings_found d))
              /\ ((exists html,
                     html_file d'
                     = Some (HTML_DIR cfg // (file_prefix cfg ++ ts ++ ".html"))
                     /\ In (Content, Returned (VStr html)) (called t)
                     /\ In (WriteFile
                              (HTML_DIR cfg
                               // (file_prefix cfg ++ ts ++ ".html"))
                              html, Returned VNone) (called t))
                  \/ (html_file d' = html_file d
                      /\ exists e,
                           In ("Failed to save HTML: " ++ e)%string
                              (logged ERROR t)))
              /\ ((screenshot_file d'
                   = Some (SCREENSHOTS_DIR cfg
                           // (file_prefix cfg ++ ts ++ ".png"))
                   /\ In (Screenshot
                            (SCREENSHOTS_DIR cfg
                             // (file_prefix cfg ++ ts ++ ".png"))
                            true, Returned VNone) (called t))
                  \/ (screenshot_file d' = screenshot_file d
                      /\ exists e,
                           In ("Failed to save screenshot: " ++ e)%string
                              (logged ERROR t))))).
Proof.
  intros E. cbn zeta. unfold run_scrape in E. run E.
  all: cbn [world self out outcome_of to_value attrs headless locale browser
            context page timestamp scrape_data with_data] in *.
  all: eexists; (split; [reflexivity | ]); (split; [reflexivity | ]);
       (split; [trace_eq | ]).
  all: repeat match goal with
         | Hf : handles _ _ _ _ _ /\ _ |- _ =>
             let He := fresh "Herr" in
             destruct Hf as ((He & _) & Hf)
         | Hf : ?A /\ ?B |- _ =>
             lazymatch A with
             | tables _ = [] =>
                 let Ht := fresh "Htab" in let Hq := fresh "Hq" in
                 destruct Hf as (Ht & Hq)
             | _ \/ _ =>
                 let Hd := fresh "Hdata" in
                 destruct Hf as (Hd & Hf)
             | prefix_of (calls _) _ =>
                 let Hp := fresh "Hplan" in
                 destruct Hf as (Hp & Hf)
             | _ => destruct Hf as (_ & Hf)
             end
         end.
  all: cbn [success with_success with_extracted_data].
  all: split.
  1, 3: cbn [tables]; rewrite ?tables_app; cbn [tables];
        repeat match goal with
          | Ht : tables _ = [] |- _ => rewrite Ht; clear Ht
          end;
        cbn [app In]; auto.
  all: split.
  1, 3: intros c o Hi; cbn [called] in Hi; rewrite ?called_app in Hi;
        cbn [called] in Hi; rewrite ?called_app in Hi;
        cbn [called] in Hi; in_cases Hi; eauto.
  1: rewrite Hc in Hi; contradiction.
  all: split.
  1, 3: cbn [errors with_success with_extracted_data logged];
        repeat (progress (rewrite ?logged_app; cbn [logged]));
        repeat match goal with
          | He : errors _ = _ ++ logged ERROR _ |- _ => rewrite He; clear He
          end;
        rewrite ?Hshown, ?app_nil_r, <- ?app_assoc; reflexivity.
  - (* navigation has returned [False] *)
    destruct x; [discriminate Hb | ].
    destruct Hdata as [(Hx & _) | (_ & e & -> & Hno)]; [discriminate Hx | ].
    left. exists e. split; [reflexivity | ].
    split; [ unfold calls; cbn [called]; exact Hplan | cbn [called]; exact Hno ].
  - (* navigation has returned [True] *)
    destruct x; [ | discriminate Hb ].
    destruct Hdata2 as [(_ & title & -> & Hnav) | (Hx & _)];
      [ | discriminate Hx ].
    right. exists title, x5.
    assert (forall l1 l2 l3 l4 (c : call * outcome),
               In c l1 \/ In c l2 \/ In c l3 \/ In c l4 ->
               In c (l1 ++ l2 ++ l3 ++ l4 ++ [])) as Hany.
    { intros l1 l2 l3 l4 c. rewrite !in_app_iff. tauto. }
    assert (forall l1 l2 l3 l4 (m : string),
               In m l1 \/ In m l2 \/ In m l3 \/ In m l4 ->
               In m (l1 ++ l2 ++ l3 ++ l4 ++ [])) as Hmsg.
    { intros l1 l2 l3 l4 m. rewrite !in_app_iff. tauto. }
    repeat (progress (rewrite ?called_app, ?logged_app; cbn [called logged])).
    rewrite Hc, Hshown. cbn [app].
    split; [reflexivity | ].
    split; [ apply Hany; left; rewrite Hnav; cbn [In]; auto | ].
    destruct Hdata1 as [(html & -> & -> & Hhtml) | (-> & e1 & -> & _)];
      destruct Hdata0 as [(-> & -> & Hshot) | (-> & e0 & -> & _)];
      destruct Hdata as [(-> & Hl & n & Hq' & Hsub & Hall) | (-> & e2 & ->)];
      cbn [Headings.title extracted_data headings_found html_file
           screenshot_file errors with_title with_html_file
           with_screenshot_file with_headings_found with_error with_success
           with_extracted_data length] in *;
      repeat match goal with
        | He : _ ++ [ ?m ] = _ ++ logged ERROR _ |- _ =>
            apply app_inv_head in He; symmetry in He
        | He : (_ ++ [ ?m ]) ++ [ ?m' ] = (_ ++ [ ?m ]) ++ logged ERROR _ |- _ =>
            apply app_inv_head in He; symmetry in He
        end.
    all: split; [reflexivity | ].
    all: split; [reflexivity | ].
    all: split;
      [ first
          [ constructor
          | eapply Forall_impl; [ | exact Hall ];
            intros it Hit; do 2 apply heading_read_cons;
            rewrite !app_assoc; apply heading_read_app_l;
            apply heading_read_app_r; exact Hit ] | ].
    all: split; [ first [ left; reflexivity | right; split; reflexivity ] | ].
    all: split.
    all: first
      [ (* the file was written *)
        left; first [ exists html | idtac ];
        repeat split; apply Hany;
        first [ right; left; rewrite Hhtml; cbn [In]; now auto
              | right; right; left; rewrite Hshot; cbn [In]; now auto ]
      | (* the save failed *)
        right; split; [ reflexivity | ];
        eexists; apply Hmsg;
        first
          [ right; left;
            match goal with
            | He : logged ERROR _ = [ ("Failed to save HTML: " ++ _)%string ]
              |- _ => rewrite He
            end; left; reflexivity
          | right; right; left;
            match goal with
            | He : logged ERROR _
                   = [ ("Failed to save screenshot: " ++ _)%string ]
              |- _ => rewrite He
            end; left; reflexivity ] ].
Qed.

End PipelineRun.

(** ** The entry points *)

Lemma prefix_of_In {A} (x : A) l plan : prefix_of l plan -> In x l -> In x plan.
Proof. intros (rest & ->) Hi. apply in_or_app. now left. Qed.

Lemma launch_plan_quiet headless locale c :
  In c (launch_plan headless locale) ->
  probing c = false /\ cleaning c = false /\ inner c = false.
Proof.
  intros Hi. unfold launch_plan in Hi. cbn [In] in Hi.
  repeat destruct Hi as [<- | Hi]; try contradiction; repeat split.
Qed.

Ltac run_entry H :=
  lazymatch type of H with
  | Pipeline.start_browser _ = _ =>
      apply pipeline_start_browser in H;
      destruct H as (? & ? & ? & ? & [(? & ? & ? & ?) | (? & ? & ? & ? & ? & ?)]);
      tidy; settle
  | Pipeline.run_scrape _ _ = _ =>
      apply pipeline_run_scrape in H; cbn zeta in H;
      destruct H as (? & ? & ? & ? & ? & ? & _); tidy; settle
  | Pipeline.cleanup _ = _ =>
      apply pipeline_cleanup in H;
      destruct H as (? & ? & ? & ? & ? & ? & ?); tidy; settle
  | ZaraScraper.run_scrape _ = _ =>
      apply run_scrape_scraped in H;
      destruct H as (? & ? & ? & ? & ?); tidy; settle
  end.

Ltac run_method H ::= run_entry H.

Section PipelineMain.
Context {W : Type} `{World W}.
Variable cfg : Pipeline.config.
Import Headings Pipeline.
Implicit Types st : state W data.

Lemma pipeline_main now st r st' :
  main cfg now st = (r, st') ->
  exists res t, r = Ok res
    /\ out st' = out st ++ t
    /\ (if get_success res
        then In (label cfg ++ " Scraping Results")%string (tables t)
        else tables t = [])
    /\ (forall c o, In (c, o) (called t) -> probing c = false)
    /\ ((res = ScrapeData (scrape_data (self st'))
         /\ timestamp (self st') = now
         /\ exists o, In (ContextClose, o) (called t))
        \/ (exists e, res = MainError e
              /\ logged ERROR t = [ "Failed to start browser: " ++ e;
                                    "Main function error: " ++ e ]%string
              /\ prefix_of (calls t) (launch_plan HEADLESS LOCALE))).
Proof.
  intros E. unfold main, __aenter__, __aexit__ in E. run E.
  all: cbn [world self out scrape_data timestamp headless locale
            __init__] in *.
  - eexists _, _. split; [reflexivity | ]. split; [trace_eq | ].
    split; [ | split;
      [ | left; split; [reflexivity | split; [reflexivity | ] ];
          match goal with
          | Hx : _ -> exists o, In (ContextClose, o) (called _) |- _ =>
              destruct (Hx eq_refl) as (o & Ho)
          end;
          exists o; cbn [called]; rewrite !called_app, !in_app_iff; auto ] ].
    + cbn [get_success tables]. rewrite !tables_app.
      repeat match goal with
        | Ht : tables _ = [] |- _ => rewrite Ht; clear Ht
        end.
      rewrite app_nil_r. cbn [app].
      match goal with
      | Hs : if success _ then _ else _ |- _ => exact Hs
      end.
    + intros c o Hi. cbn [called] in Hi. rewrite !called_app in Hi.
      in_cases Hi.
      * apply called_In_calls in Hi.
        match goal with
        | Hc : calls _ = launch_plan _ _ |- _ => rewrite Hc in Hi
        end.
        now apply launch_plan_quiet in Hi.
      * match goal with
        | Hq : forall c o, In (c, o) (called _) -> _ /\ _ |- _ =>
            exact (proj1 (Hq _ _ Hi))
        end.
      * apply called_In_calls in Hi.
        match goal with
        | Hc : subseq (calls _) _ |- _ => apply (subseq_In _ _ _ Hc) in Hi
        end.
        in_cases Hi; reflexivity.
  - match goal with
    | Ho : out ?s = _ ++ ?x |- context [out ?s] => rewrite Ho
    end.
    eexists _, _. split; [reflexivity | ]. split; [trace_eq | ].
    split; [ cbn [get_success tables]; rewrite tables_app;
             match goal with
             | Ht : tables _ = [] |- _ => rewrite Ht
             end; reflexivity | ].
    split; [ | right; eexists; split; [reflexivity | ] ].
    + intros c o Hi. cbn [called] in Hi. rewrite !called_app in Hi.
      cbn [called] in Hi. rewrite app_nil_r in Hi.
      apply called_In_calls in Hi.
      match goal with
      | Hc : prefix_of (calls _) _ |- _ => apply (prefix_of_In _ _ _ Hc) in Hi
      end.
      now apply launch_plan_quiet in Hi.
    + split.
      * cbn [logged]. rewrite logged_app.
        match goal with
        | Hl : logged ERROR _ = _ |- _ => rewrite Hl
        end.
        reflexivity.
      * unfold calls. cbn [called]. rewrite called_app. cbn [called].
        rewrite app_nil_r.
        match goal with
        | Hc : prefix_of (calls _) _ |- _ => exact Hc
        end.
Qed.


End PipelineMain.

Section ZaraMain.
Context {W : Type} `{World W}.
Import ZaraScraper.
Implicit Types st : state W data.

Lemma zara_start_browser st r st' :
  start_browser st = (r, st') ->
  exists t, out st' = out st ++ t
    /\ tables t = []
    /\ prefix_of (calls t)
         (launch_plan (headless (self st)) (locale (self st)))
    /\ ((r = Ok tt
         /\ self st' = with_page (with_context (with_browser (self st)))
         /\ calls t = launch_plan (headless (self st)) (locale (self st))
         /\ logged ERROR t = [])
        \/ (exists c e, r = Raise e
              /\ ends_with (called t) (c, Raised e)
              /\ scrape_data (self st')
                 = with_error ("Failed to start browser: " ++ e)
                     (scrape_data (self st))
              /\ logged ERROR t = [ "Failed to start browser: " ++ e ]%string)).
Proof.
  intros E. unfold start_browser in E. run E.
  all: cbn [world self out outcome_of to_value headless locale browser
            context page timestamp scrape_data with_data with_browser
            with_context with_page] in *.
  all: eexists; (split; [trace_eq | ]).
  all: split; [reflexivity | ].
  all: split; [cbn [calls called map fst launch_plan]; prefix_tac | ].
  all: first
    [ left; repeat split; reflexivity
    | right; eexists _, _; split; [reflexivity | ];
      split; [cbn [called]; ends_tac | ]; split; reflexivity ].
Qed.

Lemma plan_quiet ts html c :
  In c (Steps.plan ts html) -> cleaning c = false.
Proof.
  assert (forallb (fun c => negb (cleaning c)) (Steps.plan ts html) = true)
    as Hall by reflexivity.
  intros Hin. rewrite forallb_forall in Hall. apply Hall in Hin.
  now apply negb_true_iff.
Qed.

Lemma steps_report rows t :
  In (PrintTable "Scraping Results" rows) t -> In Steps.Report (Steps.steps t).
Proof.
  induction t as [|ev t IHt]; [contradiction | ].
  intros [-> | Hi].
  - cbn. auto.
  - cbn [Steps.steps]. destruct (Steps.step_of ev); cbn [In]; auto.
Qed.

(** The results table is printed in the runs that set the success flag,
    and in no other. *)
Lemma scraped_table s t d' :
  Runs.scraped s t d' ->
  In "Scraping Results"%string (tables t) <-> success d' = true.
Proof.
  intros Hs. pose proof (scraped_steps _ _ _ Hs) as Hsteps.
  split.
  - intros Hi. apply tables_In in Hi. destruct Hi as (rows & Hi).
    apply steps_report in Hi.
    destruct (success d'); [reflexivity | ].
    destruct Hsteps as [Hst | Hst]; rewrite Hst in Hi; cbn [In] in Hi;
      intuition discriminate.
  - intros Ht. destruct Hs; [discriminate Ht | ].
    rewrite !tables_app, !in_app_iff. do 5 right. left.
    unfold Runs.displayed, Runs.results_table. cbn [app tables In]. auto.
Qed.

Lemma zara_main now st r st' :
  main now st = (r, st') ->
  exists res t, r = Ok res
    /\ out st' = out st ++ t
    /\ (In "Scraping Results"%string (tables t) <-> get_success res = true)
    /\ (forall c o, In (c, o) (called t) -> cleaning c = false)
    /\ ((res = ScrapeData (scrape_data (self st'))
         /\ timestamp (self st') = now)
        \/ (exists e, res = MainError e
              /\ logged ERROR t = [ "Failed to start browser: " ++ e;
                                    "Main function error: " ++ e ]%string
              /\ prefix_of (calls t) (launch_plan HEADLESS LOCALE))).
Proof.
  intros E. unfold main, __aenter__, __aexit__ in E. run E.
  all: repeat match goal with
         | Hs : start_browser _ = _ |- _ =>
             apply zara_start_browser in Hs;
             destruct Hs as (t0 & Hout0 & Htab0 & Hpre0
                             & [(? & Hself0 & Hcalls0 & Hlog0)
                               | (? & ? & ? & Hend0 & Hdata0 & Hlog0)]);
             tidy; settle
         end.
  all: repeat match goal with
         | Hk : bind _ _ _ = _ |- _ => run Hk
         | Hk : try_except _ _ _ = _ |- _ => run Hk
         end.
  all: cbn [world self out scrape_data timestamp headless locale
            __init__ with_page with_context with_browser] in *.
  - eexists _, _. split; [reflexivity | ]. split; [trace_eq | ].
    match goal with
    | Hs : Runs.scraped _ _ _ |- _ =>
        pose proof (scraped_table _ _ _ Hs) as Htable;
        destruct (scraped_calls _ _ _ Hs) as (html & Hplan)
    end.
    split; [ | split; [ | left; split; reflexivity ] ].
    + cbn [get_success tables]. rewrite !tables_app, Htab0. exact Htable.
    + intros c o Hi. cbn [called] in Hi. rewrite !called_app in Hi.
      in_cases Hi; apply called_In_calls in Hi.
      * rewrite Hcalls0 in Hi. now apply launch_plan_quiet in Hi.
      * apply (subseq_In _ _ _ Hplan) in Hi. exact (plan_quiet _ _ _ Hi).
  - rewrite Hout0.
    eexists _, _. split; [reflexivity | ]. split; [trace_eq | ].
    split; [ | split; [ | right; eexists; split; [reflexivity | ] ] ].
    + cbn [get_success tables]. rewrite tables_app, Htab0.
      cbn [tables app In]. split; [contradiction | discriminate].
    + intros c o Hi. cbn [called] in Hi. rewrite !called_app in Hi.
      cbn [called] in Hi. rewrite app_nil_r in Hi.
      apply called_In_calls in Hi.
      apply (prefix_of_In _ _ _ Hpre0) in Hi.
      now apply launch_plan_quiet in Hi.
    + split.
      * cbn [logged]. rewrite logged_app, Hlog0. reflexivity.
      * unfold calls. cbn [called]. rewrite called_app. cbn [called].
        rewrite app_nil_r. exact Hpre0.
Qed.


End ZaraMain.

(** ** The runner scripts *)

Section Runners.
Context {W : Type} `{World W}.


Lemma print_eq {D} x (st : state W D) :
  print x st = (Ok tt, State (world st) (self st) (out st ++ [Print x])).
Proof. reflexivity. Qed.





End Runners.

(** ** Blanket handlers *)

Section Catches.
Context {W : Type} `{World W}.






Section PipelineCatches.
Variable cfg : Pipeline.config.




End PipelineCatches.


End Catches.

Section Reraises.
Context {W : Type} `{World W}.

Lemma zara_start_browser_reraises :
  reraises (W:=W) ZaraScraper.errors ZaraScraper.start_browser
    "Failed to start browser: ".
Proof.
  intros st. cbn zeta.
  destruct (ZaraScraper.start_browser st) as [r st'] eqn:E. cbn [fst snd].
  destruct (zara_start_browser _ _ _ E)
    as (t & Ho & _ & _ & [(-> & Hs & _ & Hl) | (c & e & -> & He & Hd & Hl)]);
    rewrite (since_app _ _ _ Ho).
  - left. rewrite Hs. repeat split. exact Hl.
  - right. exists c, e. rewrite Hd. repeat split; assumption.
Qed.

Lemma pipeline_start_browser_reraises :
  reraises (W:=W) Headings.errors Pipeline.start_browser
    "Failed to start browser: ".
Proof.
  intros st. cbn zeta.
  destruct (Pipeline.start_browser st) as [r st'] eqn:E. cbn [fst snd].
  destruct (pipeline_start_browser _ _ _ E)
    as (t & Ho & _ & _ & [(-> & Hs & _ & Hl) | (c & e & -> & He & Hd & Hl)]);
    rewrite (since_app _ _ _ Ho).
  - left. rewrite Hs. repeat split. exact Hl.
  - right. exists c, e. rewrite Hd. repeat split; assumption.
Qed.

End Reraises.

(** ** What the handlers of the three classes do *)



Section PopupDebug.
Import Popup.

(** The failures met: the calls that raised. *)
Lemma scanned_debug selectors t b :
  scanned selectors t b ->
  logged WARNING t = []
  /\ length (filter failed (called t)) <= length (logged DEBUG t).
Proof.
  induction 1 as [ | s rest n Hn | s rest n t b Hn Hs [IH1 IH2]
                 | s rest e t b Hs [IH1 IH2]
                 | s rest n e t b Hn Hs [IH1 IH2]
                 | s rest t b Hs [IH1 IH2] ];
    cbn [called logged filter failed app handled_with selector_failed
         length];
    (split; [ assumption || reflexivity | ]); lia.
Qed.

Lemma by_role_debug t b :
  by_role t b ->
  logged WARNING t = []
  /\ length (filter failed (called t)) <= length (logged DEBUG t).
Proof.
  destruct 1; cbn [called logged filter failed app length];
    split; try reflexivity; lia.
Qed.

Lemma handled_debug t b :
  handled t b ->
  logged WARNING t = []
  /\ length (filter failed (called t)) <= length (logged DEBUG t).
Proof.
  destruct 1 as [ t Hs | t1 t2 Hs Hr | t1 t2 Hs Hr ];
    destruct (scanned_debug _ _ _ Hs) as (W1 & D1);
    try destruct (by_role_debug _ _ Hr) as (W2 & D2);
    cbn [app called logged];
    rewrite ?called_app, ?logged_app, ?filter_app, ?length_app, ?W1, ?W2;
    cbn [called logged filter app length];
    (split; [reflexivity | lia]).
Qed.

End PopupDebug.

(** X3: [handle_cookie_popup] never raises and never reaches its outer
    handler: whatever the browser answers, it returns a boolean, logs
    nothing as an error and leaves the scraper, its error list included,
    as it was.  Every call that raised in it has its line in the log at
    DEBUG level. *)
Theorem handle_cookie_popup_changes_nothing {W : Type} `{World W}
    (st : state W ZaraScraper.data) :
  let st' := snd (ZaraScraper.handle_cookie_popup st) in
  let t := since st st' in
  exists b, fst (ZaraScraper.handle_cookie_popup st) = Ok b
            /\ self st' = self st
            /\ logged ERROR t = []
            /\ logged WARNING t = []
            /\ length (filter failed (called t)) <= length (logged DEBUG t).
Proof.
  cbn zeta.
  destruct (ZaraScraper.handle_cookie_popup st) as [r st'] eqn:E.
  cbn [fst snd].
  destruct (handle_cookie_popup_handled _ _ _ E) as (b & t & -> & Hs & Ho & Hh).
  rewrite (since_app _ _ _ Ho).
  destruct (handled_facts _ _ Hh) as (_ & _ & Herr & _).
  exists b. split; [reflexivity | ]. split; [exact Hs | ].
  split; [exact Herr | ]. exact (handled_debug _ _ Hh).
Qed.

Section Launches.
Context {W : Type} `{World W}.

Lemma zara_start_browser_launches :
  launches (W:=W) ZaraScraper.start_browser.
Proof.
  intros st. cbn zeta.
  destruct (ZaraScraper.start_browser st) as [r st'] eqn:E. cbn [fst snd].
  destruct (zara_start_browser _ _ _ E)
    as (t & Ho & _ & Hp & [(-> & Hs & Hc & _) | (c & e & -> & _)]);
    rewrite (since_app _ _ _ Ho); (split; [exact Hp | ]); intros Hok;
    [ auto | discriminate Hok ].
Qed.

Lemma pipeline_start_browser_launches :
  launches (W:=W) Pipeline.start_browser.
Proof.
  intros st. cbn zeta.
  destruct (Pipeline.start_browser st) as [r st'] eqn:E. cbn [fst snd].
  destruct (pipeline_start_browser _ _ _ E)
    as (t & Ho & _ & Hp & [(-> & Hs & Hc & _) | (c & e & -> & _)]);
    rewrite (since_app _ _ _ Ho); (split; [exact Hp | ]); intros Hok;
    [ auto | discriminate Hok ].
Qed.

End Launches.

(** X4: [start_browser], in the three classes, makes the calls of the
    launch in one fixed order and stops at the first that raises.  When
    all return it leaves the three handles set, the result record as it
    was, and nothing logged as an error.  When one raises, its message is
    logged as an error and appended to the error list behind
    "Failed to start browser: ", and the exception is raised again to the
    caller. *)
Theorem start_browser_logs_and_raises_again {W : Type} `{World W} :
  (launches (W:=W) ZaraScraper.start_browser
   /\ reraises (W:=W) ZaraScraper.errors ZaraScraper.start_browser
        "Failed to start browser: ")
  /\ (launches (W:=W) DemoScraper.start_browser
      /\ reraises (W:=W) Headings.errors DemoScraper.start_browser
           "Failed to start browser: ")
  /\ (launches (W:=W) TestScraper.start_browser
      /\ reraises (W:=W) Headings.errors TestScraper.start_browser
           "Failed to start browser: ").
Proof.
  split; [ split; [ exact zara_start_browser_launches
                  | exact zara_start_browser_reraises ] | ].
  split; (split; [ exact pipeline_start_browser_launches
                 | exact pipeline_start_browser_reraises ]).
Qed.

(** ** The entry points *)






(** ** [DemoScraper] and [TestScraper] *)

(** X10: [demo_scraper.py] and [test_scraper.py] are one program: each
    method of [DemoScraper], and each of [TestScraper], is the method of
    the same name of [Pipeline], taken at the seven constants of the
    class (its name, URL, output directory, file prefix and the three
    words of its messages). *)
Theorem demo_and_test_are_one_pipeline {W : Type} `{World W} :
  (DemoScraper.__init__ = Pipeline.__init__ Pipeline.demo
   /\ DemoScraper.start_browser (W:=W) = Pipeline.start_browser
   /\ DemoScraper.cleanup (W:=W) = Pipeline.cleanup
   /\ DemoScraper._handle_page_error (W:=W) = Pipeline._handle_page_error
   /\ DemoScraper._handle_request_failed (W:=W)
      = Pipeline._handle_request_failed
   /\ DemoScraper.navigate_to_page (W:=W)
      = Pipeline.navigate_to_page Pipeline.demo
   /\ DemoScraper.save_html (W:=W) = Pipeline.save_html Pipeline.demo
   /\ DemoScraper.save_screenshot (W:=W)
      = Pipeline.save_screenshot Pipeline.demo
   /\ DemoScraper.extract_data (W:=W) = Pipeline.extract_data
   /\ DemoScraper._display_results (W:=W)
      = Pipeline._display_results Pipeline.demo
   /\ DemoScraper.run_scrape (W:=W) = Pipeline.run_scrape Pipeline.demo
   /\ DemoScraper.main (W:=W) = Pipeline.main Pipeline.demo
   /\ DemoScraper.__main__ (W:=W) = Pipeline.__main__ Pipeline.demo)
  /\ (TestScraper.__init__ = Pipeline.__init__ Pipeline.test
      /\ TestScraper.start_browser (W:=W) = Pipeline.start_browser
      /\ TestScraper.cleanup (W:=W) = Pipeline.cleanup
      /\ TestScraper._handle_page_error (W:=W) = Pipeline._handle_page_error
      /\ TestScraper._handle_request_failed (W:=W)
         = Pipeline._handle_request_failed
      /\ TestScraper.navigate_to_page (W:=W)
         = Pipeline.navigate_to_page Pipeline.test
      /\ TestScraper.save_html (W:=W) = Pipeline.save_html Pipeline.test
      /\ TestScraper.save_screenshot (W:=W)
         = Pipeline.save_screenshot Pipeline.test
      /\ TestScraper.extract_data (W:=W) = Pipeline.extract_data
      /\ TestScraper._display_results (W:=W)
         = Pipeline._display_results Pipeline.test
      /\ TestScraper.run_scrape (W:=W) = Pipeline.run_scrape Pipeline.test
      /\ TestScraper.main (W:=W) = Pipeline.main Pipeline.test
      /\ TestScraper.__main__ (W:=W) = Pipeline.__main__ Pipeline.test).
Proof. split; repeat split. Qed.

Section Cleaned.
Context {W : Type} `{World W}.

Lemma pipeline_cleanup_cleaned (st : state W Headings.data) r st' :
  Pipeline.cleanup st = (r, st') ->
  exists t, r = Ok tt /\ self st' = self st /\ out st' = out st ++ t
            /\ cleaned (self st) t.
Proof.
  intros E. unfold Pipeline.cleanup in E. run E.
  all: cbn [world self out outcome_of to_value] in *.
  all: eexists; (split; [reflexivity | ]); (split; [reflexivity | ]);
       (split; [first [trace_eq | symmetry; apply app_nil_r] | ]).
  all: unfold cleaned; cbn [calls called logged map fst hd_error].
  all: split;
       [ repeat first [ apply subseq_nil | apply subseq_take
                      | apply subseq_skip ] | ].
  all: repeat split; try congruence; eauto.
  all: repeat intro.
  all: repeat match goal with
         | Hi : In _ _ |- _ => in_cases Hi
         | Hi : _ \/ _ |- _ => destruct Hi as [Hi | Hi]; try discriminate Hi
         | Hi : False |- _ => contradiction Hi
         end.
  all: try reflexivity; try congruence.
  all: cbn [In]; auto.
  all: exfalso;
       match goal with
       | Hno : forall e, ~ In _ _ |- _ => eapply Hno; cbn [In]; now eauto
       | Hno : forall c e, ~ In _ _ |- _ => eapply Hno; cbn [In]; now eauto
       end.
Qed.

End Cleaned.

(** X11: [cleanup], in [DemoScraper] and [TestScraper], never raises and
    leaves the scraper as it was.  It closes the context first, when
    there is one, and stops Playwright next, when it was started; but
    when closing the context raises, Playwright is not stopped.  The
    exception is logged as an error, and is not appended to the error
    list. *)
Theorem cleanup_stops_at_the_first_failure {W : Type} `{World W}
    (st : state W Headings.data) :
  (let st' := snd (DemoScraper.cleanup st) in
   fst (DemoScraper.cleanup st) = Ok tt
   /\ self st' = self st
   /\ cleaned (self st) (since st st'))
  /\ (let st' := snd (TestScraper.cleanup st) in
      fst (TestScraper.cleanup st) = Ok tt
      /\ self st' = self st
      /\ cleaned (self st) (since st st')).
Proof.
  assert (let st' := snd (Pipeline.cleanup st) in
          fst (Pipeline.cleanup st) = Ok tt
          /\ self st' = self st
          /\ cleaned (self st) (since st st')) as Hc.
  { cbn zeta. destruct (Pipeline.cleanup st) as [r st'] eqn:E.
    cbn [fst snd].
    destruct (pipeline_cleanup_cleaned _ _ _ E) as (t & -> & Hs & Ho & Hcl).
    rewrite (since_app _ _ _ Ho). auto. }
  split; exact Hc.
Qed.

Section RunOutcome.
Context {W : Type} `{World W}.
Variable cfg : Pipeline.config.


End RunOutcome.



Section ZaraErrors.
Import ZaraScraper Runs.


End ZaraErrors.


(** X15: [ZaraScraper] never closes the browser context and never stops
    Playwright: no run of its [main] makes either call.  [DemoScraper] and
    [TestScraper] never look for a cookie popup, and close the context in
    every run of [main] in which the browser started. *)
Theorem zara_never_cleans_up {W : Type} `{World W} (now : string) :
  (forall st : state W ZaraScraper.data,
      let t := since st (snd (ZaraScraper.main now st)) in
      Forall (fun co => cleaning (fst co) = false) (called t))
  /\ (forall st : state W Headings.data,
        let t := since st (snd (DemoScraper.main now st)) in
        Forall (fun co => probing (fst co) = false) (called t)
        /\ ((exists o, In (ContextClose, o) (called t))
            \/ exists e,
                 fst (DemoScraper.main now st) = Ok (Headings.MainError e)))
  /\ (forall st : state W Headings.data,
        let t := since st (snd (TestScraper.main now st)) in
        Forall (fun co => probing (fst co) = false) (called t)
        /\ ((exists o, In (ContextClose, o) (called t))
            \/ exists e,
                 fst (TestScraper.main now st) = Ok (Headings.MainError e))).
Proof.
  split; [ | split ].
  - intros st. cbn zeta.
    destruct (ZaraScraper.main now st) as [r st'] eqn:E. cbn [snd].
    destruct (zara_main _ _ _ _ E) as (res & t & _ & Ho & _ & Hq & _).
    rewrite (since_app _ _ _ Ho). apply Forall_forall.
    intros [c o] Hi. exact (Hq _ _ Hi).
  - intros st. cbn zeta.
    destruct (DemoScraper.main now st) as [r st'] eqn:E. cbn [fst snd].
    destruct (pipeline_main Pipeline.demo _ _ _ _ E)
      as (res & t & -> & Ho & _ & Hq & [(-> & _ & Hc) | (e & -> & _)]);
      rewrite (since_app _ _ _ Ho);
      (split; [ apply Forall_forall; intros [c o] Hi; exact (Hq _ _ Hi) | ]);
      [ left; exact Hc | right; exists e; reflexivity ].
  - intros st. cbn zeta.
    destruct (TestScraper.main now st) as [r st'] eqn:E. cbn [fst snd].
    destruct (pipeline_main Pipeline.test _ _ _ _ E)
      as (res & t & -> & Ho & _ & Hq & [(-> & _ & Hc) | (e & -> & _)]);
      rewrite (since_app _ _ _ Ho);
      (split; [ apply Forall_forall; intros [c o] Hi; exact (Hq _ _ Hi) | ]);
      [ left; exact Hc | right; exists e; reflexivity ].
Qed.

(** ** The extraction of [scrape_zara_homepage.py] *)

Lemma link_read_cons e t l : link_read t l -> link_read (e :: t) l.
Proof.
  intros (Hne & i & raw & H1 & H2 & H3). split; [exact Hne | ].
  exists i, raw. repeat split; auto; now right.
Qed.

Section ScriptLoop.
Context {W : Type} `{World W} {D : Type}.
Import scrape_zara_homepage.
Implicit Types st : state W D.

Lemma script_extract_loop indices acc st r st' :
  extract_loop indices acc st = (r, st') ->
  exists t, out st' = out st ++ t /\ self st' = self st
    /\ ((exists new, r = Ok (acc ++ new)
           /\ Forall (link_read t) new
           /\ length new <= length indices
           /\ forall c e, ~ In (c, Raised e) (called t))
        \/ (exists c e, r = Raise e /\ ends_with (called t) (c, Raised e))).
Proof.
  revert acc st r st'.
  induction indices as [|i rest IH]; intros acc st r st' E.
  - cbn [extract_loop] in E. run E. exists []. rewrite !app_nil_r.
    split; [reflexivity | ]. split; [reflexivity | ].
    left. exists []. rewrite app_nil_r.
    repeat split; auto.
  - cbn [extract_loop] in E. run E.
    all: cbn [world self out outcome_of to_value] in *.
    all: try match goal with
         | Hs : extract_loop _ _ _ = _ |- _ =>
             apply IH in Hs;
             destruct Hs as (t & Hout & Hself
                             & [(new & -> & Hall & Hlen & Hno)
                               | (c & e & -> & Hend)]);
             cbn [world self out] in *; rewrite Hout, Hself
         end.
    all: eexists; (split; [trace_eq | ]); (split; [reflexivity | ]).
    all: first
      [ (* an exception of the rest of the loop, or of one of the two reads *)
        right; eexists _, _; split; [ reflexivity | ];
        cbn [called];
        first [ do 2 apply ends_with_cons; exact Hend | ends_tac ]
      | (* the anchor is kept *)
        left;
        match goal with
        | Hb : Py.truthy ?h = true |- context [ Link (Py.strip ?raw) ?h ] =>
            exists (Link (Py.strip raw) h :: new);
            split; [ rewrite <- app_assoc; reflexivity | ];
            split;
            [ constructor;
              [ split; [ exact (truthy_not_empty _ Hb) | ];
                exists i, raw; cbn [href text];
                split; [ now left | split; [ right; now left | reflexivity ] ]
              | eapply Forall_impl; [ | exact Hall ];
                intros l Hl; now do 2 apply link_read_cons ] | ];
            split; [ cbn [length]; lia | ]
        end;
        intros c e Hi; cbn [called] in Hi;
        destruct Hi as [Hi | [Hi | Hi]];
        [ discriminate Hi | discriminate Hi | exact (Hno _ _ Hi) ]
      | (* the anchor is left out *)
        left; exists new; split; [ reflexivity | ];
        split; [ eapply Forall_impl; [ | exact Hall ];
                 intros l Hl; now do 2 apply link_read_cons | ];
        split; [ cbn [length]; lia | ];
        intros c e Hi; cbn [called] in Hi;
        destruct Hi as [Hi | [Hi | Hi]];
        [ discriminate Hi | discriminate Hi | exact (Hno _ _ Hi) ] ].
Qed.

Lemma script_extract_hero_banners st r st' :
  extract_hero_banners st = (r, st') ->
  exists t, out st' = out st ++ t /\ self st' = self st
    /\ ((exists bs, r = Ok bs
           /\ Forall (link_read t) bs
           /\ length bs <= 20
           /\ forall c e, ~ In (c, Raised e) (called t))
        \/ (exists c e, r = Raise e /\ ends_with (called t) (c, Raised e))).
Proof.
  intros E. unfold extract_hero_banners in E. run E.
  all: cbn [world self out outcome_of to_value] in *.
  all: try match goal with
       | Hs : extract_loop _ _ _ = _ |- _ =>
           apply script_extract_loop in Hs;
           destruct Hs as (t & Hout & Hself
                           & [(new & Hr' & Hall & Hlen & Hno)
                             | (c & e & Hr' & Hend)]);
           cbn [world self out app] in *; rewrite Hout, Hself
       end.
  all: eexists; (split; [trace_eq | ]); (split; [reflexivity | ]).
  - left. exists new. split; [exact Hr' | ].
    split; [ eapply Forall_impl; [ | exact Hall ];
             intros l Hl; now do 2 apply link_read_cons | ].
    split.
    + rewrite range_length in Hlen. lia.
    + intros c e Hi. cbn [called] in Hi.
      destruct Hi as [Hi | [Hi | Hi]];
        [ discriminate Hi | discriminate Hi | exact (Hno _ _ Hi) ].
  - right. exists c, e. split; [exact Hr' | ].
    cbn [called]. do 2 apply ends_with_cons. exact Hend.
  - right. eexists _, _. split; [reflexivity | ]. cbn [called]. ends_tac.
  - right. eexists _, _. split; [reflexivity | ]. cbn [called]. ends_tac.
Qed.

End ScriptLoop.

(** ** The two extractions, side by side *)

Section TwoExtractions.
Context {W : Type} `{World W}.
Implicit Types st : state W ZaraScraper.data.

(** One turn of the loop of [ZaraScraper] when the two reads return. *)
Lemma zara_extract_turn i rest acc st a w raw w0 :
  respond (NthGetAttribute "a:visible" "SHOP" i "href") (world st) = (Ok a, w) ->
  respond (NthInnerText "a:visible" "SHOP" i) w = (Ok raw, w0) ->
  ZaraScraper.extract_loop (i :: rest) acc st
  = ZaraScraper.extract_loop rest
      (match a with
       | Some h =>
           if Py.truthy h && Py.truthy (Py.strip raw)
           then acc ++ [ ZaraScraper.Banner (Py.strip raw) h i ]
           else acc
       | None => acc
       end)
      (State w0 (self st)
         (out st
          ++ [ Called (NthGetAttribute "a:visible" "SHOP" i "href")
                 (Returned (match a with Some s => VStr s | None => VNone end));
               Called (NthInnerText "a:visible" "SHOP" i)
                 (Returned (VStr raw)) ])).
Proof.
  intros Hr Hr0. cbn [ZaraScraper.extract_loop].
  unfold bind at 1. unfold try_except, bind, do_call.
  rewrite Hr. cbn [world self out]. rewrite Hr0. cbn [world self out].
  rewrite <- app_assoc. cbn [app outcome_of to_value].
  destruct a as [h|]; [ destruct (Py.truthy h && Py.truthy (Py.strip raw)) | ];
    reflexivity.
Qed.

Lemma extract_loops_agree {D : Type} indices :
  forall acc_s acc_c (st_s : state W D) st_c bs st_s',
    world st_s = world st_c ->
    scrape_zara_homepage.extract_loop indices acc_s st_s = (Ok bs, st_s') ->
    exists new_s new_c st_c',
      bs = acc_s ++ new_s
      /\ ZaraScraper.extract_loop indices acc_c st_c
         = (Ok (acc_c ++ new_c), st_c')
      /\ world st_c' = world st_s'
      /\ self st_c' = self st_c
      /\ map unindexed new_c = filter with_text new_s.
Proof.
  induction indices as [|i rest IH]; intros acc_s acc_c st_s st_c bs st_s' Hw E.
  - cbn [scrape_zara_homepage.extract_loop] in E. run E.
    exists [], [], st_c. rewrite !app_nil_r. repeat split; auto.
  - cbn [scrape_zara_homepage.extract_loop] in E. run E.
    all: cbn [world self out outcome_of to_value] in *.
    all: rewrite Hw in *.
    all: match goal with
         | Hr : respond (NthGetAttribute _ _ _ _) _ = _,
           Hr0 : respond (NthInnerText _ _ _) _ = _ |- _ =>
             rewrite (zara_extract_turn _ rest acc_c _ _ _ _ _ Hr Hr0)
         end.
    all: match goal with
         | Hs : scrape_zara_homepage.extract_loop _ ?acc ?s = _
           |- context [ ZaraScraper.extract_loop _ ?acc' ?s' ] =>
             destruct (IH acc acc' s s' _ _ eq_refl Hs)
               as (new_s & new_c & st_c' & -> & Hc & Hw' & Hs' & Hm)
         end.
    all: cbn [self] in Hs'.
    + rewrite Hb in Hc |- *. cbn [andb] in Hc |- *.
      destruct (Py.truthy (Py.strip a0)) eqn:Ht.
      * exists (scrape_zara_homepage.Link (Py.strip a0) s :: new_s),
               (ZaraScraper.Banner (Py.strip a0) s i :: new_c), st_c'.
        split; [ rewrite <- app_assoc; reflexivity | ].
        split; [ rewrite Hc, <- app_assoc; reflexivity | ].
        split; [ exact Hw' | ]. split; [ exact Hs' | ].
        cbn [map filter unindexed with_text scrape_zara_homepage.text
             ZaraScraper.text ZaraScraper.href].
        unfold with_text at 1, unindexed at 1.
        cbn [scrape_zara_homepage.text ZaraScraper.text ZaraScraper.href].
        rewrite Ht. f_equal. exact Hm.
      * exists (scrape_zara_homepage.Link (Py.strip a0) s :: new_s),
               new_c, st_c'.
        split; [ rewrite <- app_assoc; reflexivity | ].
        split; [ exact Hc | ].
        split; [ exact Hw' | ]. split; [ exact Hs' | ].
        cbn [filter]. unfold with_text at 1.
        cbn [scrape_zara_homepage.text]. rewrite Ht. exact Hm.
    + rewrite Hb in Hc |- *. cbn [andb] in Hc |- *.
      exists new_s, new_c, st_c'. auto.
    + exists new_s, new_c, st_c'. auto.
Qed.

(** When the function of the script returns, the method of the class,
    run in the same world by a scraper that has its page, returns the
    same links, less those whose text is empty, and counts them. *)
Lemma extractions_agree st bs st_s' :
  page (self st) = true ->
  scrape_zara_homepage.extract_hero_banners st = (Ok bs, st_s') ->
  exists bc st_c',
    ZaraScraper.extract_hero_banners st = (Ok bc, st_c')
    /\ map unindexed bc = filter with_text bs
    /\ ZaraScraper.banners_found (scrape_data (self st_c')) = length bc
    /\ ZaraScraper.errors (scrape_data (self st_c'))
       = ZaraScraper.errors (scrape_data (self st))
    /\ world st_c' = world st_s'.
Proof.
  intros Hpage E. unfold scrape_zara_homepage.extract_hero_banners in E.
  run E. cbn [world self out outcome_of to_value] in *.
  unfold ZaraScraper.extract_hero_banners.
  cbv [bind try_except print logger emit page_call page_attr get_self ret
       do_call ZaraScraper.update get_scrape_data set_scrape_data set_self
       raise].
  cbn [world self out]. rewrite Hpage. cbn [world self out].
  rewrite Hr. cbn [world self out]. rewrite Hpage. cbn [world self out].
  rewrite Hr0. cbn [world self out].
  match goal with
  | |- context [ ZaraScraper.extract_loop ?ix ?acc ?s ] =>
      match type of H2 with
      | scrape_zara_homepage.extract_loop _ _ ?ss = _ =>
          destruct (extract_loops_agree _ [] acc ss s _ _ eq_refl H2)
            as (new_s & new_c & st_c' & -> & Hc & Hw' & Hs' & Hm)
      end
  end.
  rewrite Hc. cbn [app world self out scrape_data with_data] in *.
  eexists _, _. split; [reflexivity | ].
  cbn [world self out scrape_data with_data ZaraScraper.banners_found
       ZaraScraper.errors ZaraScraper.with_banners_found].
  rewrite Hs'. auto.
Qed.

End TwoExtractions.

(** X16: [extract_hero_banners] of [scrape_zara_homepage.py] has no
    handler: it raises as soon as one of its calls raises, that call being
    the last it makes, and otherwise returns at most 20 links, each made
    of the [href], not empty, and of the stripped text that were read
    from one anchor. *)
Theorem script_extraction_returns_or_raises {W : Type} `{World W} {D : Type}
    (st : state W D) :
  let st' := snd (scrape_zara_homepage.extract_hero_banners st) in
  let t := since st st' in
  self st' = self st
  /\ ((exists bs,
         fst (scrape_zara_homepage.extract_hero_banners st) = Ok bs
         /\ length bs <= 20
         /\ Forall (link_read t) bs
         /\ forall c e, ~ In (c, Raised e) (called t))
      \/ (exists c e,
            fst (scrape_zara_homepage.extract_hero_banners st) = Raise e
            /\ ends_with (called t) (c, Raised e))).
Proof.
  cbn zeta.
  destruct (scrape_zara_homepage.extract_hero_banners st) as [r st'] eqn:E.
  cbn [fst snd].
  destruct (script_extract_hero_banners _ _ _ E)
    as (t & Ho & Hs & [(bs & -> & Hall & Hlen & Hno) | (c & e & -> & Hend)]);
    rewrite (since_app _ _ _ Ho); (split; [exact Hs | ]).
  - left. exists bs. auto.
  - right. exists c, e. auto.
Qed.

(** X17: when [extract_hero_banners] of [scrape_zara_homepage.py]
    returns, the method of the same name of [ZaraScraper], called in the
    same world by a scraper that has its page, returns the same links in
    the same order, less those whose stripped text is empty; it sets
    [banners_found] to their number, adds no error, and leaves the world
    where the function of the script leaves it. *)
Theorem class_extraction_agrees_with_script {W : Type} `{World W}
    (st : state W ZaraScraper.data) (bs : list scrape_zara_homepage.link) :
  page (self st) = true ->
  fst (scrape_zara_homepage.extract_hero_banners st) = Ok bs ->
  let st' := snd (ZaraScraper.extract_hero_banners st) in
  exists bc,
    fst (ZaraScraper.extract_hero_banners st) = Ok bc
    /\ map unindexed bc = filter with_text bs
    /\ ZaraScraper.banners_found (scrape_data (self st')) = length bc
    /\ ZaraScraper.errors (scrape_data (self st'))
       = ZaraScraper.errors (scrape_data (self st))
    /\ world st'
       = world (snd (scrape_zara_homepage.extract_hero_banners st)).
Proof.
  intros Hpage Hs. cbn zeta.
  destruct (scrape_zara_homepage.extract_hero_banners st) as [r st_s'] eqn:E.
  cbn [fst snd] in *. subst r.
  destruct (extractions_agree _ _ _ Hpage E)
    as (bc & st_c' & Hc & Hm & Hn & He & Hw).
  rewrite Hc. cbn [fst snd]. exists bc. auto.
Qed.

Lemma class_extraction_agrees_with_script_witness :
  exists bc,
    fst (ZaraScraper.extract_hero_banners (Worlds.zara blank_anchor)) = Ok bc
    /\ map unindexed bc
       = [ scrape_zara_homepage.Link "SHOP NOW"
             "/us/en/woman-new-in-l1180.html" ].
Proof.
  assert (page (self (Worlds.zara blank_anchor)) = true) as Hpage
    by reflexivity.
  assert (fst (scrape_zara_homepage.extract_hero_banners
                 (Worlds.zara blank_anchor))
          = Ok [ scrape_zara_homepage.Link "SHOP NOW"
                   "/us/en/woman-new-in-l1180.html";
                 scrape_zara_homepage.Link ""
                   "/us/en/woman-new-in-l1180.html" ]) as Hs
    by (vm_compute; reflexivity).
  destruct (class_extraction_agrees_with_script
              (Worlds.zara blank_anchor) _ Hpage Hs) as (bc & Hc & Hm & _).
  exists bc. split; [exact Hc | exact Hm].
Defined.

(** ** What the report shows *)








(** * A run on a scraper whose browser was never started *)

Section NoBrowser.

Context {W : Type} `{World W}.

Lemma zara_run_scrape_no_page (st : state W ZaraScraper.data) :
  page (self st) = false ->
  let msg := "Failed to navigate to homepage: 'NoneType' object has no attribute 'goto'" in
  let d' := ZaraScraper.with_success false
              (ZaraScraper.with_error msg (scrape_data (self st))) in
  ZaraScraper.run_scrape st
  = (Ok d',
     State (world st) (with_data d' (self st))
       (out st ++
        [ PrintPanel "Starting Scrape"
            ("Zara Homepage Scraper - Ticket 2" ++ Py.nl
             ++ "Timestamp: " ++ timestamp (self st) ++ Py.nl
             ++ "URL: " ++ ZaraScraper.ZARA_HOME_URL ++ Py.nl
             ++ "Locale: " ++ locale (self st));
          Log INFO "Starting Zara homepage scrape";
          Print ("Navigating to " ++ ZaraScraper.ZARA_HOME_URL ++ "...");
          Log INFO ("Navigating to " ++ ZaraScraper.ZARA_HOME_URL);
          Print msg;
          Log ERROR msg ])%list).
Proof.
  intros Hp. destruct st as [w s o]. cbn [self world out] in *.
  unfold ZaraScraper.run_scrape, ZaraScraper.navigate_to_homepage,
    page_call, page_attr.
  cbv [bind try_except print logger emit ret raise get_self set_self
       ZaraScraper.update set_scrape_data get_scrape_data world self out].
  rewrite Hp. cbn.
  rewrite <- !app_assoc. reflexivity.
Qed.

Lemma pipeline_run_scrape_no_page (cfg : Pipeline.config)
    (st : state W Headings.data) :
  page (self st) = false ->
  let msg := "Failed to navigate to page: 'NoneType' object has no attribute 'goto'" in
  let d' := Headings.with_success false
              (Headings.with_error msg (scrape_data (self st))) in
  Pipeline.run_scrape cfg st
  = (Ok d',
     State (world st) (with_data d' (self st))
       (out st ++
        [ PrintPanel ("Starting " ++ Pipeline.label cfg ++ " Scrape")
            (Pipeline.headline cfg ++ Py.nl
             ++ "Timestamp: " ++ timestamp (self st) ++ Py.nl
             ++ "URL: " ++ Pipeline.URL cfg ++ Py.nl
             ++ "Locale: " ++ locale (self st));
          Log INFO ("Starting " ++ Pipeline.label_lower cfg ++ " scrape");
          Print ("Navigating to " ++ Pipeline.URL cfg ++ "...");
          Log INFO ("Navigating to " ++ Pipeline.URL cfg);
          Print msg;
          Log ERROR msg ])%list).
Proof.
  intros Hp. destruct st as [w s o]. cbn [self world out] in *.
  unfold Pipeline.run_scrape, Pipeline.navigate_to_page,
    page_call, page_attr.
  cbv [bind try_except print logger emit ret raise get_self set_self
       Headings.update set_scrape_data get_scrape_data world self out].
  rewrite Hp. cbn.
  rewrite <- !app_assoc. reflexivity.
Qed.

End NoBrowser.

(** X19: [run_scrape] on a scraper whose browser was never started
    ([self.page] is still [None]) does not raise, in any of the three
    classes: the attribute error of [self.page.goto] is caught by the
    navigation step, so the run returns the record with [success] false
    and with that one error added to its errors, everything else in it
    as it was.  Nothing is called, the world is untouched, that one
    error is logged and no table is printed. *)
Theorem run_scrape_before_start_browser {W : Type} `{World W}
    (zs : state W ZaraScraper.data) (hs : state W Headings.data)
    (Hz : page (self zs) = false) (Hh : page (self hs) = false) :
  (let st' := snd (ZaraScraper.run_scrape zs) in
   let t := since zs st' in
   let msg := "Failed to navigate to homepage: 'NoneType' object has no attribute 'goto'" in
   fst (ZaraScraper.run_scrape zs) = Ok (scrape_data (self st'))
   /\ scrape_data (self st')
      = ZaraScraper.with_success false
          (ZaraScraper.with_error msg (scrape_data (self zs)))
   /\ world st' = world zs
   /\ called t = []
   /\ logged ERROR t = [ msg ]
   /\ tables t = [])
  /\ (let st' := snd (DemoScraper.run_scrape hs) in
      let t := since hs st' in
      let msg := "Failed to navigate to page: 'NoneType' object has no attribute 'goto'" in
      fst (DemoScraper.run_scrape hs) = Ok (scrape_data (self st'))
      /\ scrape_data (self st')
         = Headings.with_success false
             (Headings.with_error msg (scrape_data (self hs)))
      /\ world st' = world hs
      /\ called t = []
      /\ logged ERROR t = [ msg ]
      /\ tables t = [])
  /\ (let st' := snd (TestScraper.run_scrape hs) in
      let t := since hs st' in
      let msg := "Failed to navigate to page: 'NoneType' object has no attribute 'goto'" in
      fst (TestScraper.run_scrape hs) = Ok (scrape_data (self st'))
      /\ scrape_data (self st')
         = Headings.with_success false
             (Headings.with_error msg (scrape_data (self hs)))
      /\ world st' = world hs
      /\ called t = []
      /\ logged ERROR t = [ msg ]
      /\ tables t = []).
Proof.
  cbn zeta. split; [ | split ].
  - rewrite (zara_run_scrape_no_page zs Hz). cbn [fst snd self world].
    erewrite since_app by reflexivity.
    repeat split; reflexivity.
  - change (DemoScraper.run_scrape hs)
      with (Pipeline.run_scrape Pipeline.demo hs).
    rewrite (pipeline_run_scrape_no_page Pipeline.demo hs Hh).
    cbn [fst snd self world].
    erewrite since_app by reflexivity.
    repeat split; reflexivity.
  - change (TestScraper.run_scrape hs)
      with (Pipeline.run_scrape Pipeline.test hs).
    rewrite (pipeline_run_scrape_no_page Pipeline.test hs Hh).
    cbn [fst snd self world].
    erewrite since_app by reflexivity.
    repeat split; reflexivity.
Qed.

Lemma run_scrape_before_start_browser_witness :
  let zs := State Worlds.calm
              (ZaraScraper.__init__ "20250101_120000" true "en-US") [] in
  let hs := State Worlds.calm
              (DemoScraper.__init__ "20250101_120000" true "en-US") [] in
  fst (ZaraScraper.run_scrape zs)
  = Ok (ZaraScraper.Data "20250101_120000" ZaraScraper.ZARA_HOME_URL "en-US"
          false None None 0
          [ "Failed to navigate to homepage: 'NoneType' object has no attribute 'goto'" ]
          None)
  /\ called (since hs (snd (DemoScraper.run_scrape hs))) = [].
Proof.
  cbn zeta.
  pose proof (run_scrape_before_start_browser
                (State Worlds.calm
                   (ZaraScraper.__init__ "20250101_120000" true "en-US") [])
                (State Worlds.calm
                   (DemoScraper.__init__ "20250101_120000" true "en-US") [])
                eq_refl eq_refl) as (Hzara & Hdemo & _).
  cbn zeta in Hzara, Hdemo.
  destruct Hzara as (Hr & Hd & _). destruct Hdemo as (_ & _ & _ & Hc & _).
  split; [ | exact Hc ].
  rewrite Hr, Hd. reflexivity.
Defined.

(** * What the report of [DemoScraper] and [TestScraper] shows *)

Section PipelineReport.

Context {W : Type} `{World W}.
Variable cfg : Pipeline.config.



End PipelineReport.

